(** * Availability and booking engine of the medical appointment scheduler

    A shallow embedding of [backend/api/calendly_integration.py]
    ([CalendlyMockAPI]) and [backend/tools/availability_tool.py]
    ([AvailabilityTool]), together with the parts of Python's [datetime]
    module those two files rely on, and the properties of the engine stated
    over that embedding.

    Conventions.
    - A Python [str] is a [string]; only code points below 256 occur, so the
      regular-expression class [\d] is the ten ASCII digits.
    - A Python [dict] with string keys is a [gmap string _]; [d[k]] raises
      [KeyError] on a missing key, [d.get(k)] is the plain lookup.
    - Exceptions are values: every operation that can raise returns an
      [outcome].  The only unbounded loop of the program (the [while] of
      [get_availability]) is run with fuel; [OutOfFuel] is the third outcome.
    - Dict objects that the program shares between several places live in a
      heap and are addressed by reference. *)

From Stdlib Require Import ZArith String Ascii List Lia Bool Sorted.
From stdpp Require Import base option list gmap strings.

Open Scope string_scope.
Open Scope list_scope.
Open Scope Z_scope.

(** ** Outcomes: normal return, exception, or fuel exhausted *)

Inductive exn := ValueError | KeyError | OverflowError | OSError.

Inductive outcome (A : Type) :=
| Ret (a : A)
| Raise (e : exn)
| OutOfFuel.
Arguments Ret {A} a.
Arguments Raise {A} e.
Arguments OutOfFuel {A}.

Definition outcome_bind {A B} (f : A -> outcome B) (m : outcome A) : outcome B :=
  match m with
  | Ret a => f a
  | Raise e => Raise e
  | OutOfFuel => OutOfFuel
  end.

#[global] Instance outcome_mbind : MBind outcome := @outcome_bind.
#[global] Instance outcome_mret : MRet outcome := @Ret.

(** ** The fragment of Python's standard library the engine uses *)

Module Py.

(** *** Characters and decimal digits *)

Definition digit_val (c : ascii) : option Z :=
  let n := Z.of_N (N_of_ascii c) in
  if (48 <=? n) && (n <=? 57) then Some (n - 48) else None.

Definition digit_char (d : Z) : ascii := ascii_of_N (Z.to_N (48 + d)).

(** [str.upper] and [str.lower] on ASCII letters. *)
Definition upper_char (c : ascii) : ascii :=
  let n := Z.of_N (N_of_ascii c) in
  if (97 <=? n) && (n <=? 122) then ascii_of_N (Z.to_N (n - 32)) else c.

Definition lower_char (c : ascii) : ascii :=
  let n := Z.of_N (N_of_ascii c) in
  if (65 <=? n) && (n <=? 90) then ascii_of_N (Z.to_N (n + 32)) else c.

Fixpoint map_string (f : ascii -> ascii) (s : string) : string :=
  match s with
  | EmptyString => EmptyString
  | String c r => String (f c) (map_string f r)
  end.

Definition upper : string -> string := map_string upper_char.
Definition lower : string -> string := map_string lower_char.

(** [s[:n]] for [n >= 0]. *)
Fixpoint str_take (n : nat) (s : string) : string :=
  match n, s with
  | S k, String c r => String c (str_take k r)
  | _, _ => EmptyString
  end.

(** [s.split(':')[0]]: the characters before the first colon. *)
Fixpoint split_colon_head (s : string) : string :=
  match s with
  | EmptyString => EmptyString
  | String c r => if Ascii.eqb c ":" then EmptyString else String c (split_colon_head r)
  end.

(** [int(s)] on a non-empty string of ASCII digits; every other string is
    reported as [ValueError] (the engine only converts the hour field of a
    time it formatted itself). *)
Fixpoint int_digits (acc : Z) (s : string) : option Z :=
  match s with
  | EmptyString => Some acc
  | String c r =>
      match digit_val c with
      | Some d => int_digits (10 * acc + d) r
      | None => None
      end
  end.

Definition int (s : string) : outcome Z :=
  match s with
  | EmptyString => Raise ValueError
  | _ => match int_digits 0 s with Some n => Ret n | None => Raise ValueError end
  end.

(** *** Regular-expression pieces of [_strptime]

    A piece maps the remaining input to the list of its possible matches
    (value, rest), in the order a backtracking engine tries them. *)

Definition piece := string -> list (Z * string).

Definition in_range (lo hi : Z) (c : ascii) : option Z :=
  match digit_val c with
  | Some d => if (lo <=? d) && (d <=? hi) then Some d else None
  | None => None
  end.

(** One alternative made of two character classes, e.g. [1[0-2]]. *)
Definition two (lo1 hi1 lo2 hi2 : Z) : piece := fun s =>
  match s with
  | String a (String b r) =>
      match in_range lo1 hi1 a, in_range lo2 hi2 b with
      | Some x, Some y => [(10 * x + y, r)]
      | _, _ => []
      end
  | _ => []
  end.

(** One alternative made of one character class, e.g. [[1-9]]. *)
Definition one (lo hi : Z) : piece := fun s =>
  match s with
  | String a r =>
      match in_range lo hi a with
      | Some x => [(x, r)]
      | None => []
      end
  | _ => []
  end.

(** The alternative [ [1-9]] of the day directive: a blank, then a digit. *)
Definition blank_one (lo hi : Z) : piece := fun s =>
  match s with
  | String a r => if Ascii.eqb a " " then one lo hi r else []
  | _ => []
  end.

Definition alt (p q : piece) : piece := fun s => p s ++ q s.

(** [%Y] is [\d\d\d\d]. *)
Definition re_Y : piece := fun s =>
  match s with
  | String a (String b (String c (String d r))) =>
      match digit_val a, digit_val b, digit_val c, digit_val d with
      | Some w, Some x, Some y, Some z => [(1000 * w + 100 * x + 10 * y + z, r)]
      | _, _, _, _ => []
      end
  | _ => []
  end.

(** [%m] is [1[0-2]|0[1-9]|[1-9]]. *)
Definition re_m : piece := alt (two 1 1 0 2) (alt (two 0 0 1 9) (one 1 9)).

(** [%d] is [3[0-1]|[1-2]\d|0[1-9]|[1-9]| [1-9]]. *)
Definition re_d : piece :=
  alt (two 3 3 0 1) (alt (two 1 2 0 9) (alt (two 0 0 1 9) (alt (one 1 9) (blank_one 1 9)))).

(** [%H] is [2[0-3]|[0-1]\d|\d]. *)
Definition re_H : piece := alt (two 2 2 0 3) (alt (two 0 1 0 9) (one 0 9)).

(** [%M] is [[0-5]\d|\d]. *)
Definition re_M : piece := alt (two 0 5 0 9) (one 0 9).

(** A literal character of the format. *)
Definition lit (c : ascii) (s : string) : list string :=
  match s with
  | String a r => if Ascii.eqb a c then [r] else []
  | _ => []
  end.

(** The matches of [%Y-%m-%d] at the start of [s], first match first. *)
Definition match_ymd (s : string) : list (Z * Z * Z * string) :=
  '(y, r1) ← re_Y s; r2 ← lit "-" r1;
  '(m, r3) ← re_m r2; r4 ← lit "-" r3;
  '(d, r5) ← re_d r4; [(y, m, d, r5)].

(** The matches of [%H:%M] at the start of [s]. *)
Definition match_hm (s : string) : list (Z * Z * string) :=
  '(h, r1) ← re_H s; r2 ← lit ":" r1;
  '(m, r3) ← re_M r2; [(h, m, r3)].

(** *** Calendar arithmetic of [datetime] *)

Record date := mk_date { year : Z; month : Z; day : Z }.

Record time := mk_time { hour : Z; minute : Z }.

Definition MINYEAR : Z := 1.
Definition MAXYEAR : Z := 9999.
Definition MAXORDINAL : Z := 3652059.

Definition is_leap (y : Z) : bool :=
  (y mod 4 =? 0) && (negb (y mod 100 =? 0) || (y mod 400 =? 0)).

Definition DAYS_IN_MONTH (m : Z) : Z :=
  if m =? 2 then 28
  else if (m =? 4) || (m =? 6) || (m =? 9) || (m =? 11) then 30
  else 31.

Definition DAYS_BEFORE_MONTH (m : Z) : Z :=
  match m with
  | 1 => 0 | 2 => 31 | 3 => 59 | 4 => 90 | 5 => 120 | 6 => 151
  | 7 => 181 | 8 => 212 | 9 => 243 | 10 => 273 | 11 => 304 | 12 => 334
  | _ => 0
  end.

Definition days_before_year (y : Z) : Z :=
  let y' := y - 1 in y' * 365 + y' / 4 - y' / 100 + y' / 400.

Definition days_in_month (y m : Z) : Z :=
  if (m =? 2) && is_leap y then 29 else DAYS_IN_MONTH m.

Definition days_before_month (y m : Z) : Z :=
  DAYS_BEFORE_MONTH m + (if (m >? 2) && is_leap y then 1 else 0).

Definition ymd2ord (y m d : Z) : Z :=
  days_before_year y + days_before_month y m + d.

Definition DI400Y : Z := 146097.
Definition DI100Y : Z := 36524.
Definition DI4Y : Z := 1461.

(** The tail of [_ord2ymd]: month and day of the [n]-th day (from 0) of a
    year, estimated with [(n + 50) >> 5] and corrected when too far. *)
Definition month_day (leapyear : bool) (n : Z) : Z * Z :=
  let m := Z.shiftr (n + 50) 5 in
  let preceding := DAYS_BEFORE_MONTH m + (if (m >? 2) && leapyear then 1 else 0) in
  let '(m, preceding) :=
    if preceding >? n
    then (m - 1, preceding - (DAYS_IN_MONTH (m - 1) + (if (m - 1 =? 2) && leapyear then 1 else 0)))
    else (m, preceding) in
  (m, n - preceding + 1).

Definition ord2ymd (n : Z) : date :=
  let n := n - 1 in
  let n400 := n / DI400Y in let n := n mod DI400Y in
  let y := n400 * 400 + 1 in
  let n100 := n / DI100Y in let n := n mod DI100Y in
  let n4 := n / DI4Y in let n := n mod DI4Y in
  let n1 := n / 365 in let n := n mod 365 in
  let y := y + n100 * 100 + n4 * 4 + n1 in
  if (n1 =? 4) || (n100 =? 4) then mk_date (y - 1) 12 31
  else
    let leapyear := (n1 =? 3) && (negb (n4 =? 24) || (n100 =? 3)) in
    let '(m, d) := month_day leapyear n in
    mk_date y m d.

(** The checks of the [date] constructor. *)
Definition date_ok (d : date) : bool :=
  (MINYEAR <=? year d) && (year d <=? MAXYEAR) &&
  (1 <=? month d) && (month d <=? 12) &&
  (1 <=? day d) && (day d <=? days_in_month (year d) (month d)).

Definition toordinal (d : date) : Z := ymd2ord (year d) (month d) (day d).

(** [date.weekday()]: Monday is 0. *)
Definition weekday (d : date) : Z := (toordinal d + 6) mod 7.

(** [d + timedelta(days=n)]. *)
Definition date_add (d : date) (n : Z) : outcome date :=
  let o := toordinal d + n in
  if (0 <? o) && (o <=? MAXORDINAL) then Ret (ord2ymd o) else Raise OverflowError.

(** [d1 < d2]: comparison of the triples (year, month, day). *)
Definition date_ltb (a b : date) : bool :=
  (year a <? year b) ||
  ((year a =? year b) &&
   ((month a <? month b) || ((month a =? month b) && (day a <? day b)))).

(** *** Parsing: [datetime.strptime] *)

(** [datetime.strptime(s, "%Y-%m-%d").date()]; [None] stands for the
    [ValueError] raised when the text does not match, when unconverted data
    remains, or when the fields are not a date. *)
Definition strptime_date (s : string) : option date :=
  match match_ymd s with
  | (y, m, d, EmptyString) :: _ =>
      let dt := mk_date y m d in if date_ok dt then Some dt else None
  | _ => None
  end.

(** [datetime.strptime(s, "%H:%M").time()]. *)
Definition strptime_time (s : string) : option time :=
  match match_hm s with
  | (h, m, EmptyString) :: _ => Some (mk_time h m)
  | _ => None
  end.

(** *** Formatting: [strftime] *)

Definition fmt2 (n : Z) : string :=
  String (digit_char (n / 10)) (String (digit_char (n mod 10)) EmptyString).

(** [%Y] as the C library prints it: the decimal number, not padded. *)
Definition fmt_year (y : Z) : string :=
  if y <? 10 then String (digit_char y) EmptyString
  else if y <? 100 then fmt2 y
  else if y <? 1000 then String (digit_char (y / 100)) (fmt2 (y mod 100))
  else fmt2 (y / 100) +:+ fmt2 (y mod 100).

(** [d.strftime("%Y-%m-%d")]. *)
Definition strftime_ymd (d : date) : string :=
  fmt_year (year d) +:+ "-" +:+ fmt2 (month d) +:+ "-" +:+ fmt2 (day d).

(** [d.strftime("%Y%m%d")]. *)
Definition strftime_compact (d : date) : string :=
  fmt_year (year d) +:+ fmt2 (month d) +:+ fmt2 (day d).

(** [t.strftime("%H:%M")]. *)
Definition strftime_hm (t : time) : string :=
  fmt2 (hour t) +:+ ":" +:+ fmt2 (minute t).

(** [d.strftime("%A")] in the C locale. *)
Definition strftime_A (d : date) : string :=
  match weekday d with
  | 0 => "Monday" | 1 => "Tuesday" | 2 => "Wednesday" | 3 => "Thursday"
  | 4 => "Friday" | 5 => "Saturday" | _ => "Sunday"
  end.

(** A number that fits a C [int]. *)
Definition c_int (n : Z) : bool := (-2147483648 <=? n) && (n <=? 2147483647).

(** [time(hour=h, minute=m)]: the arguments are converted to C [int]s,
    [OverflowError] when one does not fit; then the constructor checks the
    fields, [ValueError] when one is out of range. *)
Definition mk_time_checked (h m : Z) : outcome time :=
  if negb (c_int h && c_int m) then Raise OverflowError
  else if (0 <=? h) && (h <=? 23) && (0 <=? m) && (m <=? 59)
  then Ret (mk_time h m) else Raise ValueError.

End Py.

(** ** Data model *)

(** A [{"start": ..., "end": ...}] entry of the schedule document. *)
Record hours := mk_hours { h_start : string; h_end : string }.

(** The schedule document [data/doctor_schedule.json] as [_load_schedule]
    returns it.  The document itself is not part of the sources, so it is a
    parameter of every operation.  A weekday whose entry is missing (or
    [null]) has no key in [working_hours]; the keys read with [.get] and a
    default are optional. *)
Record schedule := mk_schedule {
  working_hours : gmap string hours;
  lunch_break : option hours;
  slot_duration_minutes : option Z;
  buffer_time_minutes : option Z
}.

(** A booking record is a dict with string values; so is a patient. *)
Abbreviation booking := (gmap string string).
Abbreviation patient_info := (gmap string string).

(** The [CalendlyMockAPI] object.  [bookings] is the Python list
    [self.bookings]: a list of references to dict objects, which live in
    [heap].  [file_appointments] is the [existing_appointments] array of the
    schedule file as it was last loaded or written. *)
Record api := mk_api {
  schedule_data : schedule;
  heap : list booking;
  bookings : list nat;
  file_appointments : list booking
}.

Definition deref (h : list booking) (r : nat) : booking := default ∅ (h !! r).

(** What the program reads from its surroundings: the clocks and the two
    random UUIDs drawn by [book_appointment]. *)
Record ambient := mk_ambient {
  today_tz : Py.date;        (* datetime.now(self.timezone).date() *)
  today_naive : Py.date;     (* datetime.now().date() *)
  now_iso : string;          (* datetime.now(self.timezone).isoformat() *)
  uuid_first : string;       (* str(uuid.uuid4()), first draw *)
  uuid_second : string       (* str(uuid.uuid4()), second draw *)
}.

Module Slot.
Record t := mk { start_time : string; end_time : string; available : bool }.
End Slot.

Module Availability.
Record t := mk { date : string; available_slots : list Slot.t }.
End Availability.

Inductive details :=
| DetailsError (error : string)
| DetailsBooked (date start_time end_time appointment_type : string)
    (duration : Z) (patient : patient_info) (reason : string).

Module Result.
Record t := mk {
  booking_id : option string;
  status : string;
  confirmation_code : option string;
  details : details
}.
End Result.

Module Check.
Record t := mk {
  date : string;
  appointment_type : string;
  time_preference : option string;
  available_slots : list Slot.t;
  slots_count : Z
}.
End Check.

Module DateInfo.
Record t := mk {
  date : string;
  day_name : string;
  available_slots : list Slot.t;
  total_slots : Z
}.
End DateInfo.

Module Suggestion.
Record t := mk {
  date : string;
  start_time : string;
  end_time : string;
  day_name : string
}.
End Suggestion.

(** ** Stateful computations over the [api] object *)

Definition M (A : Type) : Type := api -> outcome A * api.

Definition M_ret {A} (a : A) : M A := fun st => (Ret a, st).

Definition M_bind {A B} (f : A -> M B) (m : M A) : M B := fun st =>
  match m st with
  | (Ret a, st') => f a st'
  | (Raise e, st') => (Raise e, st')
  | (OutOfFuel, st') => (OutOfFuel, st')
  end.

#[global] Instance M_mbind : MBind M := @M_bind.
#[global] Instance M_mret : MRet M := @M_ret.

(** A computation that only reads the object. *)
Definition read {A} (f : api -> outcome A) : M A := fun st => (f st, st).

(** ** [CalendlyMockAPI] *)

(** [d[k]] *)
Definition getitem (d : gmap string string) (k : string) : outcome string :=
  match d !! k with
  | Some v => Ret v
  | None => Raise KeyError
  end.

(** [self.appointment_durations] *)
Definition appointment_durations : gmap string Z :=
  <["consultation" := 30]> (<["followup" := 15]>
  (<["physical" := 45]> (<["specialist" := 60]> ∅))).

(** [self.appointment_durations.get(appointment_type, 30)] *)
Definition duration_of (appointment_type : string) : Z :=
  default 30 (appointment_durations !! appointment_type).

(** The run in which the schedule file is written; for the run in which it
    cannot be, see [Faulty._save_booking]. *)
Definition _save_booking (r : nat) : M unit := fun st =>
  let bs := bookings st ++ [r] in
  let st' := {| schedule_data := schedule_data st; heap := heap st;
                bookings := bs;
                file_appointments := deref (heap st) <$> bs |} in
  (_ ← getitem (deref (heap st) r) "booking_id"; Ret tt, st').

Definition _parse_time (time_str : string) : outcome Py.time :=
  match Py.strptime_time time_str with
  | Some t => Ret t
  | None => Raise ValueError
  end.

Definition day_key (check_date : Py.date) : string :=
  Py.lower (Py.strftime_A check_date).

Definition _is_working_day (sd : schedule) (check_date : Py.date) : bool :=
  bool_decide (is_Some (working_hours sd !! day_key check_date)).

Definition _get_working_hours (sd : schedule) (check_date : Py.date) : option hours :=
  working_hours sd !! day_key check_date.

Definition _get_lunch_break (sd : schedule) : hours :=
  default (mk_hours "12:00" "13:00") (lunch_break sd).

Definition _time_to_minutes (t : Py.time) : Z := Py.hour t * 60 + Py.minute t.

Definition _minutes_to_time (minutes : Z) : outcome Py.time :=
  let hours := minutes / 60 in
  let mins := minutes mod 60 in
  Py.mk_time_checked hours mins.

(** The loop of [_is_slot_available] over [self.bookings]. *)
Fixpoint check_bookings (h : list booking) (date_str : string)
    (slot_start_mins slot_end_mins : Z) (bs : list nat) : outcome bool :=
  match bs with
  | [] => Ret true
  | r :: rest =>
      let booking := deref h r in
      d ← getitem booking "date";
      if String.eqb d date_str && bool_decide (booking !! "status" = Some "confirmed") then
        booking_start ← getitem booking "start_time" ≫= _parse_time;
        booking_end ← getitem booking "end_time" ≫= _parse_time;
        let booking_start_mins := _time_to_minutes booking_start in
        let booking_end_mins := _time_to_minutes booking_end in
        if negb ((slot_end_mins <=? booking_start_mins) || (slot_start_mins >=? booking_end_mins))
        then Ret false
        else check_bookings h date_str slot_start_mins slot_end_mins rest
      else check_bookings h date_str slot_start_mins slot_end_mins rest
  end.

Definition _is_slot_available (st : api) (check_date : Py.date)
    (start_time : Py.time) (duration : Z) : outcome bool :=
  let sd := schedule_data st in
  if negb (_is_working_day sd check_date) then Ret false else
  match _get_working_hours sd check_date with
  | None => Ret false
  | Some working_hours =>
      work_start ← _parse_time (h_start working_hours);
      work_end ← _parse_time (h_end working_hours);
      let slot_start_mins := _time_to_minutes start_time in
      let slot_end_mins := slot_start_mins + duration in
      let work_start_mins := _time_to_minutes work_start in
      let work_end_mins := _time_to_minutes work_end in
      if (slot_start_mins <? work_start_mins) || (slot_end_mins >? work_end_mins)
      then Ret false else
      let lunch_break := _get_lunch_break sd in
      lunch_start ← _parse_time (h_start lunch_break);
      lunch_end ← _parse_time (h_end lunch_break);
      let lunch_start_mins := _time_to_minutes lunch_start in
      let lunch_end_mins := _time_to_minutes lunch_end in
      if negb ((slot_end_mins <=? lunch_start_mins) || (slot_start_mins >=? lunch_end_mins))
      then Ret false else
      let date_str := Py.strftime_ymd check_date in
      check_bookings (heap st) date_str slot_start_mins slot_end_mins (bookings st)
  end.

(** The [while] loop of [get_availability]; one unit of fuel per test of
    the loop condition. *)
Fixpoint slots_loop (fuel : nat) (st : api) (check_date : Py.date)
    (duration slot_duration end_mins current_mins : Z)
    (available_slots : list Slot.t) : outcome (list Slot.t) :=
  match fuel with
  | O => OutOfFuel
  | S fuel =>
      if current_mins + duration <=? end_mins then
        slot_start ← _minutes_to_time current_mins;
        slot_end ← _minutes_to_time (current_mins + duration);
        is_available ← _is_slot_available st check_date slot_start duration;
        slots_loop fuel st check_date duration slot_duration end_mins
          (current_mins + slot_duration)
          (available_slots ++
             [Slot.mk (Py.strftime_hm slot_start) (Py.strftime_hm slot_end) is_available])
      else Ret available_slots
  end.

Definition get_availability (fuel : nat) (st : api) (env : ambient)
    (date_str appointment_type : string) : outcome Availability.t :=
  match Py.strptime_date date_str with
  | None => Ret (Availability.mk date_str [])
  | Some check_date =>
      let today := today_tz env in
      if Py.date_ltb check_date today then Ret (Availability.mk date_str []) else
      let duration := duration_of appointment_type in
      match _get_working_hours (schedule_data st) check_date with
      | None => Ret (Availability.mk date_str [])
      | Some working_hours =>
          work_start ← _parse_time (h_start working_hours);
          work_end ← _parse_time (h_end working_hours);
          let slot_duration := default 15 (slot_duration_minutes (schedule_data st)) in
          let buffer_time := default 5 (buffer_time_minutes (schedule_data st)) in
          let current_mins := _time_to_minutes work_start in
          let end_mins := _time_to_minutes work_end in
          available_slots ← slots_loop fuel st check_date duration slot_duration
                              end_mins current_mins [];
          Ret (Availability.mk date_str available_slots)
      end
  end.

(** [bool(x)] for an optional string: [None] and the empty string are false. *)
Definition truthy (o : option string) : bool :=
  match o with
  | Some s => negb (String.eqb s "")
  | None => false
  end.

(** The filtering loop of [get_available_slots_only]. *)
Fixpoint preference_loop (time_preference : option string)
    (slots filtered_slots : list Slot.t) : outcome (list Slot.t) :=
  match slots with
  | [] => Ret filtered_slots
  | slot :: rest =>
      hour ← Py.int (Py.split_colon_head (Slot.start_time slot));
      if bool_decide (time_preference = Some "morning") && (6 <=? hour) && (hour <? 12)
      then preference_loop time_preference rest (filtered_slots ++ [slot])
      else if bool_decide (time_preference = Some "afternoon") && (12 <=? hour) && (hour <? 17)
      then preference_loop time_preference rest (filtered_slots ++ [slot])
      else if bool_decide (time_preference = Some "evening") && (17 <=? hour) && (hour <? 22)
      then preference_loop time_preference rest (filtered_slots ++ [slot])
      else preference_loop time_preference rest filtered_slots
  end.

Definition get_available_slots_only (fuel : nat) (st : api) (env : ambient)
    (date_str appointment_type : string) (time_preference : option string)
    : outcome (list Slot.t) :=
  availability ← get_availability fuel st env date_str appointment_type;
  let available_slots := filter (fun slot => Slot.available slot = true)
                           (Availability.available_slots availability) in
  if truthy time_preference && negb (bool_decide (available_slots = []))
  then preference_loop time_preference available_slots []
  else Ret available_slots.

(** The two failure results of [book_appointment]. *)
Definition failed (error : string) : Result.t :=
  Result.mk None "failed" None (DetailsError error).

(** The dict literal built by [book_appointment]. *)
Definition new_booking (booking_id date_str start_time end_time appointment_type
    name email phone reason confirmation_code created_at : string) : booking :=
  <["booking_id" := booking_id]> (<["date" := date_str]>
  (<["start_time" := start_time]> (<["end_time" := end_time]>
  (<["type" := appointment_type]> (<["patient_name" := name]>
  (<["patient_email" := email]> (<["patient_phone" := phone]>
  (<["reason" := reason]> (<["status" := "confirmed"]>
  (<["confirmation_code" := confirmation_code]>
  (<["created_at" := created_at]> ∅))))))))))).

(** Creating a dict object: it gets the next free address. *)
Definition alloc (b : booking) : M nat := fun st =>
  (Ret (length (heap st)),
   {| schedule_data := schedule_data st; heap := heap st ++ [b];
      bookings := bookings st; file_appointments := file_appointments st |}).

(** [obj[k] = v] on the dict object at address [r]. *)
Definition setitem (r : nat) (k v : string) : M unit := fun st =>
  (Ret tt,
   {| schedule_data := schedule_data st;
      heap := <[r := <[k := v]> (deref (heap st) r)]> (heap st);
      bookings := bookings st; file_appointments := file_appointments st |}).

Definition book_appointment (env : ambient)
    (appointment_type date_str start_time : string)
    (patient : patient_info) (reason : string) : M Result.t :=
  _ ← read (fun _ => getitem patient "name");
  match Py.strptime_date date_str, Py.strptime_time start_time with
  | Some check_date, Some slot_start =>
      let duration := duration_of appointment_type in
      is_available ← read (fun st => _is_slot_available st check_date slot_start duration);
      if negb is_available then mret (failed "Time slot is not available") else
      let end_mins := _time_to_minutes slot_start + duration in
      slot_end ← read (fun _ => _minutes_to_time end_mins);
      let booking_id :=
        "APPT-" +:+ Py.strftime_compact (today_naive env) +:+ "-" +:+
        Py.upper (Py.str_take 6 (uuid_first env)) in
      let confirmation_code := Py.upper (Py.str_take 8 (uuid_second env)) in
      name ← read (fun _ => getitem patient "name");
      email ← read (fun _ => getitem patient "email");
      phone ← read (fun _ => getitem patient "phone");
      r ← alloc (new_booking booking_id date_str start_time (Py.strftime_hm slot_end)
                   appointment_type name email phone reason confirmation_code
                   (now_iso env));
      _ ← _save_booking r;
      mret (Result.mk (Some booking_id) "confirmed" (Some confirmation_code)
              (DetailsBooked date_str start_time (Py.strftime_hm slot_end)
                 appointment_type duration patient reason))
  | _, _ => mret (failed "Invalid date or time format")
  end.

(** [get_booking] returns the dict object itself, that is, its address. *)
Fixpoint find_booking (h : list booking) (booking_id : string) (bs : list nat)
    : option nat :=
  match bs with
  | [] => None
  | r :: rest =>
      if bool_decide (deref h r !! "booking_id" = Some booking_id) then Some r
      else find_booking h booking_id rest
  end.

Definition get_booking (st : api) (booking_id : string) : option nat :=
  find_booking (heap st) booking_id (bookings st).

(** The loop of [cancel_booking] over [self.bookings]. *)
Fixpoint cancel_loop (booking_id : string) (bs : list nat) : M bool :=
  match bs with
  | [] => mret false
  | r :: rest => fun st =>
      if bool_decide (deref (heap st) r !! "booking_id" = Some booking_id) then
        (_ ← setitem r "status" "cancelled";
         _ ← _save_booking r;
         mret true) st
      else cancel_loop booking_id rest st
  end.

Definition cancel_booking (booking_id : string) : M bool := fun st =>
  cancel_loop booking_id (bookings st) st.

(** ** [AvailabilityTool] *)

Definition check_availability (fuel : nat) (st : api) (env : ambient)
    (date_str appointment_type : string) (time_preference : option string)
    : outcome Check.t :=
  available_slots ← get_available_slots_only fuel st env date_str appointment_type
                      time_preference;
  Ret (Check.mk date_str appointment_type time_preference available_slots
         (Z.of_nat (length available_slots))).

(** The body of the [for i in range(1, days_to_check + 1)] loop of
    [find_next_available_dates], over the remaining values of [i]. *)
Fixpoint dates_loop (fuel : nat) (st : api) (env : ambient)
    (appointment_type : string) (max_dates : Z) (time_preference : option string)
    (today : Py.date) (range : list Z) (available_dates : list DateInfo.t)
    : outcome (list DateInfo.t) :=
  match range with
  | [] => Ret available_dates
  | i :: range =>
      check_date ← Py.date_add today i;
      let date_str := Py.strftime_ymd check_date in
      result ← check_availability fuel st env date_str appointment_type time_preference;
      if Check.slots_count result >? 0 then
        let available_dates := available_dates ++
          [DateInfo.mk date_str (Py.strftime_A check_date)
             (take 5 (Check.available_slots result)) (Check.slots_count result)] in
        if Z.of_nat (length available_dates) >=? max_dates then Ret available_dates
        else dates_loop fuel st env appointment_type max_dates time_preference
               today range available_dates
      else dates_loop fuel st env appointment_type max_dates time_preference
             today range available_dates
  end.

Definition find_next_available_dates (fuel : nat) (st : api) (env : ambient)
    (appointment_type : string) (days_to_check max_dates : Z)
    (time_preference : option string) : outcome (list DateInfo.t) :=
  let today := today_naive env in
  dates_loop fuel st env appointment_type max_dates time_preference today
    (seqZ 1 days_to_check) [].

(** [l[:n]], also for a negative [n]. *)
Definition slice_to {A} (n : Z) (l : list A) : list A :=
  if 0 <=? n then take (Z.to_nat n) l
  else take (Z.to_nat (Z.of_nat (length l) + n)) l.

(** The inner loop of [suggest_slots] over the slots of one day. *)
Fixpoint day_loop (num_suggestions : Z) (date_info : DateInfo.t)
    (slots : list Slot.t) (suggestions : list Suggestion.t) : list Suggestion.t :=
  match slots with
  | [] => suggestions
  | slot :: slots =>
      if Z.of_nat (length suggestions) >=? num_suggestions then suggestions
      else day_loop num_suggestions date_info slots
             (suggestions ++
                [Suggestion.mk (DateInfo.date date_info) (Slot.start_time slot)
                   (Slot.end_time slot) (DateInfo.day_name date_info)])
  end.

(** The outer loop of [suggest_slots] over the qualifying days. *)
Fixpoint days_loop (num_suggestions : Z) (available_dates : list DateInfo.t)
    (suggestions : list Suggestion.t) : list Suggestion.t :=
  match available_dates with
  | [] => suggestions
  | date_info :: available_dates =>
      let suggestions :=
        day_loop num_suggestions date_info (DateInfo.available_slots date_info)
          suggestions in
      if Z.of_nat (length suggestions) >=? num_suggestions then suggestions
      else days_loop num_suggestions available_dates suggestions
  end.

(** The loop of [suggest_slots] for a preferred date. *)
Fixpoint preferred_loop (preferred_date : string) (slots : list Slot.t)
    (suggestions : list Suggestion.t) : outcome (list Suggestion.t) :=
  match slots with
  | [] => Ret suggestions
  | slot :: slots =>
      match Py.strptime_date preferred_date with
      | None => Raise ValueError
      | Some d =>
          preferred_loop preferred_date slots
            (suggestions ++
               [Suggestion.mk preferred_date (Slot.start_time slot)
                  (Slot.end_time slot) (Py.strftime_A d)])
      end
  end.

Definition suggest_slots (fuel : nat) (st : api) (env : ambient)
    (preferred_date : option string) (appointment_type : string)
    (time_preference : option string) (num_suggestions : Z)
    : outcome (list Suggestion.t) :=
  if truthy preferred_date then
    let preferred_date := default "" preferred_date in
    result ← check_availability fuel st env preferred_date appointment_type
               time_preference;
    if Check.slots_count result >? 0 then
      preferred_loop preferred_date
        (slice_to num_suggestions (Check.available_slots result)) []
    else Ret []
  else
    available_dates ← find_next_available_dates fuel st env appointment_type 14 5
                        time_preference;
    Ret (days_loop num_suggestions available_dates []).

(** ** Well-formed schedule documents, stores and clocks *)

#[global] Instance exn_eq_dec : EqDecision exn.
Proof. solve_decision. Defined.
#[global] Instance outcome_eq_dec {A} `{EqDecision A} : EqDecision (outcome A).
Proof. solve_decision. Defined.
#[global] Instance date_eq_dec : EqDecision Py.date.
Proof. solve_decision. Defined.
#[global] Instance time_eq_dec : EqDecision Py.time.
Proof. solve_decision. Defined.
#[global] Instance slot_eq_dec : EqDecision Slot.t.
Proof. solve_decision. Defined.
#[global] Instance suggestion_eq_dec : EqDecision Suggestion.t.
Proof. solve_decision. Defined.

Definition time_okb (s : string) : bool := bool_decide (is_Some (Py.strptime_time s)).

Definition hours_okb (h : hours) : bool := time_okb (h_start h) && time_okb (h_end h).

(** Every working-hours entry and the lunch break hold times that parse,
    and the slot granularity is positive. *)
Definition schedule_okb (sd : schedule) : bool :=
  forallb (fun kv => hours_okb kv.2) (map_to_list (working_hours sd)) &&
  hours_okb (_get_lunch_break sd) &&
  (0 <? default 15 (slot_duration_minutes sd)).

Definition field_time_okb (b : booking) (k : string) : bool :=
  match b !! k with
  | Some s => time_okb s
  | None => false
  end.

(** A stored record has the three fields the availability check reads. *)
Definition booking_okb (b : booking) : bool :=
  bool_decide (is_Some (b !! "date")) &&
  field_time_okb b "start_time" && field_time_okb b "end_time".

Definition store_okb (st : api) : bool :=
  forallb (fun r => booking_okb (deref (heap st) r)) (bookings st).

(** Every reference of [self.bookings] points to an object of the heap. *)
Definition heap_closedb (st : api) : bool :=
  forallb (fun r => bool_decide (r < length (heap st))%nat) (bookings st).

(** The naive clock shows a date, and fourteen days later is still a date. *)
Definition clock_okb (env : ambient) : bool :=
  Py.date_ok (today_naive env) &&
  (Py.toordinal (today_naive env) + 14 <=? Py.MAXORDINAL).

(** Fuel that suffices for any working day: a day has 1440 minutes. *)
Definition day_fuel : nat := 1441.

(** ** Intervals *)

(** Half-open intervals [[a0, a1)] and [[b0, b1)] overlap. *)
Definition overlaps (a0 a1 b0 b1 : Z) : Prop := a0 < b1 /\ b0 < a1.

(** The minutes-since-midnight interval of a stored record. *)
Definition booking_interval (b : booking) : option (Z * Z) :=
  s ← b !! "start_time" ≫= Py.strptime_time;
  e ← b !! "end_time" ≫= Py.strptime_time;
  Some (_time_to_minutes s, _time_to_minutes e).

(** The calendar day a stored record is on. *)
Definition booking_day (b : booking) : option Py.date :=
  b !! "date" ≫= Py.strptime_date.

Definition confirmed (b : booking) : Prop := b !! "status" = Some "confirmed".

(** A stored record that the availability check for [date_str] counts. *)
Definition counts_on (date_str : string) (b : booking) : Prop :=
  b !! "date" = Some date_str /\ confirmed b.

(** The working-hours interval of a day and the lunch-break interval, in
    minutes since midnight. *)
Definition work_interval (sd : schedule) (check_date : Py.date) : option (Z * Z) :=
  wh ← working_hours sd !! day_key check_date;
  s ← Py.strptime_time (h_start wh);
  e ← Py.strptime_time (h_end wh);
  Some (_time_to_minutes s, _time_to_minutes e).

Definition lunch_interval (sd : schedule) : option (Z * Z) :=
  s ← Py.strptime_time (h_start (_get_lunch_break sd));
  e ← Py.strptime_time (h_end (_get_lunch_break sd));
  Some (_time_to_minutes s, _time_to_minutes e).

(** The three interval tests of [_is_slot_available] for the slot
    [[s, s + duration)]. *)
Definition open_slot (st : api) (check_date : Py.date) (s duration : Z) : Prop :=
  exists w0 w1 l0 l1,
    work_interval (schedule_data st) check_date = Some (w0, w1) /\
    lunch_interval (schedule_data st) = Some (l0, l1) /\
    (w0 <= s /\ s + duration <= w1) /\
    ~ overlaps s (s + duration) l0 l1 /\
    check_bookings (heap st) (Py.strftime_ymd check_date) s (s + duration)
      (bookings st) = Ret true.

(** Formatting a minute of the day and reading it back. *)
Definition minute_check (c : Z) : bool :=
  let t := Py.mk_time (c / 60) (c mod 60) in
  bool_decide (Py.strptime_time (Py.strftime_hm t) = Some t) &&
  bool_decide (Py.int (Py.split_colon_head (Py.strftime_hm t)) = Ret (c / 60)) &&
  bool_decide (_minutes_to_time c = Ret t) &&
  bool_decide (_time_to_minutes t = c).

(** The slot the grid holds for the start minute [c]. *)
Definition slot_at (st : api) (check_date : Py.date) (duration c : Z) : Slot.t :=
  let start := Py.mk_time (c / 60) (c mod 60) in
  let stop := Py.mk_time ((c + duration) / 60) ((c + duration) mod 60) in
  Slot.mk (Py.strftime_hm start) (Py.strftime_hm stop)
    (bool_decide (_is_slot_available st check_date start duration = Ret true)).

(** The day's candidate slots: [k] of them, the first at [current_mins],
    each [slot_duration] minutes after the one before. *)
Fixpoint grid (st : api) (check_date : Py.date) (duration slot_duration : Z)
    (current_mins : Z) (k : nat) : list Slot.t :=
  match k with
  | O => []
  | S k =>
      slot_at st check_date duration current_mins
      :: grid st check_date duration slot_duration (current_mins + slot_duration) k
  end.

(** ** Suggestions as the specification words them *)

(** The entries one day contributes to the suggestions. *)
Definition day_entries (date_str day_name : string) (slots : list Slot.t)
    : list Suggestion.t :=
  (fun slot => Suggestion.mk date_str (Slot.start_time slot) (Slot.end_time slot) day_name)
    <$> slots.

(** The qualifying days with all their matching available slots: the days
    at offsets [range] from today that have at least one. *)
Fixpoint qualifying_days (fuel : nat) (st : api) (env : ambient)
    (appointment_type : string) (time_preference : option string)
    (range : list Z) : outcome (list (string * string * list Slot.t)) :=
  match range with
  | [] => Ret []
  | i :: range =>
      check_date ← Py.date_add (today_naive env) i;
      let date_str := Py.strftime_ymd check_date in
      slots ← get_available_slots_only fuel st env date_str appointment_type time_preference;
      rest ← qualifying_days fuel st env appointment_type time_preference range;
      Ret (if bool_decide (slots = []) then rest
           else (date_str, Py.strftime_A check_date, slots) :: rest)
  end.

(** The specification's day-major flattening: all matching available slots
    of the first qualifying day, then all of the next, until
    [num_suggestions] entries are collected. *)
Definition spec_day_major (fuel : nat) (st : api) (env : ambient)
    (appointment_type : string) (time_preference : option string)
    (num_suggestions : Z) : outcome (list Suggestion.t) :=
  days ← qualifying_days fuel st env appointment_type time_preference (seqZ 1 14);
  Ret (take (Z.to_nat num_suggestions)
         (take 5 days ≫= fun '(date_str, day_name, slots) =>
            day_entries date_str day_name slots)).

(** What the code does instead: each qualifying day contributes only the
    slots kept in its [DateInfo], the first five. *)
Definition day_major (num_suggestions : Z) (available_dates : list DateInfo.t)
    : list Suggestion.t :=
  take (Z.to_nat num_suggestions)
    (available_dates ≫= fun date_info =>
       day_entries (DateInfo.date date_info) (DateInfo.day_name date_info)
         (DateInfo.available_slots date_info)).

(** ** Runs of the operations *)

(** The state [book_appointment] leaves behind when it stores [b]. *)
Definition stored (st : api) (b : booking) : api :=
  {| schedule_data := schedule_data st;
     heap := heap st ++ [b];
     bookings := bookings st ++ [length (heap st)];
     file_appointments := deref (heap st ++ [b]) <$> (bookings st ++ [length (heap st)]) |}.

(** The runs of [book_appointment] that return a value. *)
Inductive book_run (env : ambient) (t d s : string) (p : patient_info) (reason : string)
    (st : api) : Result.t -> api -> Prop :=
| book_bad_format :
    Py.strptime_date d = None \/ Py.strptime_time s = None ->
    book_run env t d s p reason st (failed "Invalid date or time format") st
| book_unavailable cd ss :
    Py.strptime_date d = Some cd -> Py.strptime_time s = Some ss ->
    _is_slot_available st cd ss (duration_of t) = Ret false ->
    book_run env t d s p reason st (failed "Time slot is not available") st
| book_confirmed cd ss se name email phone :
    Py.strptime_date d = Some cd -> Py.strptime_time s = Some ss ->
    _is_slot_available st cd ss (duration_of t) = Ret true ->
    _minutes_to_time (_time_to_minutes ss + duration_of t) = Ret se ->
    p !! "name" = Some name -> p !! "email" = Some email -> p !! "phone" = Some phone ->
    let booking_id := "APPT-" +:+ Py.strftime_compact (today_naive env) +:+ "-" +:+
                      Py.upper (Py.str_take 6 (uuid_first env)) in
    let code := Py.upper (Py.str_take 8 (uuid_second env)) in
    book_run env t d s p reason st
      (Result.mk (Some booking_id) "confirmed" (Some code)
         (DetailsBooked d s (Py.strftime_hm se) t (duration_of t) p reason))
      (stored st (new_booking booking_id d s (Py.strftime_hm se) t name email phone reason
                    code (now_iso env))).

(** The state [cancel_booking] leaves behind when it cancels the object at [r]. *)
Definition cancelled (st : api) (r : nat) : api :=
  let h := <[r := <["status" := "cancelled"]> (deref (heap st) r)]> (heap st) in
  {| schedule_data := schedule_data st;
     heap := h;
     bookings := bookings st ++ [r];
     file_appointments := deref h <$> (bookings st ++ [r]) |}.

(** A slot the loop of [get_availability] appends. *)
Definition emitted (st : api) (check_date : Py.date) (duration end_mins : Z)
    (slot : Slot.t) : Prop :=
  exists c,
    0 <= c < 1440 /\ 0 <= c + duration < 1440 /\ c + duration <= end_mins /\
    Slot.start_time slot = Py.strftime_hm (Py.mk_time (c / 60) (c mod 60)) /\
    Slot.end_time slot
    = Py.strftime_hm (Py.mk_time ((c + duration) / 60) ((c + duration) mod 60)) /\
    _is_slot_available st check_date (Py.mk_time (c / 60) (c mod 60)) duration
    = Ret (Slot.available slot).

(** ** A concrete clinic

    Monday to Friday 09:00-17:00, lunch 12:00-13:00, a slot every 15
    minutes; the clocks show Tuesday 2026-11-03. *)

Definition office_hours : hours := mk_hours "09:00" "17:00".

Definition clinic_schedule : schedule :=
  mk_schedule
    (<["monday" := office_hours]> (<["tuesday" := office_hours]>
     (<["wednesday" := office_hours]> (<["thursday" := office_hours]>
     (<["friday" := office_hours]> ∅)))))
    (Some (mk_hours "12:00" "13:00")) (Some 15) (Some 5).

Definition clinic : api := mk_api clinic_schedule [] [] [].

Definition clinic_env : ambient :=
  mk_ambient (Py.mk_date 2026 11 3) (Py.mk_date 2026 11 3)
    "2026-11-03T10:00:00-06:00"
    "3f2a9c1e-58cc-4372-a567-0e02b2c3d479"
    "7b1d44aa-9d2f-4c1b-8e0a-5a1f3c9e2b6d".

Definition ann : patient_info :=
  <["name" := "Ann Lee"]> (<["email" := "ann@example.com"]>
  (<["phone" := "+1-555-0100"]> ∅)).

(** The clinic after one consultation was booked for Monday 2026-11-09 at
    10:00, the date written without its leading zero. *)
Definition clinic_after_unpadded : api :=
  (book_appointment clinic_env "consultation" "2026-11-9" "10:00" ann "checkup" clinic).2.

(** The same booking with the date written in full. *)
Definition clinic_after_padded : api :=
  (book_appointment clinic_env "consultation" "2026-11-09" "10:00" ann "checkup" clinic).2.

(** The clocks and random draws of a second, later call. *)
Definition clinic_env_later : ambient :=
  mk_ambient (Py.mk_date 2026 11 3) (Py.mk_date 2026 11 3)
    "2026-11-03T10:05:00-06:00"
    "c0ffee11-2b3c-4d5e-8f90-a1b2c3d4e5f6"
    "0badf00d-6a7b-4c8d-9e0f-112233445566".

(** A call later that day whose first random draw begins with the six
    digits of the first call's. *)
Definition clinic_env_colliding : ambient :=
  mk_ambient (Py.mk_date 2026 11 3) (Py.mk_date 2026 11 3)
    "2026-11-03T16:40:00-06:00"
    "3f2a9c77-0b1d-4e6a-9c35-d4f1a8e27b90"
    "e41c09b8-53a7-4f2d-8b16-7d0c2a9e5f31".

Definition bo : patient_info :=
  <["name" := "Bo Ray"]> (<["email" := "bo@example.com"]>
  (<["phone" := "+1-555-0101"]> ∅)).

(** The clinic after that call booked a follow-up for Bo Ray on Monday
    2026-11-09 at 11:00. *)
Definition clinic_after_collision : api :=
  (book_appointment clinic_env_colliding "followup" "2026-11-09" "11:00" bo "review"
     clinic_after_padded).2.

(** Clocks that disagree about the day.  The process runs in a zone behind
    the clinic's: its own date is still Tuesday 2026-11-03 while the
    clinic's day is already Wednesday 2026-11-04. *)
Definition clinic_env_behind : ambient :=
  mk_ambient (Py.mk_date 2026 11 4) (Py.mk_date 2026 11 3)
    "2026-11-04T00:30:00+09:00"
    "9a7c31f0-6e2b-4d85-a1c4-5b0f8e3d2a67"
    "4d02b6e9-17f3-4c5a-9e80-c3a1f7b52d48".

(** The process runs in a zone ahead of the clinic's: its own date is
    already Wednesday 2026-11-04 while the clinic's day is still Tuesday
    2026-11-03. *)
Definition clinic_env_ahead : ambient :=
  mk_ambient (Py.mk_date 2026 11 3) (Py.mk_date 2026 11 4)
    "2026-11-03T21:30:00-06:00"
    "9a7c31f0-6e2b-4d85-a1c4-5b0f8e3d2a67"
    "4d02b6e9-17f3-4c5a-9e80-c3a1f7b52d48".

(** The hour [get_available_slots_only] reads off a slot. *)
Definition slot_hour (slot : Slot.t) : Z :=
  match Py.int (Py.split_colon_head (Slot.start_time slot)) with
  | Ret h => h
  | _ => 0
  end.

(** The [if]/[elif] chain of [get_available_slots_only] as one test. *)
Definition in_band (time_preference : option string) (hour : Z) : bool :=
  (bool_decide (time_preference = Some "morning") && (6 <=? hour) && (hour <? 12)) ||
  (bool_decide (time_preference = Some "afternoon") && (12 <=? hour) && (hour <? 17)) ||
  (bool_decide (time_preference = Some "evening") && (17 <=? hour) && (hour <? 22)).

Definition recognized (time_preference : option string) : Prop :=
  time_preference = Some "morning" \/ time_preference = Some "afternoon" \/
  time_preference = Some "evening".

(** An open slot of [duration] minutes that starts at minute [m]. *)
Definition open_at (duration m : Z) : Slot.t :=
  Slot.mk (Py.strftime_hm (Py.mk_time (m / 60) (m mod 60)))
    (Py.strftime_hm (Py.mk_time ((m + duration) / 60) ((m + duration) mod 60))) true.

(** A start minute whose slot lies within one day. *)
Definition minute_ok (duration m : Z) : Prop := 0 <= m < 1440 /\ 0 <= m + duration < 1440.

(** The [DateInfo] that [find_next_available_dates] builds for a qualifying
    day: the first five of its slots, and the count of all of them. *)
Definition to_info (day : string * string * list Slot.t) : DateInfo.t :=
  let '(date_str, day_name, slots) := day in
  DateInfo.mk date_str day_name (take 5 slots) (Z.of_nat (length slots)).

(** The entries a [DateInfo] contributes. *)
Definition info_entries (date_info : DateInfo.t) : list Suggestion.t :=
  day_entries (DateInfo.date date_info) (DateInfo.day_name date_info)
    (DateInfo.available_slots date_info).

(** The day [k] days after the naive clock's today. *)
Definition day_at (env : ambient) (k : Z) : Py.date :=
  Py.ord2ymd (Py.toordinal (today_naive env) + k).

(** The suggestion for the day at offset [k] and the start minute [m]. *)
Definition entry (env : ambient) (duration k m : Z) : Suggestion.t :=
  Suggestion.mk (Py.strftime_ymd (day_at env k))
    (Py.strftime_hm (Py.mk_time (m / 60) (m mod 60)))
    (Py.strftime_hm (Py.mk_time ((m + duration) / 60) ((m + duration) mod 60)))
    (Py.strftime_A (day_at env k)).

(** Suggestions grouped by day: each group is a day offset with the start
    minutes of its entries. *)
Definition grouped (env : ambient) (duration : Z) (groups : list (Z * list Z))
    : list Suggestion.t :=
  groups ≫= fun '(k, ms) => entry env duration k <$> ms.

(** The first [n] entries of a grouped list, group by group. *)
Fixpoint truncate (n : nat) (groups : list (Z * list Z)) : list (Z * list Z) :=
  match groups with
  | [] => []
  | (k, ms) :: rest => (k, take n ms) :: truncate (n - length ms) rest
  end.

(** The qualifying day at offset [k] whose open slots start at the minutes [ms]. *)
Definition group_day (env : ambient) (duration : Z) (g : Z * list Z)
    : string * string * list Slot.t :=
  (Py.strftime_ymd (day_at env g.1), Py.strftime_A (day_at env g.1),
   open_at duration <$> g.2).

(** At most five days, at most five slots of each. *)
Definition cap5 (groups : list (Z * list Z)) : list (Z * list Z) :=
  (fun g => (g.1, take 5 g.2)) <$> take 5 groups.

(** The check that [month_day] inverts the month table on day [r] of a year. *)
Definition month_day_check (leap : bool) (r : Z) : bool :=
  let '(m, d) := Py.month_day leap r in
  (1 <=? m) && (m <=? 12) && (1 <=? d) &&
  (Py.DAYS_BEFORE_MONTH m + (if (m >? 2) && leap then 1 else 0) + d =? r + 1).

(** Two entries of [bookings] that are both confirmed and carry the same
    date text have intervals, and these do not overlap. *)
Definition no_double_booking (st : api) : Prop :=
  forall (i j : nat) r1 r2,
    i <> j -> bookings st !! i = Some r1 -> bookings st !! j = Some r2 ->
    confirmed (deref (heap st) r1) -> confirmed (deref (heap st) r2) ->
    deref (heap st) r1 !! "date" = deref (heap st) r2 !! "date" ->
    exists a0 a1 b0 b1,
      booking_interval (deref (heap st) r1) = Some (a0, a1) /\
      booking_interval (deref (heap st) r2) = Some (b0, b1) /\
      ~ overlaps a0 a1 b0 b1.

(** A date text that [%Y-%m-%d] prints back unchanged once parsed. *)
Definition canonical (date_str : string) : Prop :=
  forall d, Py.strptime_date date_str = Some d -> Py.strftime_ymd d = date_str.

(** ** A schedule file that cannot be written

    [_save_booking], [book_appointment] and [cancel_booking] above follow
    the run in which the schedule file is written.  The [with open(...)]
    block of [_save_booking] raises [OSError] when the file cannot be
    opened for writing (a read-only file, a missing directory) or cannot be
    written to its end (a full disk).  The variants below are the same code
    with that as a parameter of each call.  When the block raises,
    [_save_booking] has already appended to [self.bookings]. *)

(** [WriteRaises kept]: the block raises, and [kept] is the array the file
    holds afterwards: the old array when it was [open] that raised, what
    remains of it when [json.dump] raised part-way. *)
Inductive disk := Writable | WriteRaises (kept : list booking).

Module Faulty.

Definition _save_booking (d : disk) (r : nat) : M unit := fun st =>
  let bs := bookings st ++ [r] in
  match d with
  | Writable =>
      let st' := {| schedule_data := schedule_data st; heap := heap st;
                    bookings := bs;
                    file_appointments := deref (heap st) <$> bs |} in
      (_ ← getitem (deref (heap st) r) "booking_id"; Ret tt, st')
  | WriteRaises kept =>
      (Raise OSError,
       {| schedule_data := schedule_data st; heap := heap st; bookings := bs;
          file_appointments := kept |})
  end.

Definition book_appointment (d : disk) (env : ambient)
    (appointment_type date_str start_time : string)
    (patient : patient_info) (reason : string) : M Result.t :=
  _ ← read (fun _ => getitem patient "name");
  match Py.strptime_date date_str, Py.strptime_time start_time with
  | Some check_date, Some slot_start =>
      let duration := duration_of appointment_type in
      is_available ← read (fun st => _is_slot_available st check_date slot_start duration);
      if negb is_available then mret (failed "Time slot is not available") else
      let end_mins := _time_to_minutes slot_start + duration in
      slot_end ← read (fun _ => _minutes_to_time end_mins);
      let booking_id :=
        "APPT-" +:+ Py.strftime_compact (today_naive env) +:+ "-" +:+
        Py.upper (Py.str_take 6 (uuid_first env)) in
      let confirmation_code := Py.upper (Py.str_take 8 (uuid_second env)) in
      name ← read (fun _ => getitem patient "name");
      email ← read (fun _ => getitem patient "email");
      phone ← read (fun _ => getitem patient "phone");
      r ← alloc (new_booking booking_id date_str start_time (Py.strftime_hm slot_end)
                   appointment_type name email phone reason confirmation_code
                   (now_iso env));
      _ ← _save_booking d r;
      mret (Result.mk (Some booking_id) "confirmed" (Some confirmation_code)
              (DetailsBooked date_str start_time (Py.strftime_hm slot_end)
                 appointment_type duration patient reason))
  | _, _ => mret (failed "Invalid date or time format")
  end.

Fixpoint cancel_loop (d : disk) (booking_id : string) (bs : list nat) : M bool :=
  match bs with
  | [] => mret false
  | r :: rest => fun st =>
      if bool_decide (deref (heap st) r !! "booking_id" = Some booking_id) then
        (_ ← setitem r "status" "cancelled";
         _ ← _save_booking d r;
         mret true) st
      else cancel_loop d booking_id rest st
  end.

Definition cancel_booking (d : disk) (booking_id : string) : M bool := fun st =>
  cancel_loop d booking_id (bookings st) st.

(** Calls in sequence, each with its own behaviour of the file. *)
Inductive call :=
| CallBook (d : disk) (env : ambient) (appointment_type date_str start_time : string)
    (patient : patient_info) (reason : string)
| CallCancel (d : disk) (booking_id : string).

Definition after_call (st : api) (c : call) : api :=
  match c with
  | CallBook d env t dt s p reason => (book_appointment d env t dt s p reason st).2
  | CallCancel d id => (cancel_booking d id st).2
  end.

Definition after_calls (st : api) (cs : list call) : api := foldl after_call st cs.

Definition writes (c : call) : Prop :=
  match c with
  | CallBook d _ _ _ _ _ _ => d = Writable
  | CallCancel d _ => d = Writable
  end.

End Faulty.

(** The object after a booking whose write raised: the record is in
    memory and in the list, the file holds [kept]. *)
Definition unsaved (st : api) (b : booking) (kept : list booking) : api :=
  {| schedule_data := schedule_data st;
     heap := heap st ++ [b];
     bookings := bookings st ++ [length (heap st)];
     file_appointments := kept |}.

(** The object after a cancellation whose write raised. *)
Definition cancelled_unsaved (st : api) (r : nat) (kept : list booking) : api :=
  {| schedule_data := schedule_data st;
     heap := <[r := <["status" := "cancelled"]> (deref (heap st) r)]> (heap st);
     bookings := bookings st ++ [r];
     file_appointments := kept |}.

(** What a stored record says of the request it was built from. *)
Definition records (b : booking)
    (date start_time patient_name patient_email patient_phone reason : string) : Prop :=
  b !! "status" = Some "confirmed" /\
  b !! "date" = Some date /\ b !! "start_time" = Some start_time /\
  b !! "patient_name" = Some patient_name /\ b !! "patient_email" = Some patient_email /\
  b !! "patient_phone" = Some patient_phone /\ b !! "reason" = Some reason.

(** ** [BookingTool] *)

Module Validation.
Record t := mk { is_valid : bool; missing_fields : list string }.
End Validation.

Module BookingTool.

Section WithMessages.

(** [str(e)], the text of a caught exception. *)
Variable str : exn -> string.

(** The patient dict literal, the call, and the [except Exception] handler,
    which also catches the [OSError] of a write; the log lines do not bear
    on the result. *)
Definition create_booking (d : disk) (env : ambient)
    (appointment_type date start_time patient_name patient_email patient_phone
       reason : string) : M Result.t := fun st =>
  let patient_info : patient_info :=
    <["name" := patient_name]> (<["email" := patient_email]>
    (<["phone" := patient_phone]> ∅)) in
  match Faulty.book_appointment d env appointment_type date start_time patient_info
          reason st with
  | (Ret result, st') => (Ret result, st')
  | (Raise e, st') => (Ret (Result.mk None "failed" None (DetailsError (str e))), st')
  | (OutOfFuel, st') => (OutOfFuel, st')
  end.

End WithMessages.

(** The two pass-through methods. *)
Definition get_booking_details (st : api) (booking_id : string) : option nat :=
  get_booking st booking_id.

Definition cancel_booking (d : disk) (booking_id : string) : M bool :=
  Faulty.cancel_booking d booking_id.

(** Each [if not x: missing_fields.append(...)] in turn. *)
Definition validate_booking_info
    (patient_name patient_email patient_phone reason : option string) : Validation.t :=
  let missing_fields := [] in
  let missing_fields :=
    if negb (truthy patient_name) then missing_fields ++ ["name"] else missing_fields in
  let missing_fields :=
    if negb (truthy patient_email) then missing_fields ++ ["email"] else missing_fields in
  let missing_fields :=
    if negb (truthy patient_phone) then missing_fields ++ ["phone"] else missing_fields in
  let missing_fields :=
    if negb (truthy reason) then missing_fields ++ ["reason for visit"]
    else missing_fields in
  let is_valid := bool_decide (length missing_fields = 0%nat) in
  Validation.mk is_valid missing_fields.

End BookingTool.

(** ** Sequences of calls on one [api] object *)

Inductive call :=
| CallBook (env : ambient) (appointment_type date_str start_time : string)
    (patient : patient_info) (reason : string)
| CallCancel (booking_id : string).

(** The object after a call, whatever the call returned or raised. *)
Definition after_call (st : api) (c : call) : api :=
  match c with
  | CallBook env t d s p reason => (book_appointment env t d s p reason st).2
  | CallCancel id => (cancel_booking id st).2
  end.

Definition after_calls (st : api) (cs : list call) : api := foldl after_call st cs.

Definition canonical_call (c : call) : Prop :=
  match c with
  | CallBook _ _ d _ _ _ => canonical d
  | CallCancel _ => True
  end.

(** The schedule file holds the records of [self.bookings], in order. *)
Definition file_synced (st : api) : Prop :=
  file_appointments st = deref (heap st) <$> bookings st.

(** No record that the availability check for [date_str] counts overlaps
    [[s, e)]. *)
Definition free_of_bookings (st : api) (date_str : string) (s e : Z) : Prop :=
  forall r, r ∈ bookings st -> counts_on date_str (deref (heap st) r) ->
    forall b0 b1, booking_interval (deref (heap st) r) = Some (b0, b1) ->
      ~ overlaps s e b0 b1.

(** The slot [[s, s + duration)] of [check_date] lies within the working
    hours, misses the lunch break and every counted record. *)
Definition bookable (st : api) (check_date : Py.date) (s duration : Z) : Prop :=
  exists w0 w1 l0 l1,
    work_interval (schedule_data st) check_date = Some (w0, w1) /\
    lunch_interval (schedule_data st) = Some (l0, l1) /\
    (w0 <= s /\ s + duration <= w1) /\
    ~ overlaps s (s + duration) l0 l1 /\
    free_of_bookings st (Py.strftime_ymd check_date) s (s + duration).

(** The weekday name [suggest_slots] prints for a preferred date. *)
Definition day_name_of (date_str : string) : string :=
  from_option Py.strftime_A "" (Py.strptime_date date_str).

(** [st'] continues the history of [st]: the list of records only grew at
    its end, no object was dropped from the heap, and an object of [st]
    differs at most in its [status], which can only have become
    "cancelled". *)
Definition continues (st st' : api) : Prop :=
  schedule_data st' = schedule_data st /\
  bookings st `prefix_of` bookings st' /\
  (length (heap st) <= length (heap st'))%nat /\
  forall r, (r < length (heap st))%nat ->
    (forall k, k <> "status" -> deref (heap st') r !! k = deref (heap st) r !! k) /\
    (deref (heap st') r !! "status" = deref (heap st) r !! "status" \/
     deref (heap st') r !! "status" = Some "cancelled").

(** The object with another value under [buffer_time_minutes]. *)
Definition with_buffer (st : api) (buffer : option Z) : api :=
  {| schedule_data :=
       {| working_hours := working_hours (schedule_data st);
          lunch_break := lunch_break (schedule_data st);
          slot_duration_minutes := slot_duration_minutes (schedule_data st);
          buffer_time_minutes := buffer |};
     heap := heap st; bookings := bookings st;
     file_appointments := file_appointments st |}.

(** * Properties *)

(** ** Parsing and formatting examples *)
Example strptime_date_padded :
  Py.strptime_date "2026-11-09" = Some (Py.mk_date 2026 11 9).
Proof. reflexivity. Qed.

Example strptime_date_unpadded :
  Py.strptime_date "2026-11-9" = Some (Py.mk_date 2026 11 9).
Proof. reflexivity. Qed.

Example strptime_date_rejects :
  map Py.strptime_date ["0000-01-01"; "2026-02-29"; "2026-11-09 "; "2026-105-1"; "2026-11-35"; "tomorrow"]
  = [None; None; None; None; None; None].
Proof. reflexivity. Qed.

Example strptime_time_examples :
  map Py.strptime_time ["9:00"; "09:0"; "24:00"; "10:60"; "23:59"; " 9:00"; "09:00:00"]
  = [Some (Py.mk_time 9 0); Some (Py.mk_time 9 0); None; None; Some (Py.mk_time 23 59); None; None].
Proof. reflexivity. Qed.

Example strftime_examples :
  (Py.strftime_ymd (Py.mk_date 2026 11 9), Py.strftime_ymd (Py.mk_date 999 1 5),
   Py.strftime_A (Py.mk_date 2026 11 3), Py.toordinal (Py.mk_date 2026 11 3),
   Py.ord2ymd 739923, Py.ord2ymd Py.MAXORDINAL)
  = ("2026-11-09", "999-01-05", "Tuesday", 739923, Py.mk_date 2026 11 3, Py.mk_date 9999 12 31).
Proof. reflexivity. Qed.

(** ** Outcomes *)

Lemma bind_Ret {A B} (m : outcome A) (f : A -> outcome B) (b : B) :
  m ≫= f = Ret b -> exists a, m = Ret a /\ f a = Ret b.
Proof. destruct m; simpl; intros H; try discriminate. eauto. Qed.

Lemma bind_Ret_l {A B} (a : A) (f : A -> outcome B) : Ret a ≫= f = f a.
Proof. reflexivity. Qed.

(** ** Facts about the library fragment *)

Lemma forallb_seqZ (P : Z -> bool) (lo n : Z) :
  forallb P (seqZ lo n) = true -> forall i, lo <= i < lo + n -> P i = true.
Proof.
  intros H i Hi. rewrite forallb_forall in H. apply H.
  apply list_elem_of_In, elem_of_seqZ. exact Hi.
Qed.

Lemma minute_check_all : forallb minute_check (seqZ 0 1440) = true.
Proof. vm_compute. reflexivity. Qed.

Lemma minute_facts (c : Z) :
  0 <= c < 1440 ->
  let t := Py.mk_time (c / 60) (c mod 60) in
  Py.strptime_time (Py.strftime_hm t) = Some t /\
  Py.int (Py.split_colon_head (Py.strftime_hm t)) = Ret (c / 60) /\
  _minutes_to_time c = Ret t /\
  _time_to_minutes t = c.
Proof.
  intros Hc t. pose proof (forallb_seqZ _ _ _ minute_check_all c ltac:(lia)) as H.
  unfold minute_check in H. fold t in H.
  repeat (apply andb_prop in H; destruct H as [H ?]).
  repeat match goal with X : bool_decide _ = true |- _ => apply bool_decide_eq_true_1 in X end.
  auto.
Qed.

Lemma minutes_to_time_Ret (c : Z) (t : Py.time) :
  _minutes_to_time c = Ret t ->
  0 <= c < 1440 /\ t = Py.mk_time (c / 60) (c mod 60).
Proof.
  unfold _minutes_to_time, Py.mk_time_checked. intros H.
  destruct (negb _); [discriminate|].
  destruct (_ && _) eqn:E; inversion H; subst.
  split; [|reflexivity].
  repeat (apply andb_prop in E; destruct E as [E ?]).
  assert (0 <= c / 60 <= 23) by lia.
  pose proof (Z.div_mod c 60 ltac:(lia)). pose proof (Z.mod_pos_bound c 60 ltac:(lia)). lia.
Qed.

(** Bounds of the fields a successful parse delivers. *)
Lemma in_range_bounds lo hi c d : Py.in_range lo hi c = Some d -> lo <= d <= hi.
Proof.
  unfold Py.in_range. destruct (Py.digit_val c); [|discriminate].
  destruct (_ && _) eqn:E; intros H; inversion H; subst. lia.
Qed.

Lemma two_bounds lo1 hi1 lo2 hi2 s v r :
  (v, r) ∈ Py.two lo1 hi1 lo2 hi2 s -> 10 * lo1 + lo2 <= v <= 10 * hi1 + hi2.
Proof.
  unfold Py.two. destruct s as [|a [|b s]]; try (intros H; inversion H; fail).
  destruct (Py.in_range lo1 hi1 a) eqn:Ea; [|intros H; inversion H].
  destruct (Py.in_range lo2 hi2 b) eqn:Eb; [|intros H; inversion H].
  intros H. apply list_elem_of_singleton in H. inversion H; subst.
  apply in_range_bounds in Ea, Eb. lia.
Qed.

Lemma one_bounds lo hi s v r : (v, r) ∈ Py.one lo hi s -> lo <= v <= hi.
Proof.
  unfold Py.one. destruct s as [|a s]; [intros H; inversion H|].
  destruct (Py.in_range lo hi a) eqn:Ea; [|intros H; inversion H].
  intros H. apply list_elem_of_singleton in H. inversion H; subst.
  eapply in_range_bounds; eauto.
Qed.

Lemma re_H_bounds s v r : (v, r) ∈ Py.re_H s -> 0 <= v <= 23.
Proof.
  unfold Py.re_H, Py.alt. rewrite !elem_of_app.
  intros [H|[H|H]];
    [apply two_bounds in H | apply two_bounds in H | apply one_bounds in H]; lia.
Qed.

Lemma re_M_bounds s v r : (v, r) ∈ Py.re_M s -> 0 <= v <= 59.
Proof.
  unfold Py.re_M, Py.alt. rewrite !elem_of_app.
  intros [H|H]; [apply two_bounds in H | apply one_bounds in H]; lia.
Qed.

Lemma match_hm_bounds s h m r :
  (h, m, r) ∈ Py.match_hm s -> 0 <= h <= 23 /\ 0 <= m <= 59.
Proof.
  unfold Py.match_hm. intros H.
  apply list_elem_of_bind in H as [[h' r1] [H H1]].
  apply list_elem_of_bind in H as [r2 [H H2]].
  apply list_elem_of_bind in H as [[m' r3] [H H3]].
  apply list_elem_of_singleton in H. inversion H; subst.
  apply re_H_bounds in H1. apply re_M_bounds in H3. lia.
Qed.

Lemma strptime_time_bounds s t :
  Py.strptime_time s = Some t ->
  0 <= Py.hour t <= 23 /\ 0 <= Py.minute t <= 59.
Proof.
  unfold Py.strptime_time. destruct (Py.match_hm s) as [|[[h m] r] l] eqn:E; [discriminate|].
  destruct r; [|discriminate]. intros H; inversion H; subst; simpl.
  eapply (match_hm_bounds s h m ""). rewrite E. left.
Qed.

Lemma parsed_minutes_bounds s t :
  Py.strptime_time s = Some t -> 0 <= _time_to_minutes t < 1440.
Proof.
  intros H. apply strptime_time_bounds in H. unfold _time_to_minutes. lia.
Qed.

(** ** The availability check *)

Ltac bind_inv H :=
  let a := fresh "a" in let Ha := fresh "Ha" in
  apply bind_Ret in H as (a & Ha & H).

Lemma parse_time_Ret s t : _parse_time s = Ret t <-> Py.strptime_time s = Some t.
Proof.
  unfold _parse_time. destruct (Py.strptime_time s); split; intros H; inversion H; reflexivity.
Qed.

Lemma getitem_Ret (d : gmap string string) k v : getitem d k = Ret v <-> d !! k = Some v.
Proof.
  unfold getitem. destruct (d !! k); split; intros H; inversion H; reflexivity.
Qed.

Lemma overlaps_test (a0 a1 b0 b1 : Z) :
  negb ((a1 <=? b0) || (a0 >=? b1)) = true <-> overlaps a0 a1 b0 b1.
Proof. unfold overlaps. rewrite negb_true_iff, orb_false_iff. lia. Qed.

Lemma overlaps_test_false (a0 a1 b0 b1 : Z) :
  negb ((a1 <=? b0) || (a0 >=? b1)) = false <-> ~ overlaps a0 a1 b0 b1.
Proof. rewrite <- overlaps_test. destruct (negb _); split; congruence. Qed.

(** Touching intervals do not overlap. *)
Lemma overlaps_touching (a0 a1 b1 : Z) : ~ overlaps a0 a1 a1 b1.
Proof. unfold overlaps. lia. Qed.

Lemma counts_on_test (date_str d : string) (b : booking) :
  b !! "date" = Some d ->
  (String.eqb d date_str && bool_decide (b !! "status" = Some "confirmed") = true
   <-> counts_on date_str b).
Proof.
  intros Hd. unfold counts_on, confirmed. rewrite andb_true_iff, String.eqb_eq, bool_decide_eq_true.
  rewrite Hd. split; intros [H1 H2]; split; congruence.
Qed.

Lemma check_bookings_cons h date_str s e r rest :
  check_bookings h date_str s e (r :: rest) =
  (d ← getitem (deref h r) "date";
   if String.eqb d date_str && bool_decide (deref h r !! "status" = Some "confirmed") then
     booking_start ← getitem (deref h r) "start_time" ≫= _parse_time;
     booking_end ← getitem (deref h r) "end_time" ≫= _parse_time;
     if negb ((e <=? _time_to_minutes booking_start) || (s >=? _time_to_minutes booking_end))
     then Ret false
     else check_bookings h date_str s e rest
   else check_bookings h date_str s e rest).
Proof. reflexivity. Qed.

Lemma check_bookings_true h date_str s e bs :
  check_bookings h date_str s e bs = Ret true ->
  forall r, r ∈ bs -> counts_on date_str (deref h r) ->
  exists b0 b1, booking_interval (deref h r) = Some (b0, b1) /\ ~ overlaps s e b0 b1.
Proof.
  induction bs as [|r0 bs IH]; intros H r Hr Hc.
  - inversion Hr.
  - simpl in H. bind_inv H. apply getitem_Ret in Ha.
    destruct (String.eqb a date_str && _) eqn:E.
    + bind_inv H. bind_inv H. bind_inv Ha0. bind_inv Ha1.
      apply getitem_Ret in Ha2, Ha3. apply parse_time_Ret in Ha0, Ha1.
      destruct (negb _) eqn:Eo; [discriminate|]. apply overlaps_test_false in Eo.
      apply elem_of_cons in Hr as [->|Hr]; [|eauto].
      exists (_time_to_minutes a0), (_time_to_minutes a1). split; [|exact Eo].
      unfold booking_interval. rewrite Ha2, Ha3. simpl. rewrite Ha0, Ha1. reflexivity.
    + apply elem_of_cons in Hr as [->|Hr]; [|eauto].
      exfalso. apply (counts_on_test date_str) in Ha. apply Ha in Hc. congruence.
Qed.

Lemma check_bookings_false h date_str s e bs :
  check_bookings h date_str s e bs = Ret false ->
  exists r b0 b1, r ∈ bs /\ counts_on date_str (deref h r) /\
    booking_interval (deref h r) = Some (b0, b1) /\ overlaps s e b0 b1.
Proof.
  induction bs as [|r0 bs IH]; intros H; [discriminate|].
  simpl in H. bind_inv H. apply getitem_Ret in Ha.
  destruct (String.eqb a date_str && _) eqn:E.
  - bind_inv H. bind_inv H. bind_inv Ha0. bind_inv Ha1.
    apply getitem_Ret in Ha2, Ha3. apply parse_time_Ret in Ha0, Ha1.
    destruct (negb _) eqn:Eo.
    + apply overlaps_test in Eo. exists r0, (_time_to_minutes a0), (_time_to_minutes a1).
      split; [left|]. split; [apply (counts_on_test date_str) in Ha; apply Ha; exact E|].
      split; [|exact Eo].
      unfold booking_interval. rewrite Ha2, Ha3. simpl. rewrite Ha0, Ha1. reflexivity.
    + destruct (IH H) as (r & b0 & b1 & Hr & ?). exists r, b0, b1. split; [right; exact Hr|assumption].
  - destruct (IH H) as (r & b0 & b1 & Hr & ?). exists r, b0, b1. split; [right; exact Hr|assumption].
Qed.

Lemma time_okb_parse s : time_okb s = true -> exists t, _parse_time s = Ret t.
Proof.
  unfold time_okb. intros H. apply bool_decide_eq_true in H as [t Ht].
  exists t. apply parse_time_Ret, Ht.
Qed.

Lemma field_time_okb_parse (b : booking) k :
  field_time_okb b k = true -> exists t, getitem b k ≫= _parse_time = Ret t.
Proof.
  unfold field_time_okb, getitem. destruct (b !! k); [|discriminate].
  intros H. apply time_okb_parse in H. exact H.
Qed.

Lemma check_bookings_returns h date_str s e bs :
  forallb (fun r => booking_okb (deref h r)) bs = true ->
  exists v, check_bookings h date_str s e bs = Ret v.
Proof.
  induction bs as [|r bs IH]; intros H; [eexists; reflexivity|].
  simpl in H. apply andb_prop in H as [Hb H]. specialize (IH H).
  unfold booking_okb in Hb. apply andb_prop in Hb as [Hb He]. apply andb_prop in Hb as [Hd Hs].
  apply bool_decide_eq_true in Hd as [d Hd].
  apply field_time_okb_parse in Hs as [ts Hs]. apply field_time_okb_parse in He as [te He].
  rewrite check_bookings_cons. apply getitem_Ret in Hd. rewrite Hd, bind_Ret_l.
  destruct (String.eqb d date_str && _); [|exact IH].
  rewrite Hs, He, !bind_Ret_l. destruct (negb _); [eexists; reflexivity|exact IH].
Qed.

Lemma work_interval_Some sd check_date wh ws we :
  working_hours sd !! day_key check_date = Some wh ->
  Py.strptime_time (h_start wh) = Some ws -> Py.strptime_time (h_end wh) = Some we ->
  work_interval sd check_date = Some (_time_to_minutes ws, _time_to_minutes we).
Proof. intros H1 H2 H3. unfold work_interval. rewrite H1. simpl. rewrite H2, H3. reflexivity. Qed.

Lemma work_interval_inv sd check_date w0 w1 :
  work_interval sd check_date = Some (w0, w1) ->
  exists wh ws we, working_hours sd !! day_key check_date = Some wh /\
    Py.strptime_time (h_start wh) = Some ws /\ Py.strptime_time (h_end wh) = Some we /\
    w0 = _time_to_minutes ws /\ w1 = _time_to_minutes we.
Proof.
  unfold work_interval. destruct (working_hours sd !! _) as [wh|] eqn:E1; [|discriminate]. simpl.
  destruct (Py.strptime_time (h_start wh)) as [ws|] eqn:E2; [|discriminate].
  destruct (Py.strptime_time (h_end wh)) as [we|] eqn:E3; [|discriminate]. simpl.
  intros H; inversion H. exists wh, ws, we. repeat split; assumption || reflexivity.
Qed.

Lemma is_slot_available_true st check_date start_time duration :
  _is_slot_available st check_date start_time duration = Ret true ->
  open_slot st check_date (_time_to_minutes start_time) duration.
Proof.
  unfold _is_slot_available, _is_working_day, _get_working_hours. intros H.
  destruct (negb _); [discriminate|].
  destruct (working_hours _ !! _) as [wh|] eqn:Ewh; [|discriminate].
  bind_inv H. bind_inv H. apply parse_time_Ret in Ha, Ha0.
  destruct (_ || _) eqn:Ew; [discriminate|]. apply orb_false_iff in Ew as [Ew1 Ew2].
  bind_inv H. bind_inv H. apply parse_time_Ret in Ha1, Ha2.
  destruct (negb _) eqn:El; [discriminate|]. apply overlaps_test_false in El.
  exists (_time_to_minutes a), (_time_to_minutes a0), (_time_to_minutes a1), (_time_to_minutes a2).
  split; [eapply work_interval_Some; eauto|].
  split; [unfold lunch_interval; rewrite Ha1, Ha2; reflexivity|].
  repeat split; try lia; try assumption.
Qed.

Lemma is_slot_available_returns st check_date start_time duration :
  schedule_okb (schedule_data st) = true -> store_okb st = true ->
  exists v, _is_slot_available st check_date start_time duration = Ret v.
Proof.
  unfold schedule_okb, store_okb. intros Hs Hb.
  apply andb_prop in Hs as [Hs Hstep]. apply andb_prop in Hs as [Hw Hl].
  unfold _is_slot_available, _is_working_day, _get_working_hours.
  destruct (negb _); [eexists; reflexivity|].
  destruct (working_hours _ !! _) as [wh|] eqn:Ewh; [|eexists; reflexivity].
  rewrite forallb_forall in Hw.
  assert (hours_okb wh = true) as Hwh.
  { apply (Hw (day_key check_date, wh)). apply list_elem_of_In, elem_of_map_to_list, Ewh. }
  apply andb_prop in Hwh as [H1 H2]. apply time_okb_parse in H1 as [t1 H1], H2 as [t2 H2].
  rewrite H1, H2. simpl.
  destruct (_ || _); [eexists; reflexivity|].
  apply andb_prop in Hl as [H3 H4]. apply time_okb_parse in H3 as [t3 H3], H4 as [t4 H4].
  rewrite H3, H4. simpl.
  destruct (negb _); [eexists; reflexivity|].
  apply check_bookings_returns, Hb.
Qed.

(** ** Durations *)

Lemma duration_of_cases t :
  (t = "consultation" /\ duration_of t = 30) \/ (t = "followup" /\ duration_of t = 15) \/
  (t = "physical" /\ duration_of t = 45) \/ (t = "specialist" /\ duration_of t = 60) \/
  (appointment_durations !! t = None /\ duration_of t = 30).
Proof.
  unfold duration_of, appointment_durations.
  rewrite !lookup_insert, lookup_empty.
  repeat case_decide; subst; simpl; auto 10.
Qed.

Lemma duration_of_bounds t : 15 <= duration_of t <= 60.
Proof. destruct (duration_of_cases t) as [H|[H|[H|[H|H]]]]; destruct H as [_ ->]; lia. Qed.

(** ** The slot grid *)

Lemma grid_length st cd dur step cur k : length (grid st cd dur step cur k) = k.
Proof. revert cur. induction k; intros; simpl; [reflexivity|]. rewrite IHk. reflexivity. Qed.

Lemma grid_lookup st cd dur step cur k (i : nat) :
  (i < k)%nat ->
  grid st cd dur step cur k !! i = Some (slot_at st cd dur (cur + Z.of_nat i * step)).
Proof.
  revert cur i. induction k as [|k IH]; intros cur i Hi; [lia|].
  destruct i as [|i]; simpl.
  - do 2 f_equal. lia.
  - rewrite IH by lia. do 2 f_equal. lia.
Qed.

Lemma elem_of_grid st cd dur step cur k slot :
  slot ∈ grid st cd dur step cur k ->
  exists i : nat, (i < k)%nat /\ slot = slot_at st cd dur (cur + Z.of_nat i * step).
Proof.
  intros H. apply list_elem_of_lookup in H as [i Hi].
  assert (i < k)%nat as Hlt.
  { apply lookup_lt_Some in Hi. rewrite grid_length in Hi. exact Hi. }
  rewrite grid_lookup in Hi by exact Hlt. inversion Hi. eauto.
Qed.

Lemma slots_loop_unfold fuel st cd dur step end_mins cur acc :
  slots_loop (S fuel) st cd dur step end_mins cur acc =
  if cur + dur <=? end_mins then
    slot_start ← _minutes_to_time cur;
    slot_end ← _minutes_to_time (cur + dur);
    is_available ← _is_slot_available st cd slot_start dur;
    slots_loop fuel st cd dur step end_mins (cur + step)
      (acc ++ [Slot.mk (Py.strftime_hm slot_start) (Py.strftime_hm slot_end) is_available])
  else Ret acc.
Proof. reflexivity. Qed.

Lemma slots_loop_grid st cd dur step end_mins :
  0 < step -> 0 <= dur -> end_mins < 1440 ->
  (forall t, exists v, _is_slot_available st cd t dur = Ret v) ->
  forall (k fuel : nat) cur acc,
    0 <= cur -> (k < fuel)%nat ->
    (forall i, 0 <= i < Z.of_nat k -> cur + i * step + dur <= end_mins) ->
    end_mins < cur + Z.of_nat k * step + dur ->
    slots_loop fuel st cd dur step end_mins cur acc
    = Ret (acc ++ grid st cd dur step cur k).
Proof.
  intros Hstep Hdur Hend Hret. induction k as [|k IH]; intros fuel cur acc Hcur Hfuel Hin Hout.
  - destruct fuel as [|fuel]; [lia|]. rewrite slots_loop_unfold.
    destruct (Z.leb_spec (cur + dur) end_mins); [lia|]. simpl. rewrite app_nil_r. reflexivity.
  - destruct fuel as [|fuel]; [lia|]. rewrite slots_loop_unfold.
    pose proof (Hin 0 ltac:(lia)) as H0.
    destruct (Z.leb_spec (cur + dur) end_mins); [|lia].
    destruct (minute_facts cur ltac:(lia)) as (_ & _ & -> & _).
    destruct (minute_facts (cur + dur) ltac:(lia)) as (_ & _ & -> & _).
    rewrite !bind_Ret_l.
    destruct (Hret (Py.mk_time (cur / 60) (cur mod 60))) as [v Hv]. rewrite Hv, bind_Ret_l.
    rewrite IH; try lia.
    + rewrite <- app_assoc. simpl. unfold slot_at. rewrite Hv.
      replace (bool_decide (Ret v = Ret true)) with v; [reflexivity|].
      destruct v; reflexivity.
    + intros i Hi. specialize (Hin (i + 1) ltac:(lia)). lia.
Qed.

(** The number of candidates of a day. *)
Lemma grid_count (ws dur step end_mins : Z) :
  0 < step ->
  exists k : nat,
    (forall i, 0 <= i -> (i < Z.of_nat k <-> ws + i * step + dur <= end_mins)) /\
    Z.of_nat k <= Z.max 0 (end_mins - dur - ws + 1).
Proof.
  intros Hstep.
  destruct (Z_le_gt_dec (ws + dur) end_mins) as [Hle|Hgt].
  - exists (Z.to_nat ((end_mins - dur - ws) / step + 1)).
    pose proof (Z.div_pos (end_mins - dur - ws) step ltac:(lia) Hstep).
    pose proof (Z.div_mod (end_mins - dur - ws) step ltac:(lia)).
    pose proof (Z.mod_pos_bound (end_mins - dur - ws) step Hstep).
    set (q := (end_mins - dur - ws) / step) in *.
    rewrite Z2Nat.id by lia. split.
    + intros i Hi. split; intros; nia.
    + nia.
  - exists O. split; [|lia]. intros i Hi. split; intros; nia.
Qed.

(** ** [get_availability] *)

Lemma schedule_ok_step sd : schedule_okb sd = true -> 0 < default 15 (slot_duration_minutes sd).
Proof. unfold schedule_okb. intros H. apply andb_prop in H as [_ H]. lia. Qed.

Lemma schedule_ok_hours sd key wh :
  schedule_okb sd = true -> working_hours sd !! key = Some wh ->
  exists ws we, Py.strptime_time (h_start wh) = Some ws /\ Py.strptime_time (h_end wh) = Some we.
Proof.
  unfold schedule_okb. intros H Hk.
  apply andb_prop in H as [H _]. apply andb_prop in H as [H _].
  rewrite forallb_forall in H.
  assert (hours_okb wh = true) as Hwh.
  { apply (H (key, wh)). apply list_elem_of_In, elem_of_map_to_list, Hk. }
  apply andb_prop in Hwh as [H1 H2].
  apply bool_decide_eq_true in H1 as [ws H1]. apply bool_decide_eq_true in H2 as [we H2].
  eauto.
Qed.

Lemma schedule_ok_work_interval sd check_date :
  schedule_okb sd = true -> is_Some (working_hours sd !! day_key check_date) ->
  exists w0 w1, work_interval sd check_date = Some (w0, w1) /\ 0 <= w0 < 1440 /\ 0 <= w1 < 1440.
Proof.
  intros Hs [wh Hwh]. destruct (schedule_ok_hours _ _ _ Hs Hwh) as (ws & we & H1 & H2).
  exists (_time_to_minutes ws), (_time_to_minutes we).
  split; [eapply work_interval_Some; eauto|].
  split; eapply parsed_minutes_bounds; eauto.
Qed.

Lemma get_availability_unparseable fuel st env date_str t :
  Py.strptime_date date_str = None ->
  get_availability fuel st env date_str t = Ret (Availability.mk date_str []).
Proof. intros H. unfold get_availability. rewrite H. reflexivity. Qed.

Lemma get_availability_past fuel st env date_str t d :
  Py.strptime_date date_str = Some d -> Py.date_ltb d (today_tz env) = true ->
  get_availability fuel st env date_str t = Ret (Availability.mk date_str []).
Proof. intros H1 H2. unfold get_availability. rewrite H1, H2. reflexivity. Qed.

Lemma get_availability_day_off fuel st env date_str t d :
  Py.strptime_date date_str = Some d ->
  working_hours (schedule_data st) !! day_key d = None ->
  get_availability fuel st env date_str t = Ret (Availability.mk date_str []).
Proof.
  intros H1 H2. unfold get_availability, _get_working_hours. rewrite H1, H2.
  destruct (Py.date_ltb _ _); reflexivity.
Qed.

Lemma get_availability_grid fuel st env date_str t d w0 w1 :
  schedule_okb (schedule_data st) = true -> store_okb st = true -> (day_fuel <= fuel)%nat ->
  Py.strptime_date date_str = Some d -> Py.date_ltb d (today_tz env) = false ->
  work_interval (schedule_data st) d = Some (w0, w1) ->
  exists k : nat,
    get_availability fuel st env date_str t
    = Ret (Availability.mk date_str
             (grid st d (duration_of t) (default 15 (slot_duration_minutes (schedule_data st))) w0 k)) /\
    (forall i, 0 <= i ->
       (i < Z.of_nat k <->
        w0 + i * default 15 (slot_duration_minutes (schedule_data st)) + duration_of t <= w1)) /\
    0 <= w0 /\ w1 < 1440.
Proof.
  intros Hs Hb Hfuel Hd Hpast Hw.
  pose proof (schedule_ok_step _ Hs) as Hstep.
  apply work_interval_inv in Hw as (wh & ws & we & Hwh & Hws & Hwe & -> & ->).
  pose proof (parsed_minutes_bounds _ _ Hws) as Bs. pose proof (parsed_minutes_bounds _ _ Hwe) as Be.
  pose proof (duration_of_bounds t) as Bd.
  destruct (grid_count (_time_to_minutes ws) (duration_of t) _ (_time_to_minutes we) Hstep)
    as (k & Hk & Hkmax).
  exists k. split; [|split; [exact Hk|lia]].
  unfold get_availability, _get_working_hours. rewrite Hd, Hpast, Hwh.
  apply parse_time_Ret in Hws, Hwe. rewrite Hws, Hwe, !bind_Ret_l.
  rewrite (slots_loop_grid st d (duration_of t) _ (_time_to_minutes we) Hstep) with (k := k);
    try lia.
  - reflexivity.
  - intros t0. apply is_slot_available_returns; assumption.
  - unfold day_fuel in Hfuel. lia.
  - intros i Hi. apply Hk; lia.
  - destruct (Z_le_gt_dec (_time_to_minutes ws + Z.of_nat k * default 15 (slot_duration_minutes (schedule_data st)) + duration_of t) (_time_to_minutes we)) as [Hle|Hgt]; [|lia].
    apply Hk in Hle; lia.
Qed.

(** ** [book_appointment] *)

Lemma M_bind_unfold {A B} (m : M A) (f : A -> M B) st :
  (m ≫= f) st =
  match m st with
  | (Ret a, st') => f a st'
  | (Raise e, st') => (Raise e, st')
  | (OutOfFuel, st') => (OutOfFuel, st')
  end.
Proof. reflexivity. Qed.

Lemma deref_app_new h (b : booking) : deref (h ++ [b]) (length h) = b.
Proof.
  unfold deref. rewrite lookup_app_r by lia. rewrite Nat.sub_diag. reflexivity.
Qed.

Lemma deref_app_old h (b : booking) r : (r < length h)%nat -> deref (h ++ [b]) r = deref h r.
Proof. intros H. unfold deref. rewrite lookup_app_l by exact H. reflexivity. Qed.

Lemma new_booking_id id d s e t n em ph re c cr :
  new_booking id d s e t n em ph re c cr !! "booking_id" = Some id.
Proof. unfold new_booking. apply lookup_insert_eq. Qed.

Lemma book_appointment_inv env t d s p reason st res st' :
  book_appointment env t d s p reason st = (Ret res, st') ->
  book_run env t d s p reason st res st'.
Proof.
  unfold book_appointment. rewrite M_bind_unfold; unfold read at 1; cbv beta.
  destruct (getitem p "name") as [name| |] eqn:En; try discriminate.
  destruct (Py.strptime_date d) as [cd|] eqn:Ed.
  2:{ intros H; inversion H; subst. apply book_bad_format. auto. }
  destruct (Py.strptime_time s) as [ss|] eqn:Es.
  2:{ intros H; inversion H; subst. apply book_bad_format. auto. }
  rewrite M_bind_unfold; unfold read at 1; cbv beta.
  destruct (_is_slot_available st cd ss (duration_of t)) as [[|]| |] eqn:Ea; try discriminate.
  2:{ simpl. intros H; inversion H; subst. eapply book_unavailable; eauto. }
  cbn [negb]. rewrite M_bind_unfold; unfold read at 1; cbv beta.
  destruct (_minutes_to_time _) as [se| |] eqn:Ee; try discriminate.
  rewrite M_bind_unfold; unfold read at 1; cbv beta.
  rewrite M_bind_unfold; unfold read at 1; cbv beta.
  destruct (getitem p "email") as [email| |] eqn:Eem; try discriminate.
  rewrite M_bind_unfold; unfold read at 1; cbv beta.
  destruct (getitem p "phone") as [phone| |] eqn:Eph; try discriminate.
  rewrite M_bind_unfold; unfold alloc at 1; cbv beta.
  rewrite M_bind_unfold; unfold _save_booking at 1; cbv beta; cbn [heap bookings schedule_data].
  rewrite deref_app_new, (proj2 (getitem_Ret _ _ _) (new_booking_id _ _ _ _ _ _ _ _ _ _ _)).
  rewrite bind_Ret_l. intros H. inversion H; subst.
  apply getitem_Ret in En, Eem, Eph.
  eapply book_confirmed; eauto.
Qed.

Lemma book_appointment_bad_format env t d s (p : patient_info) reason st :
  is_Some (p !! "name") ->
  Py.strptime_date d = None \/ Py.strptime_time s = None ->
  book_appointment env t d s p reason st = (Ret (failed "Invalid date or time format"), st).
Proof.
  intros [name Hn] H. unfold book_appointment.
  rewrite M_bind_unfold; unfold read at 1; cbv beta.
  rewrite (proj2 (getitem_Ret _ _ _) Hn).
  destruct H as [-> | ->]; [reflexivity|]. destruct (Py.strptime_date d); reflexivity.
Qed.

Lemma book_appointment_unavailable env t d s (p : patient_info) reason st cd ss :
  is_Some (p !! "name") ->
  Py.strptime_date d = Some cd -> Py.strptime_time s = Some ss ->
  _is_slot_available st cd ss (duration_of t) = Ret false ->
  book_appointment env t d s p reason st = (Ret (failed "Time slot is not available"), st).
Proof.
  intros [name Hn] Hd Hs Ha. unfold book_appointment.
  rewrite M_bind_unfold; unfold read at 1; cbv beta.
  rewrite (proj2 (getitem_Ret _ _ _) Hn), Hd, Hs.
  rewrite M_bind_unfold; unfold read at 1; cbv beta. rewrite Ha. reflexivity.
Qed.

(** C3. A failed booking is an ordinary return value and leaves the store
    as it was.  Whenever [book_appointment] returns a result whose status is
    "failed", the [api] object after the call (the heap of records, the list
    [bookings] and the file contents) equals the object before the call, the
    result carries no booking id, and it is one of the two failure results.
    Moreover both failure paths do return (they do not raise): for a patient
    dict that has a name, an unparseable date or time gives the result
    "Invalid date or time format", and a slot that the re-validation finds
    unavailable gives "Time slot is not available". *)
Theorem book_failure_is_value_store_unchanged
    env t d s (p : patient_info) reason st :
  (forall res st',
     book_appointment env t d s p reason st = (Ret res, st') ->
     Result.status res = "failed" ->
     st' = st /\ Result.booking_id res = None /\
     (res = failed "Invalid date or time format" \/ res = failed "Time slot is not available")) /\
  (is_Some (p !! "name") ->
   Py.strptime_date d = None \/ Py.strptime_time s = None ->
   book_appointment env t d s p reason st
   = (Ret (failed "Invalid date or time format"), st)) /\
  (is_Some (p !! "name") ->
   forall cd ss,
     Py.strptime_date d = Some cd -> Py.strptime_time s = Some ss ->
     _is_slot_available st cd ss (duration_of t) = Ret false ->
     book_appointment env t d s p reason st
     = (Ret (failed "Time slot is not available"), st)).
Proof.
  split; [|split].
  - intros res st' Hrun Hfail. apply book_appointment_inv in Hrun.
    destruct Hrun; simpl in *; try discriminate; auto.
  - apply book_appointment_bad_format.
  - intros Hn cd ss. apply book_appointment_unavailable, Hn.
Qed.

Lemma book_failure_is_value_store_unchanged_witness :
  book_appointment clinic_env "consultation" "next monday" "10:00" ann "checkup" clinic
  = (Ret (failed "Invalid date or time format"), clinic) /\
  book_appointment clinic_env "consultation" "2026-11-09" "10:15" ann "checkup" clinic_after_padded
  = (Ret (failed "Time slot is not available"), clinic_after_padded) /\
  (book_appointment clinic_env "consultation" "2026-11-08" "10:00" ann "checkup" clinic).2
  = clinic.
Proof.
  split; [|split].
  - apply (book_failure_is_value_store_unchanged clinic_env "consultation" "next monday" "10:00"
             ann "checkup" clinic).
    + exists "Ann Lee". reflexivity.
    + left. reflexivity.
  - apply (book_failure_is_value_store_unchanged clinic_env "consultation" "2026-11-09" "10:15"
             ann "checkup" clinic_after_padded)
      with (cd := Py.mk_date 2026 11 9) (ss := Py.mk_time 10 15).
    + exists "Ann Lee". reflexivity.
    + reflexivity.
    + reflexivity.
    + vm_compute. reflexivity.
  - apply (proj1 (book_failure_is_value_store_unchanged clinic_env "consultation"
                    "2026-11-08" "10:00" ann "checkup" clinic)
             (failed "Time slot is not available")).
    + vm_compute. reflexivity.
    + reflexivity.
Defined.

(** ** [get_booking] and [cancel_booking] *)

Lemma find_booking_app h id bs1 bs2 :
  find_booking h id (bs1 ++ bs2) =
  match find_booking h id bs1 with
  | Some r => Some r
  | None => find_booking h id bs2
  end.
Proof.
  induction bs1 as [|r bs1 IH]; simpl; [reflexivity|].
  destruct (bool_decide _); [reflexivity|exact IH].
Qed.

Lemma find_booking_grow h (b : booking) id bs :
  forallb (fun r => bool_decide (r < length h)%nat) bs = true ->
  find_booking (h ++ [b]) id bs = find_booking h id bs.
Proof.
  induction bs as [|r bs IH]; simpl; [reflexivity|]. intros H.
  apply andb_prop in H as [Hr H]. apply bool_decide_eq_true in Hr.
  rewrite deref_app_old by exact Hr. rewrite IH by exact H. reflexivity.
Qed.

Lemma find_booking_Some h id bs r :
  find_booking h id bs = Some r ->
  r ∈ bs /\ exists b, h !! r = Some b /\ b !! "booking_id" = Some id.
Proof.
  induction bs as [|r0 bs IH]; simpl; [discriminate|].
  destruct (bool_decide _) eqn:E.
  - intros H; inversion H; subst. split; [left|].
    apply bool_decide_eq_true in E. unfold deref in E.
    destruct (h !! r) as [b|]; [eauto|]. simpl in E. rewrite lookup_empty in E. discriminate.
  - intros H. destruct (IH H) as [? ?]. split; [right|]; assumption.
Qed.

(** Round trip under a new id.  After [book_appointment] returned status "confirmed"
    with a booking id that no stored record already carries, [get_booking]
    with that id returns the record just stored: its status is "confirmed",
    and its date, start time, end time and patient fields equal those of
    the confirmation returned to the caller. *)
Theorem booking_round_trip env t d s (p : patient_info) reason st res st' id :
  book_appointment env t d s p reason st = (Ret res, st') ->
  Result.status res = "confirmed" ->
  Result.booking_id res = Some id ->
  heap_closedb st = true ->
  get_booking st id = None ->
  exists r b e,
    get_booking st' id = Some r /\ heap st' !! r = Some b /\
    b !! "booking_id" = Some id /\
    b !! "status" = Some "confirmed" /\
    Result.details res = DetailsBooked d s e t (duration_of t) p reason /\
    b !! "date" = Some d /\ b !! "start_time" = Some s /\ b !! "end_time" = Some e /\
    b !! "patient_name" = p !! "name" /\
    b !! "patient_email" = p !! "email" /\
    b !! "patient_phone" = p !! "phone".
Proof.
  intros Hrun Hst Hid Hclosed Hfresh. apply book_appointment_inv in Hrun.
  destruct Hrun as [ | |cd ss se name email phone Hd Hs Ha He Hn Hem Hph bid code];
    simpl in Hst; try discriminate.
  simpl in Hid. inversion Hid; subst id. clear Hid.
  set (b := new_booking _ _ _ _ _ _ _ _ _ _ _).
  exists (length (heap st)), b, (Py.strftime_hm se).
  split.
  { unfold get_booking, stored. cbn [heap bookings].
    rewrite find_booking_app, find_booking_grow by exact Hclosed.
    unfold get_booking in Hfresh. rewrite Hfresh. simpl.
    rewrite deref_app_new. unfold b. rewrite new_booking_id.
    rewrite bool_decide_eq_true_2 by reflexivity. reflexivity. }
  split.
  { unfold stored. cbn [heap]. rewrite lookup_app_r by lia. rewrite Nat.sub_diag. reflexivity. }
  rewrite Hn, Hem, Hph. unfold b, new_booking.
  repeat split; reflexivity.
Qed.

Lemma booking_round_trip_witness :
  exists r b e,
    get_booking clinic_after_padded "APPT-20261103-3F2A9C" = Some r /\
    heap clinic_after_padded !! r = Some b /\
    b !! "booking_id" = Some "APPT-20261103-3F2A9C" /\
    b !! "status" = Some "confirmed" /\
    DetailsBooked "2026-11-09" "10:00" "10:30" "consultation" 30 ann "checkup"
    = DetailsBooked "2026-11-09" "10:00" e "consultation" (duration_of "consultation") ann "checkup" /\
    b !! "date" = Some "2026-11-09" /\ b !! "start_time" = Some "10:00" /\
    b !! "end_time" = Some e /\
    b !! "patient_name" = ann !! "name" /\
    b !! "patient_email" = ann !! "email" /\
    b !! "patient_phone" = ann !! "phone".
Proof.
  apply (booking_round_trip clinic_env "consultation" "2026-11-09" "10:00" ann "checkup"
           clinic
           (Result.mk (Some "APPT-20261103-3F2A9C") "confirmed" (Some "7B1D44AA")
              (DetailsBooked "2026-11-09" "10:00" "10:30" "consultation" 30 ann "checkup"))
           clinic_after_padded "APPT-20261103-3F2A9C").
  - vm_compute. reflexivity.
  - reflexivity.
  - reflexivity.
  - reflexivity.
  - reflexivity.
Defined.

(** C8 (the code departs from the claim).  [book_appointment] draws the
    suffix of the booking id at random and does not compare it with the
    ids of the stored records.  When the draw of a later call on the same
    day begins with the same six digits as an earlier one, the call returns
    status "confirmed" with an id that an older record already carries, and
    [get_booking] with that id returns the older record.  Here Bo Ray's
    follow-up on 2026-11-09 at 11:00-11:15 is confirmed under the id of Ann
    Lee's consultation, and the record fetched under that id is hers, the
    first of the heap: confirmed, 10:00-10:30, with her name, email and
    phone.  Bo Ray's record is stored second, under the same id. *)
Theorem round_trip_fails_on_colliding_id :
  book_appointment clinic_env_colliding "followup" "2026-11-09" "11:00" bo "review"
    clinic_after_padded
  = (Ret (Result.mk (Some "APPT-20261103-3F2A9C") "confirmed" (Some "E41C09B8")
            (DetailsBooked "2026-11-09" "11:00" "11:15" "followup" 15 bo "review")),
     clinic_after_collision) /\
  get_booking clinic_after_padded "APPT-20261103-3F2A9C" = Some 0%nat /\
  get_booking clinic_after_collision "APPT-20261103-3F2A9C" = Some 0%nat /\
  heap clinic_after_collision !! 0%nat
  = Some (new_booking "APPT-20261103-3F2A9C" "2026-11-09" "10:00" "10:30" "consultation"
            "Ann Lee" "ann@example.com" "+1-555-0100" "checkup" "7B1D44AA"
            "2026-11-03T10:00:00-06:00") /\
  heap clinic_after_collision !! 1%nat
  = Some (new_booking "APPT-20261103-3F2A9C" "2026-11-09" "11:00" "11:15" "followup"
            "Bo Ray" "bo@example.com" "+1-555-0101" "review" "E41C09B8"
            "2026-11-03T16:40:00-06:00").
Proof. repeat split; vm_compute; reflexivity. Qed.

Lemma deref_insert_eq h r (b : booking) : (r < length h)%nat -> deref (<[r := b]> h) r = b.
Proof. intros H. unfold deref. rewrite list_lookup_insert_eq by exact H. reflexivity. Qed.

Lemma cancel_loop_spec id bs st :
  cancel_loop id bs st =
  match find_booking (heap st) id bs with
  | Some r => (Ret true, cancelled st r)
  | None => (Ret false, st)
  end.
Proof.
  induction bs as [|r bs IH]; [reflexivity|].
  cbn [cancel_loop find_booking].
  destruct (bool_decide _) eqn:E; [|exact IH].
  rewrite M_bind_unfold. unfold setitem at 1. cbv beta.
  rewrite M_bind_unfold. unfold _save_booking at 1. cbv beta. cbn [heap bookings schedule_data].
  assert (find_booking (heap st) id (r :: bs) = Some r) as Hf.
  { simpl. rewrite E. reflexivity. }
  apply find_booking_Some in Hf as (_ & b & Hb & Hid).
  rewrite deref_insert_eq by (eapply lookup_lt_Some; eauto).
  unfold getitem. rewrite lookup_insert_ne by discriminate.
  unfold deref at 1. rewrite Hb. simpl. rewrite Hid. reflexivity.
Qed.

(** C10. A successful cancellation appends the cancelled record a second
    time.  When [cancel_booking] returns [True], the first record with that
    id has its status set to "cancelled" in place, the reference to that
    same record is appended to [bookings], so the list and the persisted
    array grow by one entry; nothing is removed, and every entry that is
    this reference shows the one cancelled record. *)
Theorem cancel_appends_same_record id st st' :
  cancel_booking id st = (Ret true, st') ->
  exists r b,
    get_booking st id = Some r /\ r ∈ bookings st /\ heap st !! r = Some b /\
    b !! "booking_id" = Some id /\
    heap st' = <[r := <["status" := "cancelled"]> b]> (heap st) /\
    bookings st' = bookings st ++ [r] /\
    length (bookings st') = S (length (bookings st)) /\
    file_appointments st' = deref (heap st') <$> bookings st' /\
    length (file_appointments st') = S (length (bookings st)) /\
    (forall i : nat, bookings st' !! i = Some r ->
       file_appointments st' !! i = Some (<["status" := "cancelled"]> b)) /\
    bookings st' !! length (bookings st) = Some r.
Proof.
  unfold cancel_booking. rewrite cancel_loop_spec. unfold get_booking.
  destruct (find_booking _ _ _) as [r|] eqn:Ef; [|discriminate].
  intros H. inversion H; subst st'. clear H.
  destruct (find_booking_Some _ _ _ _ Ef) as (Hin & b & Hb & Hid).
  exists r, b. unfold cancelled. cbn [heap bookings file_appointments].
  assert (deref (heap st) r = b) as Hderef by (unfold deref; rewrite Hb; reflexivity).
  rewrite Hderef.
  repeat split; try assumption; try reflexivity.
  - rewrite length_app. simpl. lia.
  - rewrite length_fmap, length_app. simpl. lia.
  - intros i Hi. rewrite list_lookup_fmap, Hi. simpl.
    rewrite deref_insert_eq by (eapply lookup_lt_Some; eauto). reflexivity.
  - rewrite lookup_app_r by lia. rewrite Nat.sub_diag. reflexivity.
Qed.

Lemma cancel_appends_same_record_witness :
  exists r b,
    get_booking clinic_after_padded "APPT-20261103-3F2A9C" = Some r /\
    r ∈ bookings clinic_after_padded /\ heap clinic_after_padded !! r = Some b /\
    b !! "booking_id" = Some "APPT-20261103-3F2A9C" /\
    heap (cancel_booking "APPT-20261103-3F2A9C" clinic_after_padded).2
    = <[r := <["status" := "cancelled"]> b]> (heap clinic_after_padded) /\
    bookings (cancel_booking "APPT-20261103-3F2A9C" clinic_after_padded).2
    = bookings clinic_after_padded ++ [r] /\
    length (bookings (cancel_booking "APPT-20261103-3F2A9C" clinic_after_padded).2)
    = S (length (bookings clinic_after_padded)) /\
    file_appointments (cancel_booking "APPT-20261103-3F2A9C" clinic_after_padded).2
    = deref (heap (cancel_booking "APPT-20261103-3F2A9C" clinic_after_padded).2)
        <$> bookings (cancel_booking "APPT-20261103-3F2A9C" clinic_after_padded).2 /\
    length (file_appointments (cancel_booking "APPT-20261103-3F2A9C" clinic_after_padded).2)
    = S (length (bookings clinic_after_padded)) /\
    (forall i : nat,
       bookings (cancel_booking "APPT-20261103-3F2A9C" clinic_after_padded).2 !! i = Some r ->
       file_appointments (cancel_booking "APPT-20261103-3F2A9C" clinic_after_padded).2 !! i
       = Some (<["status" := "cancelled"]> b)) /\
    bookings (cancel_booking "APPT-20261103-3F2A9C" clinic_after_padded).2
      !! length (bookings clinic_after_padded) = Some r.
Proof.
  apply (cancel_appends_same_record "APPT-20261103-3F2A9C" clinic_after_padded).
  vm_compute. reflexivity.
Defined.

(** ** What every emitted slot looks like *)

Lemma slots_loop_inv st cd dur step end_mins fuel :
  forall cur acc slots,
    slots_loop fuel st cd dur step end_mins cur acc = Ret slots ->
    exists new, slots = acc ++ new /\ Forall (emitted st cd dur end_mins) new.
Proof.
  induction fuel as [|fuel IH]; intros cur acc slots H; [discriminate|].
  rewrite slots_loop_unfold in H.
  destruct (Z.leb_spec (cur + dur) end_mins) as [Hle|Hgt].
  - bind_inv H. bind_inv H. bind_inv H.
    apply minutes_to_time_Ret in Ha as [Hc ->], Ha0 as [Hc' ->].
    apply IH in H as (new & -> & Hnew).
    eexists. rewrite <- app_assoc. split; [reflexivity|].
    constructor; [|exact Hnew].
    exists cur. simpl. auto 10.
  - inversion H; subst. exists []. rewrite app_nil_r. auto.
Qed.

Lemma get_availability_emitted fuel st env date_str t av slot :
  get_availability fuel st env date_str t = Ret av ->
  slot ∈ Availability.available_slots av ->
  exists d w0 w1,
    Py.strptime_date date_str = Some d /\ Py.date_ltb d (today_tz env) = false /\
    work_interval (schedule_data st) d = Some (w0, w1) /\
    emitted st d (duration_of t) w1 slot.
Proof.
  unfold get_availability, _get_working_hours. intros H Hin.
  destruct (Py.strptime_date date_str) as [d|] eqn:Ed.
  2:{ inversion H; subst. inversion Hin. }
  destruct (Py.date_ltb d (today_tz env)) eqn:Ep.
  { inversion H; subst. inversion Hin. }
  destruct (working_hours _ !! _) as [wh|] eqn:Ew.
  2:{ inversion H; subst. inversion Hin. }
  bind_inv H. bind_inv H. bind_inv H. inversion H; subst av. simpl in Hin.
  apply parse_time_Ret in Ha, Ha0.
  apply slots_loop_inv in Ha1 as (new & -> & Hnew). simpl in Hin.
  rewrite Forall_forall in Hnew.
  exists d, (_time_to_minutes a), (_time_to_minutes a0).
  split; [reflexivity|]. split; [exact Ep|].
  split; [eapply work_interval_Some; eauto|]. apply Hnew, Hin.
Qed.

Lemma emitted_times st cd dur e slot :
  emitted st cd dur e slot ->
  exists ts te,
    Py.strptime_time (Slot.start_time slot) = Some ts /\
    Py.strptime_time (Slot.end_time slot) = Some te /\
    _time_to_minutes te = _time_to_minutes ts + dur.
Proof.
  intros (c & Hc & Hc' & _ & -> & -> & _).
  destruct (minute_facts c Hc) as (H1 & _ & _ & H2).
  destruct (minute_facts (c + dur) Hc') as (H3 & _ & _ & H4).
  eexists _, _. split; [exact H1|]. split; [exact H3|]. lia.
Qed.

(** C9. Duration policy.  A type tag that is not a key of
    [appointment_durations] has duration 30; every slot [get_availability]
    emits for a type ends [duration_of] that type minutes after it starts;
    and every booking [book_appointment] confirms is stored with an end
    time equal to its start time plus [duration_of] its type, in minutes
    since midnight. *)
Theorem duration_policy (t : string) :
  (appointment_durations !! t = None -> duration_of t = 30) /\
  (forall fuel st env date_str av slot,
     get_availability fuel st env date_str t = Ret av ->
     slot ∈ Availability.available_slots av ->
     exists ts te,
       Py.strptime_time (Slot.start_time slot) = Some ts /\
       Py.strptime_time (Slot.end_time slot) = Some te /\
       _time_to_minutes te = _time_to_minutes ts + duration_of t) /\
  (forall env d s (p : patient_info) reason st res st',
     book_appointment env t d s p reason st = (Ret res, st') ->
     Result.status res = "confirmed" ->
     exists r b e ts te,
       bookings st' = bookings st ++ [r] /\ heap st' !! r = Some b /\
       b !! "type" = Some t /\
       b !! "start_time" = Some s /\ Py.strptime_time s = Some ts /\
       b !! "end_time" = Some e /\ Py.strptime_time e = Some te /\
       _time_to_minutes te = _time_to_minutes ts + duration_of t /\
       Result.details res = DetailsBooked d s e t (duration_of t) p reason).
Proof.
  split; [|split].
  - intros H. unfold duration_of. rewrite H. reflexivity.
  - intros fuel st env date_str av slot Hrun Hin.
    destruct (get_availability_emitted _ _ _ _ _ _ _ Hrun Hin) as (d & w0 & w1 & _ & _ & _ & He).
    eapply emitted_times, He.
  - intros env d s p reason st res st' Hrun Hst. apply book_appointment_inv in Hrun.
    destruct Hrun as [ | |cd ss se name email phone Hd Hs Ha He Hn Hem Hph bid code];
      simpl in Hst; try discriminate.
    apply minutes_to_time_Ret in He as [Hc ->].
    destruct (minute_facts _ Hc) as (H1 & _ & _ & H2).
    eexists (length (heap st)), _, _, ss, _.
    split; [reflexivity|].
    split; [unfold stored; cbn [heap]; rewrite lookup_app_r by lia; rewrite Nat.sub_diag; reflexivity|].
    split; [reflexivity|]. split; [reflexivity|]. split; [exact Hs|].
    split; [reflexivity|]. split; [exact H1|]. split; [exact H2|]. reflexivity.
Qed.

Lemma duration_policy_witness :
  duration_of "dental cleaning" = 30 /\
  exists r b e ts te,
    bookings
      (book_appointment clinic_env "dental cleaning" "2026-11-09" "10:00" ann "checkup" clinic).2
    = bookings clinic ++ [r] /\
    heap
      (book_appointment clinic_env "dental cleaning" "2026-11-09" "10:00" ann "checkup" clinic).2
    !! r = Some b /\
    b !! "type" = Some "dental cleaning" /\
    b !! "start_time" = Some "10:00" /\ Py.strptime_time "10:00" = Some ts /\
    b !! "end_time" = Some e /\ Py.strptime_time e = Some te /\
    _time_to_minutes te = _time_to_minutes ts + duration_of "dental cleaning" /\
    DetailsBooked "2026-11-09" "10:00" "10:30" "dental cleaning" 30 ann "checkup"
    = DetailsBooked "2026-11-09" "10:00" e "dental cleaning" (duration_of "dental cleaning")
        ann "checkup".
Proof.
  destruct (duration_policy "dental cleaning") as (H1 & _ & H3).
  split; [apply H1; reflexivity|].
  apply (H3 clinic_env "2026-11-09" "10:00" ann "checkup" clinic
           (Result.mk (Some "APPT-20261103-3F2A9C") "confirmed" (Some "7B1D44AA")
              (DetailsBooked "2026-11-09" "10:00" "10:30" "dental cleaning" 30 ann "checkup"))).
  - vm_compute. reflexivity.
  - reflexivity.
Defined.

(** C4. Degenerate cases and grid shape of [get_availability].  An
    unparseable date string, a date strictly before today (configured
    timezone) and a date whose weekday has no working-hours entry all give
    the empty slot list.  For every other date, on a well-formed schedule
    and store, the answer is the full grid: slot number [i] starts at the
    working-hours start plus [i] times the slot granularity, the grid holds
    exactly the [i] for which that start plus the duration is at most the
    working-hours end, and every candidate is present with its [available]
    flag, true or false. *)
Theorem get_availability_degenerate_and_grid fuel st env date_str t :
  (Py.strptime_date date_str = None ->
   get_availability fuel st env date_str t = Ret (Availability.mk date_str [])) /\
  (forall d,
     Py.strptime_date date_str = Some d ->
     Py.date_ltb d (today_tz env) = true \/
     working_hours (schedule_data st) !! day_key d = None ->
     get_availability fuel st env date_str t = Ret (Availability.mk date_str [])) /\
  (forall d,
     Py.strptime_date date_str = Some d ->
     Py.date_ltb d (today_tz env) = false ->
     is_Some (working_hours (schedule_data st) !! day_key d) ->
     schedule_okb (schedule_data st) = true -> store_okb st = true ->
     (day_fuel <= fuel)%nat ->
     let step := default 15 (slot_duration_minutes (schedule_data st)) in
     exists w0 w1 slots,
       work_interval (schedule_data st) d = Some (w0, w1) /\
       get_availability fuel st env date_str t = Ret (Availability.mk date_str slots) /\
       (forall i, 0 <= i ->
          (i < Z.of_nat (length slots) <-> w0 + i * step + duration_of t <= w1)) /\
       (forall i : nat, (i < length slots)%nat ->
          slots !! i = Some (slot_at st d (duration_of t) (w0 + Z.of_nat i * step)))).
Proof.
  split; [|split].
  - apply get_availability_unparseable.
  - intros d Hd [Hpast|Hoff].
    + eapply get_availability_past; eauto.
    + eapply get_availability_day_off; eauto.
  - intros d Hd Hpast Hday Hs Hb Hfuel step.
    destruct (schedule_ok_work_interval _ d Hs Hday) as (w0 & w1 & Hw & _ & _).
    destruct (get_availability_grid fuel st env date_str t d w0 w1 Hs Hb Hfuel Hd Hpast Hw)
      as (k & Hrun & Hk & _).
    exists w0, w1, (grid st d (duration_of t) step w0 k).
    rewrite grid_length. split; [exact Hw|]. split; [exact Hrun|]. split; [exact Hk|].
    intros i Hi. apply grid_lookup, Hi.
Qed.

Lemma get_availability_degenerate_and_grid_witness :
  get_availability day_fuel clinic clinic_env "next monday" "consultation"
  = Ret (Availability.mk "next monday" []) /\
  get_availability day_fuel clinic clinic_env "2026-11-02" "consultation"
  = Ret (Availability.mk "2026-11-02" []) /\
  get_availability day_fuel clinic clinic_env "2026-11-08" "consultation"
  = Ret (Availability.mk "2026-11-08" []) /\
  exists w0 w1 slots,
    work_interval clinic_schedule (Py.mk_date 2026 11 9) = Some (w0, w1) /\
    get_availability day_fuel clinic clinic_env "2026-11-09" "consultation"
    = Ret (Availability.mk "2026-11-09" slots) /\
    (forall i, 0 <= i ->
       (i < Z.of_nat (length slots) <-> w0 + i * 15 + duration_of "consultation" <= w1)) /\
    (forall i : nat, (i < length slots)%nat ->
       slots !! i
       = Some (slot_at clinic (Py.mk_date 2026 11 9) (duration_of "consultation")
                 (w0 + Z.of_nat i * 15))).
Proof.
  split; [|split; [|split]].
  - apply (get_availability_degenerate_and_grid day_fuel clinic clinic_env "next monday").
    reflexivity.
  - apply (proj1 (proj2 (get_availability_degenerate_and_grid day_fuel clinic clinic_env
                           "2026-11-02" "consultation")) (Py.mk_date 2026 11 2)).
    + reflexivity.
    + left. reflexivity.
  - apply (proj1 (proj2 (get_availability_degenerate_and_grid day_fuel clinic clinic_env
                           "2026-11-08" "consultation")) (Py.mk_date 2026 11 8)).
    + reflexivity.
    + right. vm_compute. reflexivity.
  - apply (proj2 (proj2 (get_availability_degenerate_and_grid day_fuel clinic clinic_env
                           "2026-11-09" "consultation")) (Py.mk_date 2026 11 9)).
    + reflexivity.
    + reflexivity.
    + exists office_hours. vm_compute. reflexivity.
    + vm_compute. reflexivity.
    + reflexivity.
    + unfold day_fuel. lia.
Defined.

(** Soundness of the [available] flag with respect to the records the
    availability check counts: those whose [date] field is the queried day
    in the form [%Y-%m-%d] prints it. *)
Lemma available_slot_sound fuel st env date_str t av slot :
  get_availability fuel st env date_str t = Ret av ->
  slot ∈ Availability.available_slots av ->
  Slot.available slot = true ->
  exists d w0 w1 l0 l1 ts,
    Py.strptime_date date_str = Some d /\
    work_interval (schedule_data st) d = Some (w0, w1) /\
    lunch_interval (schedule_data st) = Some (l0, l1) /\
    Py.strptime_time (Slot.start_time slot) = Some ts /\
    let s := _time_to_minutes ts in
    let e := s + duration_of t in
    (w0 <= s /\ e <= w1) /\
    ~ overlaps s e l0 l1 /\
    forall r, r ∈ bookings st -> counts_on (Py.strftime_ymd d) (deref (heap st) r) ->
      exists b0 b1, booking_interval (deref (heap st) r) = Some (b0, b1) /\
                    ~ overlaps s e b0 b1.
Proof.
  intros Hrun Hin Hav.
  destruct (get_availability_emitted _ _ _ _ _ _ _ Hrun Hin) as (d & w0 & w1 & Hd & _ & Hw & He).
  destruct He as (c & Hc & Hc' & _ & Hst & _ & Ha). rewrite Hav in Ha.
  apply is_slot_available_true in Ha as (w0' & w1' & l0 & l1 & Hw' & Hl & Hin' & Hlunch & Hb).
  rewrite Hw in Hw'. inversion Hw'; subst w0' w1'.
  destruct (minute_facts c Hc) as (Hp & _ & _ & Hm).
  rewrite Hm in *.
  exists d, w0, w1, l0, l1, (Py.mk_time (c / 60) (c mod 60)).
  rewrite Hst, Hm. cbv zeta.
  repeat split; try assumption; try lia.
  intros r Hr Hcount. eapply check_bookings_true; eauto.
Qed.

(** ** Time-of-day preference *)

Lemma preference_loop_cons tp slot rest acc :
  preference_loop tp (slot :: rest) acc =
  (hour ← Py.int (Py.split_colon_head (Slot.start_time slot));
   if in_band tp hour then preference_loop tp rest (acc ++ [slot])
   else preference_loop tp rest acc).
Proof.
  cbn [preference_loop]. destruct (Py.int _) as [h| |]; try reflexivity.
  rewrite !bind_Ret_l. unfold in_band.
  destruct (bool_decide (tp = Some "morning") && (6 <=? h) && (h <? 12)); [reflexivity|].
  destruct (bool_decide (tp = Some "afternoon") && (12 <=? h) && (h <? 17)); [reflexivity|].
  destruct (bool_decide (tp = Some "evening") && (17 <=? h) && (h <? 22)); reflexivity.
Qed.

Lemma preference_loop_filter tp slots acc r :
  preference_loop tp slots acc = Ret r ->
  r = acc ++ filter (fun slot => in_band tp (slot_hour slot) = true) slots.
Proof.
  revert acc. induction slots as [|slot rest IH]; intros acc H.
  - inversion H. rewrite app_nil_r. reflexivity.
  - rewrite preference_loop_cons in H. bind_inv H.
    assert (slot_hour slot = a) as Hh by (unfold slot_hour; rewrite Ha; reflexivity).
    rewrite filter_cons.
    destruct (in_band tp a) eqn:E.
    + apply IH in H. rewrite H, <- app_assoc.
      rewrite decide_True by congruence. reflexivity.
    + apply IH in H. rewrite decide_False by congruence. exact H.
Qed.

Lemma preference_loop_returns tp slots acc :
  Forall (fun slot => exists h, Py.int (Py.split_colon_head (Slot.start_time slot)) = Ret h) slots ->
  exists r, preference_loop tp slots acc = Ret r.
Proof.
  intros H. revert acc. induction H as [|slot rest [h Hh] _ IH]; intros acc.
  - eexists; reflexivity.
  - rewrite preference_loop_cons, Hh, bind_Ret_l. destruct (in_band tp h); apply IH.
Qed.

Lemma in_band_unrecognized tp h : ~ recognized tp -> in_band tp h = false.
Proof.
  intros H. unfold in_band, recognized in *.
  repeat (rewrite bool_decide_eq_false_2; [|tauto]). reflexivity.
Qed.

Lemma in_band_morning h : in_band (Some "morning") h = (6 <=? h) && (h <? 12).
Proof.
  unfold in_band. rewrite (bool_decide_eq_true_2 (Some "morning" = Some "morning")) by reflexivity.
  rewrite !bool_decide_eq_false_2 by discriminate.
  destruct (6 <=? h), (h <? 12), (12 <=? h), (h <? 17), (17 <=? h), (h <? 22); reflexivity.
Qed.

Lemma in_band_afternoon h : in_band (Some "afternoon") h = (12 <=? h) && (h <? 17).
Proof.
  unfold in_band. rewrite (bool_decide_eq_true_2 (Some "afternoon" = Some "afternoon")) by reflexivity.
  rewrite !bool_decide_eq_false_2 by discriminate.
  destruct (6 <=? h), (h <? 12), (12 <=? h), (h <? 17), (17 <=? h), (h <? 22); reflexivity.
Qed.

Lemma in_band_evening h : in_band (Some "evening") h = (17 <=? h) && (h <? 22).
Proof.
  unfold in_band. rewrite (bool_decide_eq_true_2 (Some "evening" = Some "evening")) by reflexivity.
  rewrite !bool_decide_eq_false_2 by discriminate.
  destruct (6 <=? h), (h <? 12), (12 <=? h), (h <? 17), (17 <=? h), (h <? 22); reflexivity.
Qed.

(** What [get_available_slots_only] returns, when it returns. *)
Lemma get_available_slots_only_inv fuel st env date_str t tp slots :
  get_available_slots_only fuel st env date_str t tp = Ret slots ->
  exists av,
    get_availability fuel st env date_str t = Ret av /\
    let open := filter (fun slot => Slot.available slot = true)
                  (Availability.available_slots av) in
    slots = if truthy tp
            then filter (fun slot => in_band tp (slot_hour slot) = true) open
            else open.
Proof.
  unfold get_available_slots_only. intros H. bind_inv H. exists a. split; [exact Ha|].
  cbv zeta. destruct (truthy tp); simpl in H.
  - destruct (bool_decide _) eqn:E; simpl in H.
    + inversion H; subst. apply bool_decide_eq_true in E. rewrite E. reflexivity.
    + apply preference_loop_filter in H. exact H.
  - inversion H. reflexivity.
Qed.

(** The part of the preference filter that does what the specification
    says: the three bands, and no filtering when no preference is given. *)
Lemma preference_bands fuel st env date_str t tp slots :
  get_available_slots_only fuel st env date_str t tp = Ret slots ->
  exists av,
    get_availability fuel st env date_str t = Ret av /\
    let open := filter (fun slot => Slot.available slot = true)
                  (Availability.available_slots av) in
    (tp = Some "morning" ->
     slots = filter (fun slot => 6 <= slot_hour slot < 12) open) /\
    (tp = Some "afternoon" ->
     slots = filter (fun slot => 12 <= slot_hour slot < 17) open) /\
    (tp = Some "evening" ->
     slots = filter (fun slot => 17 <= slot_hour slot < 22) open) /\
    (truthy tp = false -> slots = open).
Proof.
  intros H. apply get_available_slots_only_inv in H as (av & Hav & Hs).
  exists av. split; [exact Hav|]. cbv zeta in *.
  split; [|split; [|split]].
  - intros ->. simpl in Hs. rewrite Hs. apply list_filter_iff. intros slot.
    rewrite in_band_morning. lia.
  - intros ->. simpl in Hs. rewrite Hs. apply list_filter_iff. intros slot.
    rewrite in_band_afternoon. lia.
  - intros ->. simpl in Hs. rewrite Hs. apply list_filter_iff. intros slot.
    rewrite in_band_evening. lia.
  - intros Ht. rewrite Ht in Hs. exact Hs.
Qed.

(** C5 (the code departs from the claim).  For a time preference that is
    a non-empty string other than "morning", "afternoon" and "evening",
    [get_available_slots_only] returns the empty list whenever it returns,
    instead of the unfiltered available slots: no branch of the filter
    keeps a slot.  On the clinic of the specification's scenario the
    preference "any" yields no slot for Monday 2026-11-09 although 26 slots
    are available. *)
Theorem unrecognized_preference_drops_every_slot :
  (forall fuel st env date_str t tp slots,
     truthy tp = true -> ~ recognized tp ->
     get_available_slots_only fuel st env date_str t tp = Ret slots ->
     slots = []) /\
  get_available_slots_only day_fuel clinic clinic_env "2026-11-09" "consultation" (Some "any")
  = Ret [] /\
  exists slots,
    get_available_slots_only day_fuel clinic clinic_env "2026-11-09" "consultation" None
    = Ret slots /\
    length slots = 26%nat.
Proof.
  split; [|split].
  - intros fuel st env date_str t tp slots Htruthy Hrec H.
    apply get_available_slots_only_inv in H as (av & _ & Hs). cbv zeta in Hs.
    rewrite Htruthy in Hs. subst slots.
    induction (filter _ (Availability.available_slots av)) as [|slot l IH]; [reflexivity|].
    rewrite filter_cons, decide_False; [exact IH|].
    rewrite in_band_unrecognized by exact Hrec. discriminate.
  - vm_compute. reflexivity.
  - eexists. split; [vm_compute; reflexivity|reflexivity].
Qed.

Lemma unrecognized_preference_drops_every_slot_witness :
  match get_available_slots_only day_fuel clinic clinic_env "2026-11-09" "consultation"
          (Some "any") with
  | Ret slots => slots
  | _ => []
  end = [].
Proof.
  apply (proj1 unrecognized_preference_drops_every_slot day_fuel clinic clinic_env
           "2026-11-09" "consultation" (Some "any")).
  - reflexivity.
  - intros [H|[H|H]]; discriminate.
  - vm_compute. reflexivity.
Defined.

(** ** The stored date is the caller's text, the compared date is reformatted *)

(** C1 (the code departs from the claim).  Two sequential
    [book_appointment] calls with the identical date "2026-11-9", type and
    start time 10:00 both return status "confirmed", and the store then
    holds two confirmed bookings on the same day with the same interval
    10:00-10:30: the record keeps the caller's date text, while the
    availability check compares against the date reformatted as
    2026-11-09. *)
Theorem double_booking_when_date_unpadded :
  let run1 := book_appointment clinic_env "consultation" "2026-11-9" "10:00" ann "checkup"
                clinic in
  let run2 := book_appointment clinic_env_later "consultation" "2026-11-9" "10:00" ann "checkup"
                run1.2 in
  let first := deref (heap run2.2) 0 in
  let second := deref (heap run2.2) 1 in
  run1.1 = Ret (Result.mk (Some "APPT-20261103-3F2A9C") "confirmed" (Some "7B1D44AA")
                  (DetailsBooked "2026-11-9" "10:00" "10:30" "consultation" 30 ann "checkup")) /\
  run2.1 = Ret (Result.mk (Some "APPT-20261103-C0FFEE") "confirmed" (Some "0BADF00D")
                  (DetailsBooked "2026-11-9" "10:00" "10:30" "consultation" 30 ann "checkup")) /\
  bookings run2.2 = [0%nat; 1%nat] /\
  confirmed first /\ confirmed second /\
  first !! "date" = Some "2026-11-9" /\ second !! "date" = Some "2026-11-9" /\
  booking_day first = Some (Py.mk_date 2026 11 9) /\
  booking_day second = Some (Py.mk_date 2026 11 9) /\
  booking_interval first = Some (600, 630) /\
  booking_interval second = Some (600, 630) /\
  overlaps 600 630 600 630.
Proof.
  cbv zeta. repeat split; try (vm_compute; reflexivity).
  all: unfold overlaps; lia.
Qed.

(** C2 (the code departs from the claim).  After one consultation was
    booked for "2026-11-9" at 10:00, [get_availability] for that Monday,
    asked as "2026-11-09" or as "2026-11-9", emits the slot 10:00-10:30
    with [available = true] although it overlaps the confirmed booking
    10:00-10:30 on that day. *)
Theorem available_slot_overlaps_unpadded_booking :
  exists av b,
    get_availability day_fuel clinic_after_unpadded clinic_env "2026-11-09" "consultation"
    = Ret av /\
    Availability.available_slots av !! 4%nat = Some (Slot.mk "10:00" "10:30" true) /\
    get_availability day_fuel clinic_after_unpadded clinic_env "2026-11-9" "consultation"
    = Ret (Availability.mk "2026-11-9" (Availability.available_slots av)) /\
    Py.strptime_date "2026-11-09" = Some (Py.mk_date 2026 11 9) /\
    Py.strptime_time "10:00" = Some (Py.mk_time 10 0) /\
    _time_to_minutes (Py.mk_time 10 0) = 600 /\
    duration_of "consultation" = 30 /\
    bookings clinic_after_unpadded = [0%nat] /\
    heap clinic_after_unpadded !! 0%nat = Some b /\
    confirmed b /\
    booking_day b = Some (Py.mk_date 2026 11 9) /\
    booking_interval b = Some (600, 630) /\
    overlaps 600 (600 + 30) 600 630.
Proof.
  eexists.
  exists (deref (heap clinic_after_unpadded) 0).
  split; [vm_compute; reflexivity|].
  repeat split; try (vm_compute; reflexivity).
  all: unfold overlaps; lia.
Qed.

(** ** Lists *)

Lemma filter_fmap_list {A B} (f : A -> B) (P : B -> Prop) `{forall x, Decision (P x)}
    (l : list A) :
  filter P (f <$> l) = f <$> filter (fun x => P (f x)) l.
Proof.
  induction l as [|x l IH]; [reflexivity|].
  rewrite fmap_cons, !filter_cons. destruct (decide (P (f x))); rewrite IH; reflexivity.
Qed.

Lemma StronglySorted_sublist {A} (R : relation A) (l1 l2 : list A) :
  l1 `sublist_of` l2 -> StronglySorted R l2 -> StronglySorted R l1.
Proof.
  induction 1 as [|x l1 l2 Hsub IH|x l1 l2 Hsub IH]; intros Hs.
  - constructor.
  - apply StronglySorted_inv in Hs as [Hs Hx]. constructor; [auto|].
    rewrite Forall_forall in *. intros y Hy. apply Hx. eapply elem_of_sublist; eauto.
  - apply StronglySorted_inv in Hs as [Hs _]. auto.
Qed.

Lemma Forall_sublist_of {A} (P : A -> Prop) (l1 l2 : list A) :
  l1 `sublist_of` l2 -> Forall P l2 -> Forall P l1.
Proof.
  intros Hsub. rewrite !Forall_forall. intros H x Hx. apply H. eapply elem_of_sublist; eauto.
Qed.

(** ** Shape of the open slots of a day *)

Lemma grid_open st d dur step cur k :
  0 < step ->
  exists ms,
    filter (fun slot => Slot.available slot = true) (grid st d dur step cur k)
    = open_at dur <$> ms /\
    StronglySorted Z.lt ms /\
    Forall (fun m => exists i : nat, (i < k)%nat /\ m = cur + Z.of_nat i * step) ms.
Proof.
  intros Hstep. revert cur. induction k as [|k IH]; intros cur.
  - exists []. repeat split; constructor.
  - destruct (IH (cur + step)) as (ms & Hf & Hs & Hb).
    cbn [grid]. rewrite filter_cons.
    assert (Forall (fun m => exists i : nat, (i < S k)%nat /\ m = cur + Z.of_nat i * step) ms) as Hb'.
    { eapply Forall_impl; [exact Hb|]. intros m (i & Hi & ->). exists (S i). split; [lia|lia]. }
    destruct (decide (Slot.available (slot_at st d dur cur) = true)) as [Ha|Ha].
    + exists (cur :: ms). split; [|split].
      * rewrite Hf, fmap_cons. f_equal. unfold slot_at in *. simpl in Ha.
        unfold open_at. rewrite Ha. reflexivity.
      * constructor; [exact Hs|]. eapply Forall_impl; [exact Hb|].
        intros m (i & _ & ->). nia.
      * constructor; [|exact Hb']. exists O. split; [lia|lia].
    + exists ms. auto.
Qed.

Lemma open_at_hour dur m :
  0 <= m < 1440 ->
  Py.int (Py.split_colon_head (Slot.start_time (open_at dur m))) = Ret (m / 60).
Proof. intros H. apply (minute_facts m H). Qed.

(** Whatever the date and the preference, a well-formed engine answers
    with open slots at strictly increasing start minutes. *)
Lemma open_slots_shape fuel st env date_str t tp :
  schedule_okb (schedule_data st) = true -> store_okb st = true ->
  (day_fuel <= fuel)%nat ->
  exists ms,
    get_available_slots_only fuel st env date_str t tp = Ret (open_at (duration_of t) <$> ms) /\
    StronglySorted Z.lt ms /\ Forall (minute_ok (duration_of t)) ms.
Proof.
  intros Hs Hb Hfuel.
  assert (exists ms0,
    get_availability fuel st env date_str t = Ret (Availability.mk date_str ms0.1) /\
    filter (fun slot => Slot.available slot = true) ms0.1 = open_at (duration_of t) <$> ms0.2 /\
    StronglySorted Z.lt ms0.2 /\ Forall (minute_ok (duration_of t)) ms0.2) as ((slots & ms) & Hrun & Hf & Hsorted & Hok).
  { destruct (Py.strptime_date date_str) as [d|] eqn:Ed.
    2:{ exists ([], []). split; [apply get_availability_unparseable, Ed|].
        repeat split; constructor. }
    destruct (Py.date_ltb d (today_tz env)) eqn:Ep.
    { exists ([], []). split; [eapply get_availability_past; eauto|].
      repeat split; constructor. }
    destruct (working_hours (schedule_data st) !! day_key d) as [wh|] eqn:Ew.
    2:{ exists ([], []). split; [eapply get_availability_day_off; eauto|].
        repeat split; constructor. }
    destruct (schedule_ok_work_interval _ d Hs (ex_intro _ wh Ew)) as (w0 & w1 & Hw & _ & _).
    destruct (get_availability_grid fuel st env date_str t d w0 w1 Hs Hb Hfuel Ed Ep Hw)
      as (k & Hrun & Hk & Hw0 & Hw1).
    destruct (grid_open st d (duration_of t) _ w0 k (schedule_ok_step _ Hs)) as (ms & Hf & Hso & Hfo).
    eexists (_, ms). split; [exact Hrun|]. split; [exact Hf|]. split; [exact Hso|].
    eapply Forall_impl; [exact Hfo|]. intros m (i & Hi & ->).
    pose proof (proj1 (Hk (Z.of_nat i) ltac:(lia)) ltac:(lia)).
    pose proof (duration_of_bounds t). pose proof (schedule_ok_step _ Hs).
    unfold minute_ok. nia. }
  simpl in *.
  unfold get_available_slots_only. rewrite Hrun, bind_Ret_l. cbn [Availability.available_slots].
  rewrite Hf.
  destruct (truthy tp && negb (bool_decide (open_at (duration_of t) <$> ms = []))) eqn:E.
  - assert (exists r, preference_loop tp (open_at (duration_of t) <$> ms) [] = Ret r) as [r Hr].
    { apply preference_loop_returns. apply Forall_fmap. eapply Forall_impl; [exact Hok|].
      intros m [Hm _]. simpl. eexists. apply (open_at_hour (duration_of t)), Hm. }
    rewrite Hr. apply preference_loop_filter in Hr. simpl in Hr. subst r.
    rewrite filter_fmap_list.
    eexists. split; [reflexivity|].
    split; [eapply StronglySorted_sublist; [apply sublist_filter|exact Hsorted]|].
    eapply Forall_sublist_of; [apply sublist_filter|exact Hok].
  - exists ms. auto.
Qed.

(** ** The clock *)

Lemma days_before_year_nonneg y : 1 <= y -> 0 <= Py.days_before_year y.
Proof.
  intros H. unfold Py.days_before_year. cbv zeta.
  pose proof (Z.div_pos (y - 1) 4 ltac:(lia) ltac:(lia)).
  pose proof (Z.div_pos (y - 1) 400 ltac:(lia) ltac:(lia)).
  assert ((y - 1) / 100 <= y - 1) by (apply Z.div_le_upper_bound; lia).
  nia.
Qed.

Lemma toordinal_pos d : Py.date_ok d = true -> 1 <= Py.toordinal d.
Proof.
  unfold Py.date_ok, Py.toordinal, Py.ymd2ord, Py.MINYEAR. intros H.
  repeat (apply andb_prop in H; destruct H as [H ?]).
  pose proof (days_before_year_nonneg (Py.year d) ltac:(lia)).
  assert (0 <= Py.days_before_month (Py.year d) (Py.month d)).
  { unfold Py.days_before_month.
    assert (0 <= Py.DAYS_BEFORE_MONTH (Py.month d)).
    { unfold Py.DAYS_BEFORE_MONTH. destruct (Py.month d) as [|p|p]; try lia.
      do 4 (destruct p as [p|p|]; try lia). }
    destruct (_ && _); lia. }
  lia.
Qed.

Lemma date_add_ok env k :
  clock_okb env = true -> 1 <= k <= 14 ->
  Py.date_add (today_naive env) k = Ret (day_at env k).
Proof.
  unfold clock_okb. intros H Hk. apply andb_prop in H as [Hd Hmax].
  apply toordinal_pos in Hd. unfold Py.date_add, day_at. cbv zeta.
  destruct (Z.ltb_spec 0 (Py.toordinal (today_naive env) + k)); [|lia].
  destruct (Z.leb_spec (Py.toordinal (today_naive env) + k) Py.MAXORDINAL); [|lia].
  reflexivity.
Qed.

(** ** Ordinals: [fromordinal] and [toordinal] *)

Lemma month_day_check_all :
  forallb (month_day_check false) (seqZ 0 365) && forallb (month_day_check true) (seqZ 0 366)
  = true.
Proof. vm_compute. reflexivity. Qed.

Lemma month_day_ok (leap : bool) (r : Z) :
  0 <= r < (if leap then 366 else 365) ->
  let '(m, d) := Py.month_day leap r in
  1 <= m <= 12 /\ 1 <= d /\
  Py.DAYS_BEFORE_MONTH m + (if (m >? 2) && leap then 1 else 0) + d = r + 1.
Proof.
  intros Hr. pose proof month_day_check_all as H. apply andb_prop in H as [Hf Ht].
  assert (month_day_check leap r = true) as Hc.
  { destruct leap; [apply (forallb_seqZ _ _ _ Ht); lia|apply (forallb_seqZ _ _ _ Hf); lia]. }
  unfold month_day_check in Hc. destruct (Py.month_day leap r) as [m d].
  repeat (apply andb_prop in Hc; destruct Hc as [Hc ?]). lia.
Qed.

Lemma toordinal_ord2ymd n : 1 <= n -> Py.toordinal (Py.ord2ymd n) = n.
Proof.
  intros Hn. unfold Py.ord2ymd, Py.DI400Y, Py.DI100Y, Py.DI4Y. cbv zeta.
  pose proof (Z.div_mod (n - 1) 146097 ltac:(lia)) as E400.
  pose proof (Z.mod_pos_bound (n - 1) 146097 ltac:(lia)) as B400.
  pose proof (Z.div_pos (n - 1) 146097 ltac:(lia) ltac:(lia)) as P400.
  set (n400 := (n - 1) / 146097) in *. set (r1 := (n - 1) mod 146097) in *.
  pose proof (Z.div_mod r1 36524 ltac:(lia)) as E100.
  pose proof (Z.mod_pos_bound r1 36524 ltac:(lia)) as B100.
  pose proof (Z.div_pos r1 36524 ltac:(lia) ltac:(lia)) as P100.
  set (n100 := r1 / 36524) in *. set (r2 := r1 mod 36524) in *.
  pose proof (Z.div_mod r2 1461 ltac:(lia)) as E4.
  pose proof (Z.mod_pos_bound r2 1461 ltac:(lia)) as B4.
  pose proof (Z.div_pos r2 1461 ltac:(lia) ltac:(lia)) as P4.
  set (n4 := r2 / 1461) in *. set (r3 := r2 mod 1461) in *.
  pose proof (Z.div_mod r3 365 ltac:(lia)) as E1.
  pose proof (Z.mod_pos_bound r3 365 ltac:(lia)) as B1.
  pose proof (Z.div_pos r3 365 ltac:(lia) ltac:(lia)) as P1.
  set (n1 := r3 / 365) in *. set (r4 := r3 mod 365) in *.
  clearbody n400 r1 n100 r2 n4 r3 n1 r4.
  assert (n100 <= 4 /\ n4 <= 24 /\ n1 <= 4) as (L100 & L4 & L1) by lia.
  set (y := n400 * 400 + 1 + n100 * 100 + n4 * 4 + n1).
  destruct ((n1 =? 4) || (n100 =? 4)) eqn:Elast.
  - (* the last day of a leap year *)
    unfold Py.toordinal, Py.ymd2ord, Py.days_before_year, Py.days_before_month, Py.is_leap.
    cbn [Py.year Py.month Py.day Py.DAYS_BEFORE_MONTH]. cbv zeta.
    apply orb_true_iff in Elast.
    assert (exists c, y - 1 = 4 * c /\
              ((n100 = 4 /\ c = 100 * n400 + 100) \/
               (n100 < 4 /\ n1 = 4 /\ n4 <= 23 /\ c = 100 * n400 + 25 * n100 + n4 + 1)))
      as (c & Hy & Hc).
    { destruct (Z.eq_dec n100 4) as [->|Hne].
      - exists (100 * n400 + 100). unfold y. split; [|left; lia]. lia.
      - exists (100 * n400 + 25 * n100 + n4 + 1). unfold y. split; [lia|right; lia]. }
    rewrite Hy.
    replace (4 * c - 1) with (4 * (c - 1) + 3) by lia.
    assert ((4 * c) mod 4 = 0) as -> by (rewrite Z.mul_comm; apply Z_mod_mult).
    assert ((4 * (c - 1) + 3) / 4 = c - 1) as ->
      by (symmetry; apply (Z.div_unique _ 4 (c - 1) 3); lia).
    destruct Hc as [[-> ->]|(H100 & -> & H4 & ->)].
    + replace (4 * (100 * n400 + 100 - 1) + 3) with (400 * n400 + 399) by lia.
      replace (4 * (100 * n400 + 100)) with (400 * (n400 + 1)) by lia.
      assert ((400 * n400 + 399) / 100 = 4 * n400 + 3) as ->
        by (symmetry; apply (Z.div_unique _ 100 _ 99); lia).
      assert ((400 * n400 + 399) / 400 = n400) as ->
        by (symmetry; apply (Z.div_unique _ 400 _ 399); lia).
      assert ((400 * (n400 + 1)) mod 400 = 0) as -> by (rewrite Z.mul_comm; apply Z_mod_mult).
      assert ((400 * (n400 + 1)) mod 100 = 0) as ->
        by (replace (400 * (n400 + 1)) with ((4 * (n400 + 1)) * 100) by lia; apply Z_mod_mult).
      simpl. lia.
    + set (k := 100 * n100 + 4 * n4 + 4).
      assert (0 < k < 400) as Hk by (unfold k; lia).
      replace (4 * (100 * n400 + 25 * n100 + n4 + 1 - 1) + 3) with (400 * n400 + (k - 1)) by (unfold k; lia).
      replace (4 * (100 * n400 + 25 * n100 + n4 + 1)) with (400 * n400 + k) by (unfold k; lia).
      assert ((400 * n400 + (k - 1)) / 400 = n400) as ->
        by (symmetry; apply (Z.div_unique _ 400 _ (k - 1)); lia).
      assert ((400 * n400 + (k - 1)) / 100 = 4 * n400 + n100) as ->
        by (symmetry; apply (Z.div_unique _ 100 _ (4 * n4 + 3)); unfold k; lia).
      assert ((400 * n400 + k) mod 100 = 4 * n4 + 4) as ->
        by (symmetry; apply (Z.mod_unique _ 100 (4 * n400 + n100)); unfold k; lia).
      assert (negb (4 * n4 + 4 =? 0) = true) as -> by (apply negb_true_iff, Z.eqb_neq; lia).
      simpl. lia.
  - apply orb_false_iff in Elast as [N1 N100].
    apply Z.eqb_neq in N1, N100.
    set (leap := (n1 =? 3) && (negb (n4 =? 24) || (n100 =? 3))).
    assert (0 <= r4 < (if leap then 366 else 365)) as Hr4 by (destruct leap; lia).
    pose proof (month_day_ok leap r4 Hr4) as Hmd.
    destruct (Py.month_day leap r4) as [m d]. destruct Hmd as (Hm & Hd & Hsum).
    unfold Py.toordinal, Py.ymd2ord, Py.days_before_year, Py.days_before_month.
    cbn [Py.year Py.month Py.day]. cbv zeta. fold y.
    assert (y - 1 = 400 * n400 + 100 * n100 + 4 * n4 + n1) as Hy by (unfold y; lia).
    assert ((y - 1) / 4 = 100 * n400 + 25 * n100 + n4) as ->
      by (symmetry; apply (Z.div_unique _ 4 _ n1); lia).
    assert ((y - 1) / 100 = 4 * n400 + n100) as ->
      by (symmetry; apply (Z.div_unique _ 100 _ (4 * n4 + n1)); lia).
    assert ((y - 1) / 400 = n400) as ->
      by (symmetry; apply (Z.div_unique _ 400 _ (100 * n100 + 4 * n4 + n1)); lia).
    assert (y mod 4 = 0 <-> n1 = 3) as F4.
    { assert (y mod 4 = (n1 + 1) mod 4) as ->.
      { unfold y. replace (n400 * 400 + 1 + n100 * 100 + n4 * 4 + n1)
          with (n1 + 1 + (100 * n400 + 25 * n100 + n4) * 4) by lia. apply Z_mod_plus_full. }
      destruct (Z.eq_dec n1 3) as [E|E].
      - rewrite E. simpl. tauto.
      - rewrite Z.mod_small by lia. lia. }
    assert (y mod 100 = 0 <-> 4 * n4 + n1 + 1 = 100) as F100.
    { assert (y mod 100 = (4 * n4 + n1 + 1) mod 100) as ->.
      { unfold y. replace (n400 * 400 + 1 + n100 * 100 + n4 * 4 + n1)
          with (4 * n4 + n1 + 1 + (4 * n400 + n100) * 100) by lia. apply Z_mod_plus_full. }
      destruct (Z.eq_dec (4 * n4 + n1 + 1) 100) as [E|E].
      - rewrite E. simpl. tauto.
      - rewrite Z.mod_small by lia. lia. }
    assert (y mod 400 = 0 <-> 100 * n100 + 4 * n4 + n1 + 1 = 400) as F400.
    { assert (y mod 400 = (100 * n100 + 4 * n4 + n1 + 1) mod 400) as ->.
      { unfold y. replace (n400 * 400 + 1 + n100 * 100 + n4 * 4 + n1)
          with (100 * n100 + 4 * n4 + n1 + 1 + n400 * 400) by lia. apply Z_mod_plus_full. }
      destruct (Z.eq_dec (100 * n100 + 4 * n4 + n1 + 1) 400) as [E|E].
      - rewrite E. simpl. tauto.
      - rewrite Z.mod_small by lia. lia. }
    assert (Py.is_leap y = leap) as ->.
    { unfold Py.is_leap, leap. apply eq_true_iff_eq.
      rewrite !andb_true_iff, !orb_true_iff, !negb_true_iff, !Z.eqb_eq, !Z.eqb_neq.
      generalize dependent (y mod 4). generalize dependent (y mod 100).
      generalize dependent (y mod 400). intros. lia. }
    lia.
Qed.

Lemma day_at_ordinal env k :
  clock_okb env = true -> 1 <= k ->
  Py.toordinal (day_at env k) = Py.toordinal (today_naive env) + k.
Proof.
  unfold clock_okb. intros H Hk. apply andb_prop in H as [Hd _].
  apply toordinal_pos in Hd. unfold day_at. apply toordinal_ord2ymd. lia.
Qed.

(** ** [find_next_available_dates] *)

Lemma qualifying_days_cons fuel st env t tp i range :
  qualifying_days fuel st env t tp (i :: range) =
  (check_date ← Py.date_add (today_naive env) i;
   slots ← get_available_slots_only fuel st env (Py.strftime_ymd check_date) t tp;
   rest ← qualifying_days fuel st env t tp range;
   Ret (if bool_decide (slots = []) then rest
        else (Py.strftime_ymd check_date, Py.strftime_A check_date, slots) :: rest)).
Proof. reflexivity. Qed.

Lemma dates_loop_cons fuel st env t max_dates tp today i range acc :
  dates_loop fuel st env t max_dates tp today (i :: range) acc =
  (check_date ← Py.date_add today i;
   result ← check_availability fuel st env (Py.strftime_ymd check_date) t tp;
   if Check.slots_count result >? 0 then
     let acc' := acc ++
       [DateInfo.mk (Py.strftime_ymd check_date) (Py.strftime_A check_date)
          (take 5 (Check.available_slots result)) (Check.slots_count result)] in
     if Z.of_nat (length acc') >=? max_dates then Ret acc'
     else dates_loop fuel st env t max_dates tp today range acc'
   else dates_loop fuel st env t max_dates tp today range acc).
Proof. reflexivity. Qed.

(** The early exit of the scan returns what scanning every day and keeping
    the first [max_dates] qualifying days would. *)
Lemma dates_loop_take fuel st env t max_dates tp range :
  forall acc days,
    qualifying_days fuel st env t tp range = Ret days ->
    (length acc < Z.to_nat max_dates)%nat ->
    dates_loop fuel st env t max_dates tp (today_naive env) range acc
    = Ret (acc ++ take (Z.to_nat max_dates - length acc) (to_info <$> days)).
Proof.
  induction range as [|i range IH]; intros acc days Hq Hlen.
  - inversion Hq. simpl. rewrite take_nil, app_nil_r. reflexivity.
  - rewrite qualifying_days_cons in Hq. bind_inv Hq. bind_inv Hq. bind_inv Hq.
    inversion Hq; subst days. clear Hq.
    rewrite dates_loop_cons, Ha, bind_Ret_l.
    unfold check_availability. rewrite Ha0, !bind_Ret_l. cbn [Check.slots_count Check.available_slots].
    destruct a0 as [|slot slots].
    + rewrite bool_decide_eq_true_2 by reflexivity. simpl length.
      destruct (Z.gtb_spec (Z.of_nat 0) 0); [lia|]. apply IH; assumption.
    + rewrite bool_decide_eq_false_2 by discriminate.
      destruct (Z.gtb_spec (Z.of_nat (length (slot :: slots))) 0); [|simpl in *; lia].
      cbv zeta. rewrite length_app. cbn [length].
      rewrite fmap_cons. cbn [to_info].
      destruct (Z.geb_spec (Z.of_nat (length acc + 1)) max_dates) as [Hge|Hlt].
      * replace (Z.to_nat max_dates - length acc)%nat with 1%nat by lia.
        cbn [take]. rewrite take_0. reflexivity.
      * rewrite (IH _ _ Ha1) by (rewrite length_app; simpl; lia).
        rewrite length_app. cbn [length]. rewrite <- app_assoc. cbn [app].
        replace (Z.to_nat max_dates - length acc)%nat
          with (S (Z.to_nat max_dates - (length acc + 1)))%nat by lia.
        reflexivity.
Qed.

(** Every day in range yields an answer, and the qualifying ones come in
    the order of their offsets. *)
Lemma qualifying_days_shape fuel st env t tp range :
  schedule_okb (schedule_data st) = true -> store_okb st = true ->
  clock_okb env = true -> (day_fuel <= fuel)%nat ->
  Forall (fun k => 1 <= k <= 14) range ->
  exists groups,
    qualifying_days fuel st env t tp range = Ret (group_day env (duration_of t) <$> groups) /\
    groups.*1 `sublist_of` range /\
    Forall (fun g => g.2 <> [] /\ StronglySorted Z.lt g.2 /\
                     Forall (minute_ok (duration_of t)) g.2) groups.
Proof.
  intros Hs Hb Hc Hfuel Hrange. induction Hrange as [|k range Hk _ IH].
  - exists []. repeat split; constructor.
  - destruct IH as (groups & Hq & Hsub & Hg).
    rewrite qualifying_days_cons, (date_add_ok env k Hc Hk), bind_Ret_l.
    destruct (open_slots_shape fuel st env (Py.strftime_ymd (day_at env k)) t tp Hs Hb Hfuel)
      as (ms & Hrun & Hsorted & Hok).
    rewrite Hrun, Hq, !bind_Ret_l.
    destruct ms as [|m ms].
    + rewrite bool_decide_eq_true_2 by reflexivity.
      exists groups. split; [reflexivity|]. split; [apply sublist_cons, Hsub|exact Hg].
    + rewrite bool_decide_eq_false_2 by discriminate.
      exists ((k, m :: ms) :: groups). split; [reflexivity|].
      split; [simpl; apply sublist_skip, Hsub|].
      constructor; [|exact Hg]. simpl. split; [discriminate|]. auto.
Qed.

(** ** [suggest_slots] *)

Lemma day_loop_take n date_info slots :
  forall acc,
    day_loop n date_info slots acc
    = acc ++ take (Z.to_nat n - length acc)
               (day_entries (DateInfo.date date_info) (DateInfo.day_name date_info) slots).
Proof.
  induction slots as [|slot slots IH]; intros acc.
  - simpl. rewrite take_nil, app_nil_r. reflexivity.
  - cbn [day_loop].
    destruct (Z.geb_spec (Z.of_nat (length acc)) n) as [Hge|Hlt].
    + replace (Z.to_nat n - length acc)%nat with 0%nat by lia.
      rewrite take_0, app_nil_r. reflexivity.
    + rewrite IH, length_app. cbn [length]. rewrite <- app_assoc.
      replace (Z.to_nat n - length acc)%nat with (S (Z.to_nat n - (length acc + 1)))%nat by lia.
      reflexivity.
Qed.

Lemma days_loop_take n available_dates :
  forall acc,
    days_loop n available_dates acc
    = acc ++ take (Z.to_nat n - length acc) (available_dates ≫= info_entries).
Proof.
  induction available_dates as [|date_info rest IH]; intros acc.
  - simpl. rewrite take_nil, app_nil_r. reflexivity.
  - cbn [days_loop]. cbv zeta. rewrite day_loop_take.
    fold (info_entries date_info). rewrite bind_cons, take_app.
    set (k := (Z.to_nat n - length acc)%nat).
    set (l1 := info_entries date_info).
    destruct (Z.geb_spec (Z.of_nat (length (acc ++ take k l1))) n) as [Hge|Hlt].
    + rewrite length_app, length_take in Hge.
      replace (k - length l1)%nat with 0%nat by lia.
      rewrite take_0, app_nil_r. reflexivity.
    + rewrite IH. rewrite length_app, length_take in *.
      rewrite <- app_assoc. f_equal. f_equal. f_equal. lia.
Qed.

Lemma suggest_slots_no_date fuel st env preferred_date t tp n :
  truthy preferred_date = false ->
  suggest_slots fuel st env preferred_date t tp n =
  (available_dates ← find_next_available_dates fuel st env t 14 5 tp;
   Ret (day_major n available_dates)).
Proof.
  intros H. unfold suggest_slots. rewrite H.
  destruct (find_next_available_dates _ _ _ _ _ _ _); try reflexivity.
  simpl. rewrite days_loop_take. simpl. rewrite Nat.sub_0_r. reflexivity.
Qed.

Lemma find_next_available_dates_take fuel st env t tp days :
  qualifying_days fuel st env t tp (seqZ 1 14) = Ret days ->
  find_next_available_dates fuel st env t 14 5 tp = Ret (take 5 (to_info <$> days)).
Proof.
  intros H. unfold find_next_available_dates. cbv zeta.
  rewrite (dates_loop_take _ _ _ _ _ _ _ [] days H) by (simpl; lia).
  reflexivity.
Qed.

Lemma seqZ_1_14_range : Forall (fun k => 1 <= k <= 14) (seqZ 1 14).
Proof. apply Forall_seqZ. intros k Hk. lia. Qed.

Lemma seqZ_1_14_sorted : StronglySorted Z.lt (seqZ 1 14).
Proof. vm_compute. repeat (constructor; [|repeat constructor; reflexivity]). constructor. Qed.

(** The entries of a day's [DateInfo] are the first five of the day. *)
Lemma info_entries_group env dur g :
  info_entries (to_info (group_day env dur g)) = entry env dur g.1 <$> take 5 g.2.
Proof.
  destruct g as [k ms]. unfold info_entries, to_info, group_day, day_entries. simpl.
  rewrite <- fmap_take, <- list_fmap_compose. reflexivity.
Qed.

Lemma capped_days env dur groups :
  take 5 (to_info <$> (group_day env dur <$> groups)) ≫= info_entries
  = grouped env dur (cap5 groups).
Proof.
  unfold grouped, cap5. rewrite <- !fmap_take, !list_fmap_bind.
  induction (take 5 groups) as [|g l IH]; [reflexivity|].
  rewrite !bind_cons, IH. f_equal. simpl. apply info_entries_group.
Qed.

Lemma take_grouped env dur n groups :
  take n (grouped env dur groups) = grouped env dur (truncate n groups).
Proof.
  unfold grouped. revert n. induction groups as [|[k ms] rest IH]; intros n.
  - simpl. apply take_nil.
  - cbn [truncate]. rewrite !bind_cons, take_app, IH, length_fmap, fmap_take. reflexivity.
Qed.

Lemma truncate_keys n groups : (truncate n groups).*1 = groups.*1.
Proof.
  revert n. induction groups as [|[k ms] rest IH]; intros n; [reflexivity|].
  simpl. rewrite IH. reflexivity.
Qed.

Lemma truncate_Forall (P : list Z -> Prop) n groups :
  (forall ms j, P ms -> P (take j ms)) ->
  Forall (fun g => P g.2) groups -> Forall (fun g => P g.2) (truncate n groups).
Proof.
  intros HP H. revert n. induction H as [|[k ms] rest Hg _ IH]; intros n; [constructor|].
  simpl. constructor; [apply HP, Hg|apply IH].
Qed.

Lemma cap5_keys groups : (cap5 groups).*1 = take 5 groups.*1.
Proof.
  unfold cap5. rewrite <- list_fmap_compose, fmap_take. reflexivity.
Qed.

Lemma cap5_Forall (P : list Z -> Prop) groups :
  (forall ms j, P ms -> P (take j ms)) ->
  Forall (fun g => P g.2) groups -> Forall (fun g => P g.2) (cap5 groups).
Proof.
  intros HP H. unfold cap5. apply Forall_fmap.
  eapply Forall_impl; [apply Forall_take, H|]. intros g Hg. simpl. apply HP, Hg.
Qed.

Lemma capped_entries (days : list (string * string * list Slot.t)) :
  take 5 (to_info <$> days) ≫= info_entries
  = take 5 days ≫= fun '(date_str, day_name, slots) =>
      day_entries date_str day_name (take 5 slots).
Proof.
  rewrite <- fmap_take, list_fmap_bind.
  induction (take 5 days) as [|[[d nm] slots] l IH]; [reflexivity|].
  rewrite !bind_cons, IH. reflexivity.
Qed.

(** C6, as amended.  Without a preferred date [suggest_slots] flattens day
    by day: from each of the first five qualifying days among the offsets
    +1..+14 it takes that day's first five matching available slots, all of
    them before any slot of a later day, and keeps the first
    [num_suggestions] entries of that sequence.  On a well-formed schedule,
    store and clock the scan of the fourteen days returns. *)
Theorem suggestions_day_major_first_five fuel st env preferred_date t tp n :
  truthy preferred_date = false ->
  (forall days,
     qualifying_days fuel st env t tp (seqZ 1 14) = Ret days ->
     suggest_slots fuel st env preferred_date t tp n
     = Ret (take (Z.to_nat n)
              (take 5 days ≫= fun '(date_str, day_name, slots) =>
                 day_entries date_str day_name (take 5 slots)))) /\
  (schedule_okb (schedule_data st) = true -> store_okb st = true ->
   clock_okb env = true -> (day_fuel <= fuel)%nat ->
   exists days, qualifying_days fuel st env t tp (seqZ 1 14) = Ret days).
Proof.
  intros Hpd. split.
  - intros days Hq. rewrite (suggest_slots_no_date _ _ _ _ _ _ _ Hpd).
    rewrite (find_next_available_dates_take _ _ _ _ _ _ Hq), bind_Ret_l.
    unfold day_major. fold info_entries.
    change (take 5 (to_info <$> days) ≫= _) with (take 5 (to_info <$> days) ≫= info_entries).
    rewrite capped_entries. reflexivity.
  - intros Hs Hb Hc Hfuel.
    destruct (qualifying_days_shape fuel st env t tp (seqZ 1 14) Hs Hb Hc Hfuel seqZ_1_14_range)
      as (groups & Hq & _). eauto.
Qed.

Lemma suggestions_day_major_first_five_witness :
  exists days,
    qualifying_days day_fuel clinic clinic_env "consultation" None (seqZ 1 14) = Ret days /\
    suggest_slots day_fuel clinic clinic_env None "consultation" None 7
    = Ret (take (Z.to_nat 7)
             (take 5 days ≫= fun '(date_str, day_name, slots) =>
                day_entries date_str day_name (take 5 slots))).
Proof.
  destruct (suggestions_day_major_first_five day_fuel clinic clinic_env None "consultation"
              None 7 eq_refl) as [H1 H2].
  destruct H2 as [days Hdays].
  - vm_compute. reflexivity.
  - reflexivity.
  - vm_compute. reflexivity.
  - unfold day_fuel. lia.
  - exists days. split; [exact Hdays|]. apply H1, Hdays.
Defined.

Ltac decide_by_computing :=
  match goal with
  | |- ?P => apply (bool_decide_eq_true_1 P); vm_compute; reflexivity
  end.

(** The claim as worded fails: with room for 100 suggestions the result
    moves on to Thursday although Wednesday's open 10:15 slot was never
    taken. *)
Lemma suggestions_skip_open_slots_of_first_day :
  exists code wednesday,
    suggest_slots day_fuel clinic clinic_env None "consultation" None 100 = Ret code /\
    (length code < 100)%nat /\
    (Suggestion.mk "2026-11-05" "09:00" "09:30" "Thursday") ∈ code /\
    get_available_slots_only day_fuel clinic clinic_env "2026-11-04" "consultation" None
    = Ret wednesday /\
    (Slot.mk "10:15" "10:45" true) ∈ wednesday /\
    (Suggestion.mk "2026-11-04" "10:15" "10:45" "Wednesday" ∉ code) /\
    (Ret code <> spec_day_major day_fuel clinic clinic_env "consultation" None 100).
Proof.
  eexists. eexists.
  split; [vm_compute; reflexivity|].
  split; [vm_compute; lia|].
  split; [decide_by_computing|].
  split; [vm_compute; reflexivity|].
  split; [decide_by_computing|].
  split; [decide_by_computing|].
  decide_by_computing.
Qed.

(** Ordering and cap of the suggestions, by the clock of the process.
    Without a preferred date, on a well-formed schedule, store and clock,
    [suggest_slots] returns a list of at most [num_suggestions] entries
    (none for a negative count), grouped by day: the groups are at strictly
    increasing day offsets between +1 and +14 from [today_naive], the date
    of a group is [today_naive] plus its offset (with strictly increasing
    ordinals), and within a group the start minutes are strictly
    increasing. *)
Theorem suggestions_ordered_and_capped fuel st env preferred_date t tp n :
  truthy preferred_date = false ->
  schedule_okb (schedule_data st) = true -> store_okb st = true ->
  clock_okb env = true -> (day_fuel <= fuel)%nat ->
  exists groups,
    suggest_slots fuel st env preferred_date t tp n
    = Ret (grouped env (duration_of t) groups) /\
    Z.of_nat (length (grouped env (duration_of t) groups)) <= Z.max 0 n /\
    StronglySorted Z.lt groups.*1 /\
    Forall (fun g =>
              1 <= g.1 <= 14 /\
              Py.date_add (today_naive env) g.1 = Ret (day_at env g.1) /\
              Py.toordinal (day_at env g.1) = Py.toordinal (today_naive env) + g.1 /\
              StronglySorted Z.lt g.2 /\
              Forall (minute_ok (duration_of t)) g.2) groups.
Proof.
  intros Hpd Hs Hb Hc Hfuel.
  destruct (qualifying_days_shape fuel st env t tp (seqZ 1 14) Hs Hb Hc Hfuel seqZ_1_14_range)
    as (groups & Hq & Hsub & Hg).
  exists (truncate (Z.to_nat n) (cap5 groups)).
  assert (suggest_slots fuel st env preferred_date t tp n
          = Ret (grouped env (duration_of t) (truncate (Z.to_nat n) (cap5 groups)))) as Hrun.
  { rewrite (suggest_slots_no_date _ _ _ _ _ _ _ Hpd).
    rewrite (find_next_available_dates_take _ _ _ _ _ _ Hq), bind_Ret_l.
    unfold day_major. fold info_entries.
    change (take 5 (to_info <$> (group_day env (duration_of t) <$> groups)) ≫= _)
      with (take 5 (to_info <$> (group_day env (duration_of t) <$> groups)) ≫= info_entries).
    rewrite capped_days, take_grouped. reflexivity. }
  split; [exact Hrun|].
  assert ((truncate (Z.to_nat n) (cap5 groups)).*1 `sublist_of` seqZ 1 14) as Hkeys.
  { rewrite truncate_keys, cap5_keys. etransitivity; [apply sublist_take|exact Hsub]. }
  split; [|split].
  - rewrite <- take_grouped, length_take. lia.
  - eapply StronglySorted_sublist; [exact Hkeys|apply seqZ_1_14_sorted].
  - assert (Forall (fun g => 1 <= g.1 <= 14) (truncate (Z.to_nat n) (cap5 groups))) as Hk.
    { apply Forall_fmap with (f := fst) (P := fun k => 1 <= k <= 14).
      eapply Forall_sublist_of; [exact Hkeys|apply seqZ_1_14_range]. }
    assert (Forall (fun g => StronglySorted Z.lt g.2 /\ Forall (minute_ok (duration_of t)) g.2)
              (truncate (Z.to_nat n) (cap5 groups))) as Hm.
    { apply (truncate_Forall (fun ms => StronglySorted Z.lt ms /\ Forall (minute_ok (duration_of t)) ms)).
      { intros ms j [H1 H2]. split.
        - eapply StronglySorted_sublist; [apply sublist_take|exact H1].
        - apply Forall_take, H2. }
      apply (cap5_Forall (fun ms => StronglySorted Z.lt ms /\ Forall (minute_ok (duration_of t)) ms)).
      { intros ms j [H1 H2]. split.
        - eapply StronglySorted_sublist; [apply sublist_take|exact H1].
        - apply Forall_take, H2. }
      eapply Forall_impl; [exact Hg|]. intros g (_ & H1 & H2). auto. }
    rewrite Forall_forall in *. intros g Hin.
    specialize (Hk g Hin). specialize (Hm g Hin). destruct Hm as [H1 H2].
    repeat split; try assumption; try lia.
    + apply date_add_ok; assumption.
    + apply day_at_ordinal; [assumption|lia].
Qed.

Lemma suggestions_ordered_and_capped_witness :
  exists groups,
    suggest_slots day_fuel clinic clinic_env None "consultation" (Some "afternoon") 7
    = Ret (grouped clinic_env (duration_of "consultation") groups) /\
    Z.of_nat (length (grouped clinic_env (duration_of "consultation") groups)) <= Z.max 0 7 /\
    StronglySorted Z.lt groups.*1 /\
    Forall (fun g =>
              1 <= g.1 <= 14 /\
              Py.date_add (today_naive clinic_env) g.1 = Ret (day_at clinic_env g.1) /\
              Py.toordinal (day_at clinic_env g.1) = Py.toordinal (today_naive clinic_env) + g.1 /\
              StronglySorted Z.lt g.2 /\
              Forall (minute_ok (duration_of "consultation")) g.2) groups.
Proof.
  apply (suggestions_ordered_and_capped day_fuel clinic clinic_env None "consultation"
           (Some "afternoon") 7).
  - reflexivity.
  - vm_compute. reflexivity.
  - reflexivity.
  - vm_compute. reflexivity.
  - unfold day_fuel. lia.
Defined.

(** C7 (the code departs from the claim).  The scan of
    [find_next_available_dates] counts its offsets from
    [datetime.now().date()], the date of the process, while "today" for the
    engine is the date in the schedule's timezone, which [get_availability]
    reads.  When the two clocks show different days the suggestions are
    not the days strictly after today from offset +1 on.  With the process
    a day behind the clinic, all three suggestions fall on 2026-11-04,
    which is the clinic's today.  With the process a day ahead, the
    suggestions start on 2026-11-05 although 2026-11-04, the day after the
    clinic's today, has 26 open slots. *)
Theorem suggestions_follow_the_process_clock :
  (suggest_slots day_fuel clinic clinic_env_behind None "consultation" None 3
   = Ret [Suggestion.mk "2026-11-04" "09:00" "09:30" "Wednesday";
          Suggestion.mk "2026-11-04" "09:15" "09:45" "Wednesday";
          Suggestion.mk "2026-11-04" "09:30" "10:00" "Wednesday"] /\
   Py.strftime_ymd (today_tz clinic_env_behind) = "2026-11-04") /\
  (suggest_slots day_fuel clinic clinic_env_ahead None "consultation" None 3
   = Ret [Suggestion.mk "2026-11-05" "09:00" "09:30" "Thursday";
          Suggestion.mk "2026-11-05" "09:15" "09:45" "Thursday";
          Suggestion.mk "2026-11-05" "09:30" "10:00" "Thursday"] /\
   Py.date_add (today_tz clinic_env_ahead) 1 = Ret (Py.mk_date 2026 11 4) /\
   (slots ← get_available_slots_only day_fuel clinic clinic_env_ahead "2026-11-04"
              "consultation" None;
    Ret (length slots))
   = Ret 26%nat).
Proof. repeat split; vm_compute; reflexivity. Qed.

(** ** Where the no-double-booking invariant does hold

    A double booking needs a date text that parses but is not what
    [%Y-%m-%d] prints.  For date texts in that canonical form the
    re-validation of [book_appointment] does its job; the lemmas of this
    section make that precise. *)

Lemma overlaps_sym a0 a1 b0 b1 : overlaps a0 a1 b0 b1 -> overlaps b0 b1 a0 a1.
Proof. unfold overlaps. lia. Qed.

Lemma heap_closed_deref st (b : booking) r :
  heap_closedb st = true -> r ∈ bookings st ->
  deref (heap st ++ [b]) r = deref (heap st) r.
Proof.
  unfold heap_closedb. intros H Hr. rewrite forallb_forall in H.
  apply deref_app_old. apply list_elem_of_In in Hr. apply H in Hr.
  apply bool_decide_eq_true in Hr. exact Hr.
Qed.

Lemma check_bookings_grow h (b : booking) date_str s e bs :
  forallb (fun r => bool_decide (r < length h)%nat) bs = true ->
  check_bookings (h ++ [b]) date_str s e bs = check_bookings h date_str s e bs.
Proof.
  induction bs as [|r bs IH]; [reflexivity|]. intros H. simpl in H.
  apply andb_prop in H as [Hr H]. apply bool_decide_eq_true in Hr.
  rewrite !check_bookings_cons, deref_app_old by exact Hr. rewrite IH by exact H. reflexivity.
Qed.

Lemma check_bookings_app h date_str s e bs1 bs2 :
  check_bookings h date_str s e bs1 = Ret true ->
  check_bookings h date_str s e (bs1 ++ bs2) = check_bookings h date_str s e bs2.
Proof.
  induction bs1 as [|r bs1 IH]; [reflexivity|]. intros H.
  rewrite <- app_comm_cons, check_bookings_cons. rewrite check_bookings_cons in H.
  destruct (getitem (deref h r) "date") as [d| |]; try discriminate.
  rewrite bind_Ret_l in *.
  destruct (String.eqb d date_str && _).
  - destruct (getitem (deref h r) "start_time" ≫= _parse_time) as [t1| |]; try discriminate.
    destruct (getitem (deref h r) "end_time" ≫= _parse_time) as [t2| |]; try discriminate.
    rewrite !bind_Ret_l in *. destruct (negb _); [discriminate|]. apply IH, H.
  - apply IH, H.
Qed.

Lemma new_booking_fields id d s e t n em ph re c cr :
  let b := new_booking id d s e t n em ph re c cr in
  b !! "date" = Some d /\ b !! "start_time" = Some s /\ b !! "end_time" = Some e /\
  b !! "status" = Some "confirmed".
Proof. repeat split; vm_compute; reflexivity. Qed.

Lemma new_booking_date id d s e t n em ph re c cr :
  new_booking id d s e t n em ph re c cr !! "date" = Some d.
Proof. apply new_booking_fields. Qed.

Lemma new_booking_status id d s e t n em ph re c cr :
  confirmed (new_booking id d s e t n em ph re c cr).
Proof. apply new_booking_fields. Qed.

Lemma new_booking_interval id d s e t n em ph re c cr ts te :
  Py.strptime_time s = Some ts -> Py.strptime_time e = Some te ->
  booking_interval (new_booking id d s e t n em ph re c cr)
  = Some (_time_to_minutes ts, _time_to_minutes te).
Proof.
  intros Hs He. unfold booking_interval.
  destruct (new_booking_fields id d s e t n em ph re c cr) as (_ & -> & -> & _).
  simpl. rewrite Hs. simpl. rewrite He. reflexivity.
Qed.

(** Booking under a canonical date text keeps the invariant. *)
Lemma book_appointment_keeps_invariant env t d s (p : patient_info) reason st res st' :
  canonical d -> heap_closedb st = true -> no_double_booking st ->
  book_appointment env t d s p reason st = (Ret res, st') ->
  no_double_booking st' /\ heap_closedb st' = true.
Proof.
  intros Hcan Hclosed Hinv Hrun. apply book_appointment_inv in Hrun.
  destruct Hrun as [ | |cd ss se name email phone Hd Hs Ha He Hn Hem Hph bid code]; auto.
  apply minutes_to_time_Ret in He as [Hc ->].
  destruct (minute_facts _ Hc) as (Hpe & _ & _ & Hme).
  set (b := new_booking _ _ _ _ _ _ _ _ _ _ _).
  assert (booking_interval b
          = Some (_time_to_minutes ss, _time_to_minutes ss + duration_of t)) as Hint.
  { unfold b. erewrite new_booking_interval; [|exact Hs|exact Hpe]. rewrite Hme. reflexivity. }
  apply is_slot_available_true in Ha as (_ & _ & _ & _ & _ & _ & _ & _ & Hcheck).
  rewrite (Hcan cd Hd) in Hcheck.
  (* an old record against the new one *)
  assert (forall r, r ∈ bookings st -> confirmed (deref (heap st) r) ->
            deref (heap st) r !! "date" = Some d ->
            exists b0 b1, booking_interval (deref (heap st) r) = Some (b0, b1) /\
              ~ overlaps (_time_to_minutes ss) (_time_to_minutes ss + duration_of t) b0 b1)
    as Hold.
  { intros r Hr Hconf Hdate. eapply check_bookings_true; eauto. split; assumption. }
  split.
  - intros i j r1 r2 Hij H1 H2 C1 C2 Hsame. unfold stored in *. cbn [heap bookings] in *.
    apply lookup_app_Some in H1, H2.
    destruct H1 as [H1|[Hi H1]], H2 as [H2|[Hj H2]].
    + assert (r1 ∈ bookings st) as I1 by (eapply list_elem_of_lookup_2; eauto).
      assert (r2 ∈ bookings st) as I2 by (eapply list_elem_of_lookup_2; eauto).
      rewrite !(heap_closed_deref st b) in * by assumption.
      eapply Hinv; eauto.
    + assert (r1 ∈ bookings st) as I1 by (eapply list_elem_of_lookup_2; eauto).
      apply list_lookup_singleton_Some in H2 as [_ <-].
      rewrite deref_app_new in *. rewrite (heap_closed_deref st b) in * by assumption.
      unfold b in Hsame at 1. rewrite new_booking_date in Hsame.
      destruct (Hold r1 I1 C1 Hsame) as (b0 & b1 & Hb & Hno).
      exists b0, b1, (_time_to_minutes ss), (_time_to_minutes ss + duration_of t).
      split; [exact Hb|]. split; [exact Hint|]. intros Ho. apply Hno, overlaps_sym, Ho.
    + assert (r2 ∈ bookings st) as I2 by (eapply list_elem_of_lookup_2; eauto).
      apply list_lookup_singleton_Some in H1 as [_ <-].
      rewrite deref_app_new in *. rewrite (heap_closed_deref st b) in * by assumption.
      unfold b in Hsame at 1. rewrite new_booking_date in Hsame. symmetry in Hsame.
      destruct (Hold r2 I2 C2 Hsame) as (b0 & b1 & Hb & Hno).
      exists (_time_to_minutes ss), (_time_to_minutes ss + duration_of t), b0, b1.
      split; [exact Hint|]. split; [exact Hb|]. exact Hno.
    + apply list_lookup_singleton_Some in H1 as [H1 _], H2 as [H2 _]. lia.
  - unfold heap_closedb, stored in *. cbn [heap bookings].
    rewrite forallb_app. apply andb_true_intro. split.
    + rewrite forallb_forall in *. intros r Hr. apply Hclosed in Hr.
      apply bool_decide_eq_true in Hr. apply bool_decide_eq_true. rewrite length_app. simpl. lia.
    + simpl. rewrite andb_true_r. apply bool_decide_eq_true. rewrite length_app. simpl. lia.
Qed.

(** After a confirmed booking under a canonical date text, the identical
    request is refused. *)
Lemma second_identical_booking_fails env env' t d s (p : patient_info) reason st res st' :
  canonical d -> heap_closedb st = true ->
  book_appointment env t d s p reason st = (Ret res, st') ->
  Result.status res = "confirmed" ->
  book_appointment env' t d s p reason st'
  = (Ret (failed "Time slot is not available"), st').
Proof.
  intros Hcan Hclosed Hrun Hst. apply book_appointment_inv in Hrun.
  destruct Hrun as [ | |cd ss se name email phone Hd Hs Ha He Hn Hem Hph bid code];
    simpl in Hst; try discriminate.
  apply (book_appointment_unavailable _ _ _ _ _ _ _ cd ss); eauto.
  apply minutes_to_time_Ret in He as [Hc ->].
  destruct (minute_facts _ Hc) as (Hpe & _ & _ & Hme).
  set (b := new_booking _ _ _ _ _ _ _ _ _ _ _).
  pose proof (duration_of_bounds t) as Hdur.
  revert Ha. unfold _is_slot_available, stored. cbn [schedule_data heap bookings].
  destruct (negb _); [discriminate|].
  destruct (_get_working_hours _ _); [|discriminate].
  destruct (_parse_time (h_start h)); try discriminate.
  destruct (_parse_time (h_end h)); try discriminate. rewrite !bind_Ret_l.
  destruct (_ || _); [discriminate|].
  destruct (_parse_time (h_start _)); try discriminate.
  destruct (_parse_time (h_end _)); try discriminate. rewrite !bind_Ret_l.
  destruct (negb _); [discriminate|].
  intros Hcheck. cbn [heap bookings].
  rewrite check_bookings_app by (rewrite check_bookings_grow by exact Hclosed; exact Hcheck).
  rewrite check_bookings_cons, deref_app_new.
  assert (getitem b "date" = Ret d) as -> by (apply getitem_Ret, new_booking_date).
  rewrite bind_Ret_l, (Hcan cd Hd), String.eqb_refl.
  rewrite bool_decide_eq_true_2 by apply new_booking_status. cbn [andb].
  assert (getitem b "start_time" ≫= _parse_time = Ret ss) as ->.
  { unfold b, getitem.
    destruct (new_booking_fields bid d s
                (Py.strftime_hm (Py.mk_time ((_time_to_minutes ss + duration_of t) / 60)
                                   ((_time_to_minutes ss + duration_of t) mod 60)))
                t name email phone reason code (now_iso env)) as (_ & -> & _).
    simpl. apply parse_time_Ret, Hs. }
  assert (getitem b "end_time" ≫= _parse_time
          = Ret (Py.mk_time ((_time_to_minutes ss + duration_of t) / 60)
                   ((_time_to_minutes ss + duration_of t) mod 60))) as ->.
  { unfold b, getitem.
    destruct (new_booking_fields bid d s
                (Py.strftime_hm (Py.mk_time ((_time_to_minutes ss + duration_of t) / 60)
                                   ((_time_to_minutes ss + duration_of t) mod 60)))
                t name email phone reason code (now_iso env)) as (_ & _ & -> & _).
    simpl. apply parse_time_Ret, Hpe. }
  rewrite !bind_Ret_l, Hme.
  replace (negb _) with true; [reflexivity|].
  symmetry. apply overlaps_test. unfold overlaps. lia.
Qed.

(** Cancelling keeps the invariant. *)
Lemma cancel_booking_keeps_invariant id st o st' :
  no_double_booking st -> cancel_booking id st = (o, st') -> no_double_booking st'.
Proof.
  intros Hinv. unfold cancel_booking. rewrite cancel_loop_spec.
  destruct (find_booking _ _ _) as [r|] eqn:Ef; intros H; inversion H; subst o st'; clear H.
  2: exact Hinv.
  destruct (find_booking_Some _ _ _ _ Ef) as (Hin & b & Hb & Hid).
  assert (r < length (heap st))%nat as Hr by (eapply lookup_lt_Some; eauto).
  assert (forall r', confirmed (deref (heap (cancelled st r)) r') ->
            r' <> r /\ deref (heap (cancelled st r)) r' = deref (heap st) r') as Hkeep.
  { intros r' Hc. unfold cancelled in *. cbn [heap] in *.
    destruct (decide (r' = r)) as [->|Hne].
    - rewrite deref_insert_eq in Hc by exact Hr. unfold confirmed in Hc.
      rewrite lookup_insert_eq in Hc. discriminate.
    - split; [exact Hne|]. unfold deref. rewrite list_lookup_insert_ne by congruence. reflexivity. }
  intros i j r1 r2 Hij H1 H2 C1 C2 Hsame.
  destruct (Hkeep r1 C1) as [N1 E1]. destruct (Hkeep r2 C2) as [N2 E2].
  rewrite E1, E2 in *. unfold cancelled in H1, H2. cbn [bookings] in H1, H2.
  apply lookup_app_Some in H1, H2.
  destruct H1 as [H1|[_ H1]]; [|apply list_lookup_singleton_Some in H1 as [_ H1]; congruence].
  destruct H2 as [H2|[_ H2]]; [|apply list_lookup_singleton_Some in H2 as [_ H2]; congruence].
  exact (Hinv i j r1 r2 Hij H1 H2 C1 C2 Hsame).
Qed.

Example canonical_padded : canonical "2026-11-09".
Proof. intros d H. vm_compute in H. inversion H. reflexivity. Qed.

Example not_canonical_unpadded : ~ canonical "2026-11-9".
Proof. intros H. specialize (H (Py.mk_date 2026 11 9) eq_refl). discriminate H. Qed.

(** With the booking stored under the canonical date text, the slots that
    overlap 10:00-10:30 are closed and the two that only touch it stay open. *)
Example touching_slots_stay_available :
  exists av,
    get_availability day_fuel clinic_after_padded clinic_env "2026-11-09" "consultation"
    = Ret av /\
    take 7 (drop 2 (Availability.available_slots av))
    = [Slot.mk "09:30" "10:00" true; Slot.mk "09:45" "10:15" false;
       Slot.mk "10:00" "10:30" false; Slot.mk "10:15" "10:45" false;
       Slot.mk "10:30" "11:00" true; Slot.mk "10:45" "11:15" true;
       Slot.mk "11:00" "11:30" true] /\
    Availability.available_slots av !! 11%nat = Some (Slot.mk "11:45" "12:15" false) /\
    Availability.available_slots av !! 16%nat = Some (Slot.mk "13:00" "13:30" true).
Proof. eexists. split; [vm_compute; reflexivity|]. repeat split; vm_compute; reflexivity. Qed.

(** * Further properties of the code *)

(** ** The availability check, exactly *)

Lemma check_bookings_free st date_str s e :
  store_okb st = true ->
  (check_bookings (heap st) date_str s e (bookings st) = Ret true
   <-> free_of_bookings st date_str s e).
Proof.
  intros Hok. split.
  - intros H r Hr Hc b0 b1 Hb.
    destruct (check_bookings_true _ _ _ _ _ H r Hr Hc) as (c0 & c1 & Hb' & Hno).
    rewrite Hb in Hb'. inversion Hb'; subst. exact Hno.
  - intros Hfree. destruct (check_bookings_returns (heap st) date_str s e (bookings st) Hok)
      as [[|] Hv]; [exact Hv|].
    exfalso. apply check_bookings_false in Hv as (r & b0 & b1 & Hr & Hc & Hb & Ho).
    exact (Hfree r Hr Hc b0 b1 Hb Ho).
Qed.

Lemma is_slot_available_eval st check_date start_time duration w0 w1 l0 l1 :
  work_interval (schedule_data st) check_date = Some (w0, w1) ->
  lunch_interval (schedule_data st) = Some (l0, l1) ->
  _is_slot_available st check_date start_time duration =
  let s := _time_to_minutes start_time in
  if (s <? w0) || (s + duration >? w1) then Ret false
  else if negb ((s + duration <=? l0) || (s >=? l1)) then Ret false
  else check_bookings (heap st) (Py.strftime_ymd check_date) s (s + duration) (bookings st).
Proof.
  intros Hw Hl. apply work_interval_inv in Hw as (wh & ws & we & Hwh & Hws & Hwe & -> & ->).
  unfold lunch_interval in Hl.
  destruct (Py.strptime_time (h_start (_get_lunch_break (schedule_data st)))) as [ls|] eqn:Els;
    [|discriminate].
  destruct (Py.strptime_time (h_end (_get_lunch_break _))) as [le|] eqn:Ele; [|discriminate].
  simpl in Hl. inversion Hl; subst l0 l1. clear Hl.
  unfold _is_slot_available, _is_working_day, _get_working_hours. rewrite Hwh.
  rewrite bool_decide_eq_true_2 by eauto. cbn [negb].
  apply parse_time_Ret in Hws, Hwe, Els, Ele.
  rewrite Hws, Hwe, !bind_Ret_l. cbv zeta.
  destruct (_ || _); [reflexivity|].
  rewrite Els, Ele, !bind_Ret_l. reflexivity.
Qed.

Lemma is_slot_available_bookable st check_date start_time duration :
  store_okb st = true ->
  (_is_slot_available st check_date start_time duration = Ret true
   <-> bookable st check_date (_time_to_minutes start_time) duration).
Proof.
  intros Hb. split.
  - intros H. apply is_slot_available_true in H as (w0 & w1 & l0 & l1 & Hw & Hl & Hin & Hlu & Hc).
    exists w0, w1, l0, l1. repeat split; try assumption; try lia.
    apply check_bookings_free; assumption.
  - intros (w0 & w1 & l0 & l1 & Hw & Hl & Hin & Hlu & Hfree).
    rewrite (is_slot_available_eval _ _ _ _ _ _ _ _ Hw Hl). cbv zeta.
    destruct (Z.ltb_spec (_time_to_minutes start_time) w0); [lia|].
    destruct (Z.gtb_spec (_time_to_minutes start_time + duration) w1); [lia|]. cbn [orb].
    apply overlaps_test_false in Hlu. rewrite Hlu.
    apply check_bookings_free; assumption.
Qed.

(** What a confirmed run looks like, from its premises. *)
Lemma book_appointment_confirms env t d s (p : patient_info) reason st cd ss name email phone :
  p !! "name" = Some name -> p !! "email" = Some email -> p !! "phone" = Some phone ->
  Py.strptime_date d = Some cd -> Py.strptime_time s = Some ss ->
  _is_slot_available st cd ss (duration_of t) = Ret true ->
  let e := _time_to_minutes ss + duration_of t in
  let slot_end := Py.strftime_hm (Py.mk_time (e / 60) (e mod 60)) in
  let booking_id := "APPT-" +:+ Py.strftime_compact (today_naive env) +:+ "-" +:+
                    Py.upper (Py.str_take 6 (uuid_first env)) in
  let code := Py.upper (Py.str_take 8 (uuid_second env)) in
  (0 <= e < 1440) /\
  (book_appointment env t d s p reason st
   = (Ret (Result.mk (Some booking_id) "confirmed" (Some code)
             (DetailsBooked d s slot_end t (duration_of t) p reason)),
      stored st (new_booking booking_id d s slot_end t name email phone reason code
                   (now_iso env)))).
Proof.
  intros Hn Hem Hph Hd Hs Ha e slot_end booking_id code.
  assert (0 <= e < 1440) as He.
  { pose proof Ha as Ho. apply is_slot_available_true in Ho
      as (w0 & w1 & _ & _ & Hw & _ & Hin & _).
    apply work_interval_inv in Hw as (wh & ws & we & _ & _ & Hwe & _ & ->).
    apply parsed_minutes_bounds in Hwe, Hs. pose proof (duration_of_bounds t). unfold e. lia. }
  split; [exact He|].
  destruct (minute_facts e He) as (_ & _ & Hm & _).
  apply getitem_Ret in Hn, Hem, Hph.
  unfold book_appointment. rewrite M_bind_unfold; unfold read at 1; cbv beta.
  rewrite Hn, Hd, Hs.
  rewrite M_bind_unfold; unfold read at 1; cbv beta. rewrite Ha. cbn [negb].
  rewrite M_bind_unfold; unfold read at 1; cbv beta. fold e. rewrite Hm.
  rewrite M_bind_unfold; unfold read at 1; cbv beta. rewrite ?Hn.
  rewrite M_bind_unfold; unfold read at 1; cbv beta. rewrite ?Hem.
  rewrite M_bind_unfold; unfold read at 1; cbv beta. rewrite ?Hph.
  rewrite M_bind_unfold; unfold alloc at 1; cbv beta.
  rewrite M_bind_unfold; unfold _save_booking at 1; cbv beta; cbn [heap bookings schedule_data].
  rewrite deref_app_new, (proj2 (getitem_Ret _ _ _) (new_booking_id _ _ _ _ _ _ _ _ _ _ _)).
  rewrite bind_Ret_l. reflexivity.
Qed.

Lemma get_booking_stored st id d s e t n em ph re c cr :
  get_booking (stored st (new_booking id d s e t n em ph re c cr)) id <> None.
Proof.
  unfold get_booking, stored. cbn [heap bookings]. rewrite find_booking_app.
  destruct (find_booking _ id (bookings st)); [discriminate|].
  simpl. rewrite deref_app_new, new_booking_id.
  rewrite bool_decide_eq_true_2 by reflexivity. discriminate.
Qed.

(** X1. The availability check, exactly.  On a well-formed schedule and
    store [_is_slot_available] never raises, and it answers [True] exactly
    when the day has working hours, the slot [[s, s + duration)] lies within
    them, misses the lunch break, and overlaps no record of [bookings] that
    is confirmed and whose [date] field is the checked day as [%Y-%m-%d]
    prints it. *)
Theorem slot_available_iff_bookable st check_date start_time duration :
  schedule_okb (schedule_data st) = true -> store_okb st = true ->
  (exists v, _is_slot_available st check_date start_time duration = Ret v) /\
  (_is_slot_available st check_date start_time duration = Ret true
   <-> bookable st check_date (_time_to_minutes start_time) duration).
Proof.
  intros Hs Hb. split; [apply is_slot_available_returns; assumption|].
  apply is_slot_available_bookable, Hb.
Qed.

Lemma slot_available_iff_bookable_witness :
  (exists v, _is_slot_available clinic_after_padded (Py.mk_date 2026 11 9)
               (Py.mk_time 10 30) 30 = Ret v) /\
  (_is_slot_available clinic_after_padded (Py.mk_date 2026 11 9) (Py.mk_time 10 30) 30
   = Ret true
   <-> bookable clinic_after_padded (Py.mk_date 2026 11 9)
         (_time_to_minutes (Py.mk_time 10 30)) 30).
Proof.
  apply (slot_available_iff_bookable clinic_after_padded (Py.mk_date 2026 11 9)
           (Py.mk_time 10 30) 30).
  - vm_compute. reflexivity.
  - vm_compute. reflexivity.
Defined.

(** X2. Listing and booking agree.  For every slot [get_availability]
    lists, [book_appointment] called on the same object with the same date
    text and type, the slot's start time and a patient dict that holds name,
    email and phone returns: when the slot is flagged available, status
    "confirmed", details that carry the slot's start and end time, and an id
    under which [get_booking] finds a record; when the slot is flagged
    unavailable, the failure "Time slot is not available", with the object
    unchanged. *)
Theorem listed_slot_books_as_listed fuel st env env' date_str t av slot
    (p : patient_info) reason :
  is_Some (p !! "name") -> is_Some (p !! "email") -> is_Some (p !! "phone") ->
  get_availability fuel st env date_str t = Ret av ->
  slot ∈ Availability.available_slots av ->
  exists res st',
    book_appointment env' t date_str (Slot.start_time slot) p reason st = (Ret res, st') /\
    if Slot.available slot
    then Result.status res = "confirmed" /\
         Result.details res
         = DetailsBooked date_str (Slot.start_time slot) (Slot.end_time slot) t
             (duration_of t) p reason /\
         exists id, Result.booking_id res = Some id /\ get_booking st' id <> None
    else res = failed "Time slot is not available" /\ st' = st.
Proof.
  intros [name Hn] [email Hem] [phone Hph] Hrun Hin.
  destruct (get_availability_emitted _ _ _ _ _ _ _ Hrun Hin) as (d & w0 & w1 & Hd & _ & Hw & He).
  destruct He as (c & Hc & Hc' & _ & Hst & Hen & Ha).
  destruct (minute_facts c Hc) as (Hp & _ & _ & Hm).
  rewrite <- Hst in Hp.
  destruct (Slot.available slot).
  - destruct (book_appointment_confirms env' t date_str (Slot.start_time slot) p reason st d _
                name email phone Hn Hem Hph Hd Hp Ha) as [_ Hbook].
    cbv zeta in Hbook. rewrite Hm in Hbook. rewrite <- Hen in Hbook.
    eexists _, _. split; [exact Hbook|]. cbn [Result.status Result.details Result.booking_id].
    split; [reflexivity|]. split; [reflexivity|].
    eexists. split; [reflexivity|]. apply get_booking_stored.
  - eexists _, _. split; [|split; reflexivity].
    eapply book_appointment_unavailable; eauto.
Qed.

Lemma listed_slot_books_as_listed_witness :
  exists res st',
    book_appointment clinic_env_later "consultation" "2026-11-09"
      (Slot.start_time (Slot.mk "10:00" "10:30" true)) ann "checkup" clinic
    = (Ret res, st') /\
    if Slot.available (Slot.mk "10:00" "10:30" true)
    then Result.status res = "confirmed" /\
         Result.details res
         = DetailsBooked "2026-11-09" (Slot.start_time (Slot.mk "10:00" "10:30" true))
             (Slot.end_time (Slot.mk "10:00" "10:30" true)) "consultation"
             (duration_of "consultation") ann "checkup" /\
         exists id, Result.booking_id res = Some id /\ get_booking st' id <> None
    else res = failed "Time slot is not available" /\ st' = clinic.
Proof.
  apply (listed_slot_books_as_listed day_fuel clinic clinic_env clinic_env_later
           "2026-11-09" "consultation"
           (Availability.mk "2026-11-09" (grid clinic (Py.mk_date 2026 11 9) 30 15 540 31))
           (Slot.mk "10:00" "10:30" true) ann "checkup").
  - exists "Ann Lee". reflexivity.
  - exists "ann@example.com". reflexivity.
  - exists "+1-555-0100". reflexivity.
  - vm_compute. reflexivity.
  - apply (list_elem_of_lookup_2 _ 4%nat). vm_compute. reflexivity.
Defined.

(** ** Outcomes of [book_appointment] *)

Lemma check_bookings_no_fuel h date_str s e bs :
  check_bookings h date_str s e bs <> OutOfFuel.
Proof.
  induction bs as [|r bs IH]; [discriminate|].
  rewrite check_bookings_cons. unfold getitem, _parse_time.
  destruct (deref h r !! "date"); [|discriminate]. rewrite bind_Ret_l.
  destruct (_ && _); [|exact IH].
  destruct (deref h r !! "start_time") as [x|]; [|discriminate]. rewrite bind_Ret_l.
  destruct (Py.strptime_time x); [|discriminate]. rewrite bind_Ret_l.
  destruct (deref h r !! "end_time") as [y|]; [|discriminate]. rewrite bind_Ret_l.
  destruct (Py.strptime_time y); [|discriminate]. rewrite bind_Ret_l.
  destruct (negb _); [discriminate|exact IH].
Qed.

Lemma is_slot_available_no_fuel st check_date start_time duration :
  _is_slot_available st check_date start_time duration <> OutOfFuel.
Proof.
  unfold _is_slot_available, _parse_time.
  destruct (negb _); [discriminate|].
  destruct (_get_working_hours _ _) as [wh|]; [|discriminate].
  destruct (Py.strptime_time (h_start wh)); [|discriminate].
  destruct (Py.strptime_time (h_end wh)); [|discriminate]. rewrite !bind_Ret_l.
  destruct (_ || _); [discriminate|].
  destruct (Py.strptime_time (h_start _)); [|discriminate].
  destruct (Py.strptime_time (h_end _)); [|discriminate]. rewrite !bind_Ret_l.
  destruct (negb _); [discriminate|]. apply check_bookings_no_fuel.
Qed.

(** A run of [book_appointment] either returns, as [book_run] describes, or
    raises with the object untouched. *)
Lemma book_appointment_outcome env t d s (p : patient_info) reason st o st' :
  book_appointment env t d s p reason st = (o, st') ->
  (exists res, o = Ret res /\ book_run env t d s p reason st res st') \/
  (exists e, o = Raise e /\ st' = st).
Proof.
  destruct o as [res|e|].
  - intros H. left. exists res. split; [reflexivity|]. apply book_appointment_inv, H.
  - intros H. right. exists e. split; [reflexivity|]. revert H.
    unfold book_appointment. rewrite M_bind_unfold; unfold read at 1; cbv beta.
    destruct (getitem p "name") as [name| |] eqn:En; try (intros H; inversion H; reflexivity).
    destruct (Py.strptime_date d) as [cd|]; [|discriminate].
    destruct (Py.strptime_time s) as [ss|]; [|discriminate].
    rewrite M_bind_unfold; unfold read at 1; cbv beta.
    destruct (_is_slot_available st cd ss (duration_of t)) as [[|]| |];
      try (intros H; inversion H; reflexivity).
    cbn [negb]. rewrite M_bind_unfold; unfold read at 1; cbv beta.
    destruct (_minutes_to_time _) as [se| |]; try (intros H; inversion H; reflexivity).
    rewrite M_bind_unfold; unfold read at 1; cbv beta.
    rewrite M_bind_unfold; unfold read at 1; cbv beta.
    destruct (getitem p "email") as [email| |]; try (intros H; inversion H; reflexivity).
    rewrite M_bind_unfold; unfold read at 1; cbv beta.
    destruct (getitem p "phone") as [phone| |]; try (intros H; inversion H; reflexivity).
    rewrite M_bind_unfold; unfold alloc at 1; cbv beta.
    rewrite M_bind_unfold; unfold _save_booking at 1; cbv beta; cbn [heap bookings schedule_data].
    rewrite deref_app_new, (proj2 (getitem_Ret _ _ _) (new_booking_id _ _ _ _ _ _ _ _ _ _ _)).
    rewrite bind_Ret_l. discriminate.
  - intros H. exfalso. revert H.
    unfold book_appointment. rewrite M_bind_unfold; unfold read at 1; cbv beta.
    unfold getitem at 1. destruct (p !! "name") as [name|]; [|discriminate].
    destruct (Py.strptime_date d) as [cd|]; [|discriminate].
    destruct (Py.strptime_time s) as [ss|]; [|discriminate].
    rewrite M_bind_unfold; unfold read at 1; cbv beta.
    pose proof (is_slot_available_no_fuel st cd ss (duration_of t)) as Hnf.
    destruct (_is_slot_available st cd ss (duration_of t)) as [[|]| |];
      try discriminate; try congruence.
    cbn [negb]. rewrite M_bind_unfold; unfold read at 1; cbv beta.
    unfold _minutes_to_time, Py.mk_time_checked.
    destruct (negb _); [discriminate|]. destruct (_ && _); [|discriminate].
    rewrite M_bind_unfold; unfold read at 1; cbv beta.
    unfold getitem at 1. destruct (p !! "name"); [|discriminate].
    rewrite M_bind_unfold; unfold read at 1; cbv beta.
    unfold getitem at 1. destruct (p !! "email"); [|discriminate].
    rewrite M_bind_unfold; unfold read at 1; cbv beta.
    unfold getitem at 1. destruct (p !! "phone"); [|discriminate].
    rewrite M_bind_unfold; unfold alloc at 1; cbv beta.
    rewrite M_bind_unfold; unfold _save_booking at 1; cbv beta; cbn [heap bookings schedule_data].
    rewrite deref_app_new, (proj2 (getitem_Ret _ _ _) (new_booking_id _ _ _ _ _ _ _ _ _ _ _)).
    rewrite bind_Ret_l. discriminate.
Qed.

(** ** Writes that raise *)

Lemma faulty_book_appointment_writable env t d s (p : patient_info) reason st :
  Faulty.book_appointment Writable env t d s p reason st
  = book_appointment env t d s p reason st.
Proof. reflexivity. Qed.

(** When the write raises, a call that would have been confirmed raises
    [OSError] instead and leaves the record in memory; any other call goes
    as it would with a file that can be written. *)
Lemma faulty_book_appointment_refused kept env t d s (p : patient_info) reason st :
  Faulty.book_appointment (WriteRaises kept) env t d s p reason st =
  match book_appointment env t d s p reason st with
  | (Ret res, st') =>
      if bool_decide (Result.status res = "confirmed")
      then (Raise OSError,
            {| schedule_data := schedule_data st'; heap := heap st';
               bookings := bookings st'; file_appointments := kept |})
      else (Ret res, st')
  | other => other
  end.
Proof.
  unfold Faulty.book_appointment, book_appointment, read, alloc, Faulty._save_booking,
    _save_booking.
  repeat (rewrite M_bind_unfold; cbv beta).
  destruct (getitem p "name") as [name| |]; try reflexivity.
  destruct (Py.strptime_date d) as [cd|]; [|reflexivity].
  destruct (Py.strptime_time s) as [ss|]; [|reflexivity].
  repeat (rewrite M_bind_unfold; cbv beta).
  destruct (_is_slot_available st cd ss (duration_of t)) as [[|]| |]; try reflexivity.
  cbn [negb]. repeat (rewrite M_bind_unfold; cbv beta).
  destruct (_minutes_to_time _) as [se| |]; try reflexivity.
  repeat (rewrite M_bind_unfold; cbv beta).
  destruct (getitem p "email") as [email| |]; try reflexivity.
  repeat (rewrite M_bind_unfold; cbv beta).
  destruct (getitem p "phone") as [phone| |]; try reflexivity.
  repeat (rewrite M_bind_unfold; cbv beta).
  cbn [heap bookings schedule_data file_appointments].
  rewrite deref_app_new, (proj2 (getitem_Ret _ _ _) (new_booking_id _ _ _ _ _ _ _ _ _ _ _)).
  rewrite bind_Ret_l. reflexivity.
Qed.

Lemma faulty_cancel_loop_spec disk id bs st :
  Faulty.cancel_loop disk id bs st =
  match find_booking (heap st) id bs with
  | Some r =>
      match disk with
      | Writable => (Ret true, cancelled st r)
      | WriteRaises kept => (Raise OSError, cancelled_unsaved st r kept)
      end
  | None => (Ret false, st)
  end.
Proof.
  induction bs as [|r bs IH]; [reflexivity|].
  cbn [Faulty.cancel_loop find_booking].
  destruct (bool_decide _) eqn:E; [|exact IH].
  assert (find_booking (heap st) id (r :: bs) = Some r) as Hf.
  { simpl. rewrite E. reflexivity. }
  apply find_booking_Some in Hf as (_ & b & Hb & Hid).
  rewrite M_bind_unfold. unfold setitem at 1. cbv beta.
  rewrite M_bind_unfold. unfold Faulty._save_booking at 1. cbv beta.
  cbn [heap bookings schedule_data file_appointments].
  destruct disk; [|reflexivity].
  rewrite deref_insert_eq by (eapply lookup_lt_Some; eauto).
  unfold getitem. rewrite lookup_insert_ne by discriminate.
  unfold deref at 1. rewrite Hb. simpl. rewrite Hid. reflexivity.
Qed.

Lemma book_run_confirmed_records env t d s (p : patient_info) reason st res st'
    name email phone :
  p !! "name" = Some name -> p !! "email" = Some email -> p !! "phone" = Some phone ->
  book_run env t d s p reason st res st' -> Result.status res = "confirmed" ->
  exists id b,
    Result.booking_id res = Some id /\ b !! "booking_id" = Some id /\
    records b d s name email phone reason /\ st' = stored st b.
Proof.
  intros Hn Hem Hph Hrun Hst.
  destruct Hrun as [ | |cd ss se n em ph Hd Hs Ha He Hn' Hem' Hph' bid code];
    simpl in Hst; try discriminate.
  rewrite Hn in Hn'. rewrite Hem in Hem'. rewrite Hph in Hph'.
  inversion Hn'; inversion Hem'; inversion Hph'; subst n em ph.
  eexists bid, _. split; [reflexivity|]. split; [apply new_booking_id|].
  split; [|reflexivity]. unfold records. repeat split; vm_compute; reflexivity.
Qed.

(** ** [BookingTool] *)

(** X3. [BookingTool.create_booking] always answers: it never raises,
    whatever the object holds, whatever text the caught exception has, and
    whether or not the schedule file can be written.  The result
    is either confirmed, and then the file was written and the object
    gained exactly one record, which carries the returned id, status
    "confirmed" and the caller's date, start time, patient name, email,
    phone and reason; or it is failed, with no id and no confirmation code.
    A failed result leaves the object unchanged, with one exception: when
    the write raises, the result is failed with the text of the [OSError],
    and the new confirmed record is nevertheless in memory and in the list,
    the file holding what the failed write left of it. *)
Theorem create_booking_always_answers
    (str : exn -> string) disk env t d s name email phone reason st :
  exists res st',
    BookingTool.create_booking str disk env t d s name email phone reason st
    = (Ret res, st') /\
    ((Result.status res = "confirmed" /\ disk = Writable /\
      exists id b,
        Result.booking_id res = Some id /\ b !! "booking_id" = Some id /\
        records b d s name email phone reason /\ st' = stored st b) \/
     (Result.status res = "failed" /\ Result.booking_id res = None /\
      Result.confirmation_code res = None /\
      ((exists msg, Result.details res = DetailsError msg) /\ st' = st \/
       exists kept b,
         disk = WriteRaises kept /\ Result.details res = DetailsError (str OSError) /\
         records b d s name email phone reason /\ st' = unsaved st b kept))).
Proof.
  unfold BookingTool.create_booking. cbv zeta.
  set (p := <["name" := name]> (<["email" := email]> (<["phone" := phone]> ∅))).
  assert (p !! "name" = Some name) as Hn by (vm_compute; reflexivity).
  assert (p !! "email" = Some email) as Hem by (vm_compute; reflexivity).
  assert (p !! "phone" = Some phone) as Hph by (vm_compute; reflexivity).
  assert (forall res st', book_run env t d s p reason st res st' ->
            Result.status res <> "confirmed" ->
            Result.status res = "failed" /\ Result.booking_id res = None /\
            Result.confirmation_code res = None /\
            (exists msg, Result.details res = DetailsError msg) /\ st' = st) as Hfailed.
  { intros res st' Hrun Hne. destruct Hrun; simpl in *; try (exfalso; apply Hne; reflexivity);
      eauto 10. }
  destruct (book_appointment env t d s p reason st) as [o st1] eqn:E.
  pose proof (book_appointment_outcome _ _ _ _ _ _ _ _ _ E) as Hout.
  destruct disk as [|kept].
  - rewrite faulty_book_appointment_writable, E.
    destruct Hout as [(res & -> & Hrun)|(e & -> & ->)].
    + exists res, st1. split; [reflexivity|].
      destruct (decide (Result.status res = "confirmed")) as [Hc|Hc].
      * left. split; [exact Hc|]. split; [reflexivity|].
        eapply book_run_confirmed_records; eauto.
      * right. destruct (Hfailed _ _ Hrun Hc) as (? & ? & ? & ? & ?). auto 10.
    + eexists _, st. split; [reflexivity|]. right. simpl. eauto 10.
  - rewrite faulty_book_appointment_refused, E.
    destruct Hout as [(res & -> & Hrun)|(e & -> & ->)].
    + destruct (decide (Result.status res = "confirmed")) as [Hc|Hc].
      * rewrite bool_decide_eq_true_2 by exact Hc.
        destruct (book_run_confirmed_records _ _ _ _ _ _ _ _ _ _ _ _ Hn Hem Hph Hrun Hc)
          as (id & b & _ & _ & Hrec & ->).
        eexists _, _. split; [reflexivity|]. right. simpl.
        split; [reflexivity|]. split; [reflexivity|]. split; [reflexivity|].
        right. exists kept, b. split; [reflexivity|]. split; [reflexivity|].
        split; [exact Hrec|reflexivity].
      * rewrite bool_decide_eq_false_2 by exact Hc.
        exists res, st1. split; [reflexivity|].
        right. destruct (Hfailed _ _ Hrun Hc) as (? & ? & ? & ? & ?). auto 10.
    + eexists _, st. split; [reflexivity|]. right. simpl. eauto 10.
Qed.

(** The exception at work: the file cannot be opened when a booking for
    Monday 10:00 is written, the caller is told "failed", and the slot is
    taken. *)
Example create_booking_refused_write :
  let b := new_booking "APPT-20261103-3F2A9C" "2026-11-09" "10:00" "10:30" "consultation"
             "Ann Lee" "ann@example.com" "+1-555-0100" "checkup" "7B1D44AA"
             "2026-11-03T10:00:00-06:00" in
  BookingTool.create_booking (fun _ => "[Errno 30] Read-only file system")
    (WriteRaises (file_appointments clinic))
    clinic_env "consultation" "2026-11-09" "10:00" "Ann Lee" "ann@example.com"
    "+1-555-0100" "checkup" clinic
  = (Ret (Result.mk None "failed" None
            (DetailsError "[Errno 30] Read-only file system")),
     unsaved clinic b (file_appointments clinic)) /\
  bookings (unsaved clinic b (file_appointments clinic)) = [0%nat] /\ file_appointments (unsaved clinic b (file_appointments clinic)) = [] /\
  _is_slot_available clinic (Py.mk_date 2026 11 9) (Py.mk_time 10 0) 30 = Ret true /\
  _is_slot_available (unsaved clinic b (file_appointments clinic)) (Py.mk_date 2026 11 9) (Py.mk_time 10 0) 30
  = Ret false.
Proof. cbv zeta. repeat split; vm_compute; reflexivity. Qed.

(** X4. [validate_booking_info] lists the missing fields in the fixed
    order name, email, phone, reason for visit, one entry for each argument
    that is [None] or the empty string; [is_valid] holds exactly when that
    list is empty, that is, exactly when all four arguments are non-empty. *)
Theorem validate_booking_info_complete
    (patient_name patient_email patient_phone reason : option string) :
  let v := BookingTool.validate_booking_info patient_name patient_email patient_phone reason in
  Validation.missing_fields v
  = (filter (fun f => truthy f.2 = false)
       [("name", patient_name); ("email", patient_email); ("phone", patient_phone);
        ("reason for visit", reason)]).*1 /\
  (Validation.is_valid v = true <-> Validation.missing_fields v = []) /\
  (Validation.is_valid v = true <->
   truthy patient_name = true /\ truthy patient_email = true /\
   truthy patient_phone = true /\ truthy reason = true).
Proof.
  unfold BookingTool.validate_booking_info. cbv zeta.
  cbn [Validation.missing_fields Validation.is_valid].
  rewrite !filter_cons, filter_nil. cbn [snd].
  destruct (truthy patient_name), (truthy patient_email), (truthy patient_phone),
    (truthy reason); cbn [negb app];
    repeat (rewrite decide_True by reflexivity || rewrite decide_False by discriminate);
    (split; [reflexivity|]); split; split; intros H;
    try reflexivity; try discriminate H; try (repeat split; reflexivity);
    try (destruct H as (?&?&?&?); discriminate).
Qed.

(** ** Sequences of calls *)

Lemma no_double_booking_empty sd : no_double_booking (mk_api sd [] [] []).
Proof. intros i j r1 r2 _ H. simpl in H. rewrite lookup_nil in H. discriminate H. Qed.

Lemma after_calls_cons st c cs : after_calls st (c :: cs) = after_calls (after_call st c) cs.
Proof. reflexivity. Qed.

(** What one call can do to the object. *)
Lemma after_call_cases st c :
  after_call st c = st \/
  (exists env t d s p reason res,
     c = CallBook env t d s p reason /\ Result.status res = "confirmed" /\
     book_appointment env t d s p reason st = (Ret res, after_call st c) /\
     book_run env t d s p reason st res (after_call st c)) \/
  (exists id r b,
     c = CallCancel id /\ get_booking st id = Some r /\
     r ∈ bookings st /\ heap st !! r = Some b /\ after_call st c = cancelled st r).
Proof.
  destruct c as [env t d s p reason|id]; cbn [after_call].
  - destruct (book_appointment env t d s p reason st) as [o st'] eqn:E. cbn [snd].
    destruct (book_appointment_outcome _ _ _ _ _ _ _ _ _ E) as [(res & -> & Hrun)|(e & -> & ->)];
      [|left; reflexivity].
    pose proof Hrun as Hrun'.
    destruct Hrun' as [ | |cd ss se n em ph Hd Hs Ha He Hn Hem Hph bid code];
      [left; reflexivity|left; reflexivity|].
    right. left.
    exists env, t, d, s, p, reason,
      (Result.mk (Some bid) "confirmed" (Some code)
         (DetailsBooked d s (Py.strftime_hm se) t (duration_of t) p reason)).
    split; [reflexivity|]. split; [reflexivity|]. split; [exact E|exact Hrun].
  - unfold cancel_booking. rewrite cancel_loop_spec. unfold get_booking.
    destruct (find_booking _ _ _) as [r|] eqn:Ef; [|left; reflexivity].
    right. right. destruct (find_booking_Some _ _ _ _ Ef) as (Hin & b & Hb & _).
    exists id, r, b. auto.
Qed.

Lemma heap_closed_stored st (b : booking) :
  heap_closedb st = true -> heap_closedb (stored st b) = true.
Proof.
  unfold heap_closedb, stored. cbn [heap bookings]. intros H.
  rewrite forallb_app. apply andb_true_intro. split.
  - rewrite forallb_forall in *. intros r Hr. apply H in Hr.
    apply bool_decide_eq_true in Hr. apply bool_decide_eq_true. rewrite length_app. simpl. lia.
  - simpl. rewrite andb_true_r. apply bool_decide_eq_true. rewrite length_app. simpl. lia.
Qed.

Lemma heap_closed_cancelled st r :
  (r < length (heap st))%nat -> heap_closedb st = true -> heap_closedb (cancelled st r) = true.
Proof.
  unfold heap_closedb, cancelled. cbn [heap bookings]. intros Hr H.
  rewrite length_insert, forallb_app, H. simpl.
  rewrite andb_true_r. apply bool_decide_eq_true. exact Hr.
Qed.

Lemma booking_ok_status (b : booking) v :
  booking_okb (<["status" := v]> b) = booking_okb b.
Proof.
  unfold booking_okb, field_time_okb. rewrite !lookup_insert_ne by discriminate. reflexivity.
Qed.

Lemma deref_cancelled st r r' :
  (r < length (heap st))%nat ->
  deref (heap (cancelled st r)) r'
  = if decide (r' = r) then <["status" := "cancelled"]> (deref (heap st) r)
    else deref (heap st) r'.
Proof.
  intros Hr. unfold cancelled. cbn [heap]. destruct (decide (r' = r)) as [->|Hne].
  - apply deref_insert_eq, Hr.
  - unfold deref. rewrite list_lookup_insert_ne by congruence. reflexivity.
Qed.

Lemma store_ok_stored st (b : booking) :
  heap_closedb st = true -> store_okb st = true -> booking_okb b = true ->
  store_okb (stored st b) = true.
Proof.
  unfold store_okb. intros Hc H Hb. unfold stored at 2. cbn [bookings].
  rewrite forallb_app. apply andb_true_intro. split.
  - rewrite forallb_forall in *. intros r Hr. unfold stored. cbn [heap].
    rewrite (heap_closed_deref st b r Hc) by (apply list_elem_of_In, Hr). apply H, Hr.
  - simpl. unfold stored. cbn [heap]. rewrite deref_app_new, Hb. reflexivity.
Qed.

Lemma store_ok_cancelled st r :
  (r < length (heap st))%nat -> r ∈ bookings st -> store_okb st = true ->
  store_okb (cancelled st r) = true.
Proof.
  unfold store_okb. intros Hr Hin H. rewrite forallb_forall in H.
  apply forallb_forall. intros r' Hr'. rewrite deref_cancelled by exact Hr.
  destruct (decide (r' = r)) as [->|Hne].
  - rewrite booking_ok_status. apply H, list_elem_of_In, Hin.
  - apply H. unfold cancelled in Hr'. cbn [bookings] in Hr'.
    apply in_app_or in Hr' as [Hr'|[Hr'|[]]]; [exact Hr'|congruence].
Qed.

Lemma new_booking_ok id d s e t n em ph re c cr :
  time_okb s = true -> time_okb e = true ->
  booking_okb (new_booking id d s e t n em ph re c cr) = true.
Proof.
  intros Hs He. unfold booking_okb, field_time_okb.
  destruct (new_booking_fields id d s e t n em ph re c cr) as (-> & -> & -> & _).
  rewrite Hs, He. rewrite bool_decide_eq_true_2 by eauto. reflexivity.
Qed.

Lemma book_run_confirmed_ok env t d s (p : patient_info) reason st res st' :
  book_run env t d s p reason st res st' -> Result.status res = "confirmed" ->
  exists b, st' = stored st b /\ booking_okb b = true.
Proof.
  intros Hrun Hst.
  destruct Hrun as [ | |cd ss se n em ph Hd Hs Ha He Hn Hem Hph bid code];
    simpl in Hst; try discriminate.
  eexists. split; [reflexivity|].
  apply minutes_to_time_Ret in He as [Hc ->].
  destruct (minute_facts _ Hc) as (Hpe & _).
  apply new_booking_ok; unfold time_okb; apply bool_decide_eq_true; eauto.
Qed.

Lemma faulty_after_calls_cons st c cs :
  Faulty.after_calls st (c :: cs) = Faulty.after_calls (Faulty.after_call st c) cs.
Proof. reflexivity. Qed.

(** What one call can do to the object when writes may raise. *)
Lemma faulty_after_call_cases st c :
  Faulty.after_call st c = st \/
  (exists b, booking_okb b = true /\
     (Faulty.after_call st c = stored st b \/
      exists kept, Faulty.after_call st c = unsaved st b kept /\ ~ Faulty.writes c)) \/
  (exists r, r ∈ bookings st /\ (r < length (heap st))%nat /\
     (Faulty.after_call st c = cancelled st r \/
      exists kept, Faulty.after_call st c = cancelled_unsaved st r kept /\
                   ~ Faulty.writes c)).
Proof.
  destruct c as [disk env t d s p reason|disk id]; cbn [Faulty.after_call Faulty.writes].
  - destruct (book_appointment env t d s p reason st) as [o st1] eqn:E.
    pose proof (book_appointment_outcome _ _ _ _ _ _ _ _ _ E) as Hout.
    destruct disk as [|kept].
    + rewrite faulty_book_appointment_writable, E. cbn [snd].
      destruct Hout as [(res & -> & Hrun)|(e & -> & ->)]; [|left; reflexivity].
      destruct (decide (Result.status res = "confirmed")) as [Hc|Hc].
      * destruct (book_run_confirmed_ok _ _ _ _ _ _ _ _ _ Hrun Hc) as (b & -> & Hok).
        right. left. exists b. auto.
      * left. destruct Hrun; try reflexivity. exfalso. apply Hc. reflexivity.
    + rewrite faulty_book_appointment_refused, E.
      destruct Hout as [(res & -> & Hrun)|(e & -> & ->)]; [|left; reflexivity].
      destruct (decide (Result.status res = "confirmed")) as [Hc|Hc].
      * rewrite bool_decide_eq_true_2 by exact Hc. cbn [snd].
        destruct (book_run_confirmed_ok _ _ _ _ _ _ _ _ _ Hrun Hc) as (b & -> & Hok).
        right. left. exists b. split; [exact Hok|]. right. exists kept.
        split; [reflexivity|discriminate].
      * rewrite bool_decide_eq_false_2 by exact Hc. cbn [snd].
        left. destruct Hrun; try reflexivity. exfalso. apply Hc. reflexivity.
  - unfold Faulty.cancel_booking. rewrite faulty_cancel_loop_spec.
    destruct (find_booking _ _ _) as [r|] eqn:Ef; [|left; reflexivity].
    right. right. destruct (find_booking_Some _ _ _ _ Ef) as (Hin & b & Hb & _).
    apply lookup_lt_Some in Hb. exists r. split; [exact Hin|]. split; [exact Hb|].
    destruct disk as [|kept];
      [left; reflexivity|right; exists kept; split; [reflexivity|discriminate]].
Qed.

(** X5. Well-formedness of the store is an invariant, also when writes
    raise.  Start from an object whose schedule is well formed, whose
    records have a date and start and end times that parse, and whose
    references point into the heap.  After any sequence of
    [book_appointment] and [cancel_booking] calls, whatever they returned
    or raised and whether or not the file could be written, the object has
    the same three properties, so the availability check does not raise on
    it.  The file mirrors the list afterwards if it did before and no write
    of the sequence raised. *)
Theorem well_formed_store_stays_well_formed st cs :
  schedule_okb (schedule_data st) = true -> store_okb st = true ->
  heap_closedb st = true ->
  let st' := Faulty.after_calls st cs in
  schedule_okb (schedule_data st') = true /\ store_okb st' = true /\
  heap_closedb st' = true /\
  (forall check_date start_time duration,
     exists v, _is_slot_available st' check_date start_time duration = Ret v) /\
  (file_synced st -> Forall Faulty.writes cs -> file_synced st').
Proof.
  intros Hs Hb Hc. cbv zeta.
  assert (schedule_okb (schedule_data (Faulty.after_calls st cs)) = true /\
          store_okb (Faulty.after_calls st cs) = true /\
          heap_closedb (Faulty.after_calls st cs) = true /\
          (file_synced st -> Forall Faulty.writes cs ->
           file_synced (Faulty.after_calls st cs)))
    as (Hs' & Hb' & Hc' & Hf').
  { revert st Hs Hb Hc. induction cs as [|c cs IH]; intros st Hs Hb Hc; [auto|].
    rewrite faulty_after_calls_cons.
    assert (schedule_okb (schedule_data (Faulty.after_call st c)) = true /\
            store_okb (Faulty.after_call st c) = true /\
            heap_closedb (Faulty.after_call st c) = true /\
            (file_synced st -> Faulty.writes c -> file_synced (Faulty.after_call st c)))
      as (Hs1 & Hb1 & Hc1 & Hf1).
    { destruct (faulty_after_call_cases st c)
        as [->|[(b & Hok & [->|(kept & -> & Hw)])|(r & Hin & Hr & [->|(kept & -> & Hw)])]].
      - auto.
      - split; [exact Hs|]. split; [apply store_ok_stored; assumption|].
        split; [apply heap_closed_stored, Hc|]. reflexivity.
      - split; [exact Hs|].
        split; [exact (store_ok_stored st b Hc Hb Hok)|].
        split; [exact (heap_closed_stored st b Hc)|]. intros _ Hw'. contradiction.
      - split; [exact Hs|]. split; [apply store_ok_cancelled; assumption|].
        split; [apply heap_closed_cancelled; assumption|]. reflexivity.
      - split; [exact Hs|].
        split; [exact (store_ok_cancelled st r Hr Hin Hb)|].
        split; [exact (heap_closed_cancelled st r Hr Hc)|]. intros _ Hw'. contradiction. }
    destruct (IH _ Hs1 Hb1 Hc1) as (? & ? & ? & Hf2).
    repeat split; try assumption.
    intros Hf Hall. inversion Hall; subst. auto. }
  repeat split; try assumption.
  intros cd ts dur. apply is_slot_available_returns; assumption.
Qed.

Lemma well_formed_store_stays_well_formed_witness :
  let st' :=
    Faulty.after_calls clinic
      [Faulty.CallBook Writable clinic_env "consultation" "2026-11-09" "10:00" ann
         "checkup";
       Faulty.CallCancel (WriteRaises []) "APPT-20261103-3F2A9C";
       Faulty.CallBook (WriteRaises []) clinic_env_later "physical" "2026-11-9" "10:15" ann
         "checkup"] in
  schedule_okb (schedule_data st') = true /\ store_okb st' = true /\
  heap_closedb st' = true /\
  (forall check_date start_time duration,
     exists v, _is_slot_available st' check_date start_time duration = Ret v) /\
  (file_synced clinic ->
   Forall Faulty.writes
     [Faulty.CallBook Writable clinic_env "consultation" "2026-11-09" "10:00" ann
        "checkup";
      Faulty.CallCancel (WriteRaises []) "APPT-20261103-3F2A9C";
      Faulty.CallBook (WriteRaises []) clinic_env_later "physical" "2026-11-9" "10:15" ann
        "checkup"] ->
   file_synced st').
Proof.
  apply (well_formed_store_stays_well_formed clinic
           [Faulty.CallBook Writable clinic_env "consultation" "2026-11-09" "10:00" ann
              "checkup";
            Faulty.CallCancel (WriteRaises []) "APPT-20261103-3F2A9C";
            Faulty.CallBook (WriteRaises []) clinic_env_later "physical" "2026-11-9" "10:15" ann
              "checkup"]).
  - vm_compute. reflexivity.
  - reflexivity.
  - reflexivity.
Defined.

Lemma continues_refl st : continues st st.
Proof. unfold continues. repeat split; auto. Qed.

Lemma continues_trans st1 st2 st3 : continues st1 st2 -> continues st2 st3 -> continues st1 st3.
Proof.
  intros (S1 & P1 & L1 & F1) (S2 & P2 & L2 & F2).
  split; [congruence|]. split; [etrans; eauto|]. split; [lia|].
  intros r Hr. destruct (F1 r Hr) as [K1 T1]. destruct (F2 r ltac:(lia)) as [K2 T2].
  split.
  - intros k Hk. rewrite K2, K1 by exact Hk. reflexivity.
  - destruct T2 as [T2|T2]; [|right; exact T2]. rewrite T2. exact T1.
Qed.

Lemma continues_stored st (b : booking) : continues st (stored st b).
Proof.
  unfold continues, stored. cbn [schedule_data heap bookings].
  split; [reflexivity|]. split; [apply prefix_app_r; reflexivity|].
  split; [rewrite length_app; lia|].
  intros r Hr. rewrite deref_app_old by exact Hr. auto.
Qed.

Lemma continues_cancelled st r : (r < length (heap st))%nat -> continues st (cancelled st r).
Proof.
  intros Hr. unfold continues. split; [reflexivity|].
  split; [unfold cancelled; cbn [bookings]; apply prefix_app_r; reflexivity|].
  split; [unfold cancelled; cbn [heap]; rewrite length_insert; lia|].
  intros r' Hr'. rewrite deref_cancelled by exact Hr.
  destruct (decide (r' = r)) as [->|Hne]; [|auto].
  split.
  - intros k Hk. apply lookup_insert_ne. congruence.
  - right. apply lookup_insert_eq.
Qed.

(** X6. The history is append-only.  Across any sequence of calls the
    list [bookings] only grows at its end and no record object is dropped;
    the fields of a record other than [status] never change, and its status
    either is what it was or has become "cancelled". *)
Theorem history_is_append_only st cs : continues st (after_calls st cs).
Proof.
  revert st. induction cs as [|c cs IH]; intros st; [apply continues_refl|].
  rewrite after_calls_cons. eapply continues_trans; [|apply IH].
  destruct (after_call_cases st c)
    as [->|[(env & t & d & s & p & reason & res & _ & Hst & _ & Hrun)
           |(id & r & b & _ & _ & _ & Hr & ->)]].
  - apply continues_refl.
  - destruct (book_run_confirmed_ok _ _ _ _ _ _ _ _ _ Hrun Hst) as (b & -> & _).
    apply continues_stored.
  - apply continues_cancelled. eapply lookup_lt_Some; eauto.
Qed.

Lemma canonical_call_keeps_invariant st c :
  canonical_call c -> heap_closedb st = true -> no_double_booking st ->
  no_double_booking (after_call st c) /\ heap_closedb (after_call st c) = true.
Proof.
  intros Hcan Hc Hinv.
  destruct (after_call_cases st c)
    as [->|[(env & t & d & s & p & reason & res & -> & Hst & Hbook & _)
           |(id & r & b & -> & _ & _ & Hr & Hafter)]].
  - auto.
  - eapply book_appointment_keeps_invariant; eauto.
  - split.
    + eapply (cancel_booking_keeps_invariant id st); [exact Hinv|]. apply surjective_pairing.
    + rewrite Hafter. apply heap_closed_cancelled; [eapply lookup_lt_Some; eauto|exact Hc].
Qed.

(** X7. No double booking under canonical date texts.  If every booking
    request in a sequence of calls writes its date the way [%Y-%m-%d] prints
    it, a store in which no two confirmed records with the same date text
    overlap is still such a store after the whole sequence. *)
Theorem no_double_booking_under_canonical_dates st cs :
  Forall canonical_call cs -> heap_closedb st = true -> no_double_booking st ->
  no_double_booking (after_calls st cs).
Proof.
  intros Hcs. revert st. induction Hcs as [|c cs Hc _ IH]; intros st Hcl Hinv; [exact Hinv|].
  rewrite after_calls_cons.
  destruct (canonical_call_keeps_invariant st c Hc Hcl Hinv) as [H1 H2]. apply IH; assumption.
Qed.

Lemma no_double_booking_under_canonical_dates_witness :
  no_double_booking
    (after_calls clinic
       [CallBook clinic_env "consultation" "2026-11-09" "10:00" ann "checkup";
        CallBook clinic_env_later "consultation" "2026-11-09" "10:00" ann "checkup";
        CallCancel "APPT-20261103-3F2A9C";
        CallBook clinic_env_later "physical" "2026-11-09" "10:15" ann "checkup"]).
Proof.
  apply (no_double_booking_under_canonical_dates clinic
       [CallBook clinic_env "consultation" "2026-11-09" "10:00" ann "checkup";
        CallBook clinic_env_later "consultation" "2026-11-09" "10:00" ann "checkup";
        CallCancel "APPT-20261103-3F2A9C";
        CallBook clinic_env_later "physical" "2026-11-09" "10:15" ann "checkup"]).
  - repeat constructor; exact canonical_padded.
  - reflexivity.
  - apply no_double_booking_empty.
Defined.

(** ** Cancelling *)

Lemma deref_insert_ne h r r' (b : booking) : r' <> r -> deref (<[r := b]> h) r' = deref h r'.
Proof. intros H. unfold deref. rewrite list_lookup_insert_ne by congruence. reflexivity. Qed.

Lemma find_booking_status h r v id bs :
  (r < length h)%nat ->
  find_booking (<[r := <["status" := v]> (deref h r)]> h) id bs = find_booking h id bs.
Proof.
  intros Hr. induction bs as [|r0 bs IH]; [reflexivity|]. cbn [find_booking].
  rewrite IH. destruct (decide (r0 = r)) as [->|Hne].
  - rewrite deref_insert_eq by exact Hr. rewrite lookup_insert_ne by discriminate. reflexivity.
  - rewrite deref_insert_ne by exact Hne. reflexivity.
Qed.

Lemma get_booking_cancelled st (id : string) r :
  (r < length (heap st))%nat ->
  get_booking (cancelled st r) id =
  match get_booking st id with
  | Some r' => Some r'
  | None => if bool_decide (deref (heap st) r !! "booking_id" = Some id) then Some r else None
  end.
Proof.
  intros Hr. unfold get_booking, cancelled. cbn [heap bookings].
  rewrite find_booking_app, find_booking_status by exact Hr.
  destruct (find_booking (heap st) id (bookings st)); [reflexivity|].
  cbn [find_booking]. rewrite deref_insert_eq by exact Hr.
  rewrite lookup_insert_ne by discriminate. reflexivity.
Qed.

(** X8. What [cancel_booking] answers.  For an id that no record carries
    it returns [False] and leaves the object unchanged, without touching
    the file; it returns [False] in no other case.  For an id that
    [get_booking] finds, it sets that record's status to "cancelled" and
    appends its reference to the list, and then returns [True] with the
    file rewritten when the file can be written, and raises [OSError],
    both changes made in memory, when the write raises. *)
Theorem cancel_booking_answers disk id st :
  (get_booking st id = None -> Faulty.cancel_booking disk id st = (Ret false, st)) /\
  (forall r, get_booking st id = Some r ->
     Faulty.cancel_booking disk id st
     = match disk with
       | Writable => (Ret true, cancelled st r)
       | WriteRaises kept => (Raise OSError, cancelled_unsaved st r kept)
       end) /\
  (forall st', Faulty.cancel_booking disk id st = (Ret false, st') ->
     get_booking st id = None /\ st' = st).
Proof.
  unfold Faulty.cancel_booking, get_booking. rewrite faulty_cancel_loop_spec.
  destruct (find_booking _ _ _) as [r|].
  - split; [discriminate|]. split.
    + intros r' H. inversion H; subst r'. reflexivity.
    + intros st' H. destruct disk; discriminate H.
  - split; [reflexivity|]. split; [discriminate|].
    intros st' H. inversion H. auto.
Qed.

Lemma cancel_booking_answers_witness :
  Faulty.cancel_booking (WriteRaises (file_appointments clinic_after_padded))
    "APPT-20261103-3F2A9C" clinic_after_padded
  = (Raise OSError,
     cancelled_unsaved clinic_after_padded 0 (file_appointments clinic_after_padded)) /\
  Faulty.cancel_booking (WriteRaises (file_appointments clinic_after_padded))
    "APPT-20261103-000000" clinic_after_padded
  = (Ret false, clinic_after_padded).
Proof.
  split.
  - apply (proj1 (proj2 (cancel_booking_answers
                           (WriteRaises (file_appointments clinic_after_padded))
                           "APPT-20261103-3F2A9C" clinic_after_padded)) 0%nat).
    vm_compute. reflexivity.
  - apply (proj1 (cancel_booking_answers
                    (WriteRaises (file_appointments clinic_after_padded))
                    "APPT-20261103-000000" clinic_after_padded)).
    vm_compute. reflexivity.
Defined.

(** X9. Cancelling twice.  After a cancellation returned [True],
    [get_booking] still finds the same record under the id, now with status
    "cancelled"; a second [cancel_booking] with that id returns [True]
    again, changes no record, and appends the reference once more, so that
    the list and the file hold two entries more than before the first
    call. *)
Theorem cancel_twice id st st' :
  cancel_booking id st = (Ret true, st') ->
  exists r st'',
    get_booking st id = Some r /\ get_booking st' id = Some r /\
    deref (heap st') r !! "status" = Some "cancelled" /\
    cancel_booking id st' = (Ret true, st'') /\
    heap st'' = heap st' /\
    bookings st'' = bookings st ++ [r; r] /\
    length (file_appointments st'') = (length (bookings st) + 2)%nat.
Proof.
  unfold cancel_booking. rewrite cancel_loop_spec. fold (get_booking st id).
  destruct (get_booking st id) as [r|] eqn:Ef; [|discriminate].
  intros H. inversion H; subst st'. clear H.
  destruct (find_booking_Some _ _ _ _ Ef) as (Hin & b & Hb & Hid).
  assert (r < length (heap st))%nat as Hr by (eapply lookup_lt_Some; eauto).
  assert (get_booking (cancelled st r) id = Some r) as Hget.
  { rewrite (get_booking_cancelled st id r Hr), Ef. reflexivity. }
  assert (deref (heap (cancelled st r)) r !! "status" = Some "cancelled") as Hst.
  { rewrite deref_cancelled by exact Hr. rewrite decide_True by reflexivity.
    apply lookup_insert_eq. }
  exists r, (cancelled (cancelled st r) r).
  split; [reflexivity|]. split; [exact Hget|]. split; [exact Hst|].
  rewrite cancel_loop_spec. fold (get_booking (cancelled st r) id). rewrite Hget.
  split; [reflexivity|].
  split.
  - unfold cancelled at 1. cbn [heap]. apply list_eq. intros i.
    destruct (decide (i = r)) as [->|Hne].
    + rewrite list_lookup_insert_eq
        by (unfold cancelled; cbn [heap]; rewrite length_insert; exact Hr).
      assert (is_Some (heap (cancelled st r) !! r)) as [b' Hb'].
      { apply lookup_lt_is_Some. unfold cancelled. cbn [heap]. rewrite length_insert. exact Hr. }
      rewrite Hb'. f_equal. unfold deref. rewrite Hb'. simpl.
      apply map_eq. intros k. destruct (decide (k = "status")) as [->|Hk].
      * rewrite lookup_insert_eq. unfold deref in Hst. rewrite Hb' in Hst. symmetry. exact Hst.
      * rewrite lookup_insert_ne by congruence. reflexivity.
    + rewrite list_lookup_insert_ne by congruence. reflexivity.
  - split.
    + unfold cancelled. cbn [bookings]. rewrite <- app_assoc. reflexivity.
    + unfold cancelled. cbn [file_appointments bookings heap].
      rewrite length_fmap, !length_app. simpl. lia.
Qed.

Lemma cancel_twice_witness :
  exists r st'',
    get_booking clinic_after_padded "APPT-20261103-3F2A9C" = Some r /\
    get_booking (cancel_booking "APPT-20261103-3F2A9C" clinic_after_padded).2
      "APPT-20261103-3F2A9C" = Some r /\
    deref (heap (cancel_booking "APPT-20261103-3F2A9C" clinic_after_padded).2) r !! "status"
    = Some "cancelled" /\
    cancel_booking "APPT-20261103-3F2A9C"
      (cancel_booking "APPT-20261103-3F2A9C" clinic_after_padded).2 = (Ret true, st'') /\
    heap st'' = heap (cancel_booking "APPT-20261103-3F2A9C" clinic_after_padded).2 /\
    bookings st'' = bookings clinic_after_padded ++ [r; r] /\
    length (file_appointments st'') = (length (bookings clinic_after_padded) + 2)%nat.
Proof.
  apply (cancel_twice "APPT-20261103-3F2A9C" clinic_after_padded).
  vm_compute. reflexivity.
Defined.

(** ** Booking and then cancelling *)

Lemma check_bookings_app_full h date_str s e bs1 bs2 :
  check_bookings h date_str s e (bs1 ++ bs2) =
  match check_bookings h date_str s e bs1 with
  | Ret true => check_bookings h date_str s e bs2
  | o => o
  end.
Proof.
  induction bs1 as [|r bs1 IH]; [reflexivity|].
  rewrite <- app_comm_cons, !check_bookings_cons.
  destruct (getitem (deref h r) "date") as [d| |]; try reflexivity.
  rewrite !bind_Ret_l.
  destruct (String.eqb d date_str && _); [|exact IH].
  destruct (getitem (deref h r) "start_time" ≫= _parse_time) as [t1| |]; try reflexivity.
  destruct (getitem (deref h r) "end_time" ≫= _parse_time) as [t2| |]; try reflexivity.
  rewrite !bind_Ret_l. destruct (negb _); [reflexivity|exact IH].
Qed.

Lemma check_bookings_ext h h' date_str s e bs :
  (forall r, r ∈ bs -> deref h' r = deref h r) ->
  check_bookings h' date_str s e bs = check_bookings h date_str s e bs.
Proof.
  induction bs as [|r bs IH]; intros H; [reflexivity|].
  rewrite !check_bookings_cons, (H r) by left.
  rewrite IH by (intros r' Hr'; apply H; right; exact Hr'). reflexivity.
Qed.

Lemma check_bookings_skip h date_str s e r :
  is_Some (deref h r !! "date") -> deref h r !! "status" = Some "cancelled" ->
  check_bookings h date_str s e [r] = Ret true.
Proof.
  intros [d Hd] Hst. rewrite check_bookings_cons.
  rewrite (proj2 (getitem_Ret _ _ _) Hd), bind_Ret_l.
  rewrite (bool_decide_eq_false_2 (deref h r !! "status" = Some "confirmed")) by congruence.
  rewrite andb_false_r. reflexivity.
Qed.

(** The availability check reads the object only through its schedule
    document and the scan of its records. *)
Lemma is_slot_available_ext st st' :
  schedule_data st' = schedule_data st ->
  (forall date_str s e,
     check_bookings (heap st') date_str s e (bookings st')
     = check_bookings (heap st) date_str s e (bookings st)) ->
  forall check_date start_time duration,
    _is_slot_available st' check_date start_time duration
    = _is_slot_available st check_date start_time duration.
Proof.
  intros Hsd Hcb cd ts dur. unfold _is_slot_available. cbv zeta. rewrite Hsd.
  destruct (negb _); [reflexivity|].
  destruct (_get_working_hours _ _) as [wh|]; [|reflexivity].
  destruct (_parse_time (h_start wh)); try reflexivity.
  destruct (_parse_time (h_end wh)); try reflexivity. rewrite !bind_Ret_l.
  destruct (_ || _); [reflexivity|].
  destruct (_parse_time (h_start _)); try reflexivity.
  destruct (_parse_time (h_end _)); try reflexivity. rewrite !bind_Ret_l.
  destruct (negb _); [reflexivity|]. apply Hcb.
Qed.

Lemma slots_loop_ext st st' cd dur step end_mins :
  (forall ts, _is_slot_available st' cd ts dur = _is_slot_available st cd ts dur) ->
  forall fuel cur acc,
    slots_loop fuel st' cd dur step end_mins cur acc
    = slots_loop fuel st cd dur step end_mins cur acc.
Proof.
  intros H. induction fuel as [|fuel IH]; intros cur acc; [reflexivity|].
  rewrite !slots_loop_unfold. destruct (_ <=? _); [|reflexivity].
  destruct (_minutes_to_time cur); try reflexivity.
  destruct (_minutes_to_time (cur + dur)); try reflexivity. rewrite !bind_Ret_l.
  rewrite H. destruct (_is_slot_available st cd _ dur); try reflexivity.
  rewrite !bind_Ret_l. apply IH.
Qed.

Lemma get_availability_ext st st' :
  schedule_data st' = schedule_data st ->
  (forall cd ts dur, _is_slot_available st' cd ts dur = _is_slot_available st cd ts dur) ->
  forall fuel env date_str t,
    get_availability fuel st' env date_str t = get_availability fuel st env date_str t.
Proof.
  intros Hsd H fuel env date_str t. unfold get_availability. rewrite Hsd.
  destruct (Py.strptime_date date_str) as [cd|]; [|reflexivity].
  destruct (Py.date_ltb _ _); [reflexivity|].
  destruct (_get_working_hours _ _) as [wh|]; [|reflexivity].
  destruct (_parse_time (h_start wh)); try reflexivity.
  destruct (_parse_time (h_end wh)); try reflexivity. rewrite !bind_Ret_l.
  rewrite (slots_loop_ext st st') by (intros ts; apply H). reflexivity.
Qed.

(** X10. Cancelling gives the slot back.  After a confirmed booking under
    an id that no record carried before, [cancel_booking] with that id
    succeeds, and every answer of the availability check, hence of
    [get_availability], is what it was before the booking; the identical
    request is then confirmed again.  This holds for any date text. *)
Theorem cancel_frees_the_slot env t d s (p : patient_info) reason st res st1 id :
  heap_closedb st = true -> get_booking st id = None ->
  book_appointment env t d s p reason st = (Ret res, st1) ->
  Result.booking_id res = Some id ->
  exists st2,
    cancel_booking id st1 = (Ret true, st2) /\
    (forall check_date start_time duration,
       _is_slot_available st2 check_date start_time duration
       = _is_slot_available st check_date start_time duration) /\
    (forall fuel env' date_str t',
       get_availability fuel st2 env' date_str t'
       = get_availability fuel st env' date_str t') /\
    (forall env', exists res2 st3,
       book_appointment env' t d s p reason st2 = (Ret res2, st3) /\
       Result.status res2 = "confirmed").
Proof.
  intros Hclosed Hfresh Hrun Hid. apply book_appointment_inv in Hrun.
  destruct Hrun as [ | |cd ss se name email phone Hd Hs Ha He Hn Hem Hph bid code];
    simpl in Hid; try discriminate.
  inversion Hid; subst id. clear Hid.
  set (b := new_booking _ _ _ _ _ _ _ _ _ _ _).
  set (n := length (heap st)).
  assert (n < length (heap (stored st b)))%nat as Hn'.
  { unfold stored. cbn [heap]. rewrite length_app. simpl. unfold n. lia. }
  assert (get_booking (stored st b) bid = Some n) as Hget.
  { unfold get_booking, stored. cbn [heap bookings].
    rewrite find_booking_app, find_booking_grow by exact Hclosed.
    unfold get_booking in Hfresh. rewrite Hfresh. simpl.
    rewrite deref_app_new.
    rewrite bool_decide_eq_true_2 by apply new_booking_id. reflexivity. }
  exists (cancelled (stored st b) n).
  assert (cancel_booking bid (stored st b) = (Ret true, cancelled (stored st b) n)) as Hcancel.
  { unfold cancel_booking. rewrite cancel_loop_spec. fold (get_booking (stored st b) bid).
    rewrite Hget. reflexivity. }
  assert (forall check_date start_time duration,
            _is_slot_available (cancelled (stored st b) n) check_date start_time duration
            = _is_slot_available st check_date start_time duration) as Hsame.
  { apply is_slot_available_ext; [reflexivity|]. intros date_str s0 e0.
    unfold cancelled at 2. cbn [bookings]. unfold stored at 2. cbn [bookings]. fold n.
    rewrite <- app_assoc, check_bookings_app_full.
    assert (forall r, r ∈ bookings st ->
              deref (heap (cancelled (stored st b) n)) r = deref (heap st) r) as Hold.
    { intros r Hr. rewrite deref_cancelled by exact Hn'.
      pose proof (heap_closed_deref st b r Hclosed Hr) as Hd'.
      unfold heap_closedb in Hclosed. rewrite forallb_forall in Hclosed.
      apply list_elem_of_In, Hclosed, bool_decide_eq_true in Hr.
      rewrite decide_False by (unfold n; lia). exact Hd'. }
    rewrite (check_bookings_ext (heap st)) by exact Hold.
    assert (check_bookings (heap (cancelled (stored st b) n)) date_str s0 e0 ([n] ++ [n])
            = Ret true) as Hnew.
    { assert (is_Some (deref (heap (cancelled (stored st b) n)) n !! "date")) as H1.
      { rewrite deref_cancelled, decide_True by (exact Hn' || reflexivity).
        rewrite lookup_insert_ne by discriminate.
        unfold stored. cbn [heap]. unfold n. rewrite deref_app_new. unfold b.
        rewrite new_booking_date. eauto. }
      assert (deref (heap (cancelled (stored st b) n)) n !! "status" = Some "cancelled") as H2.
      { rewrite deref_cancelled, decide_True by (exact Hn' || reflexivity).
        apply lookup_insert_eq. }
      rewrite check_bookings_app_full, (check_bookings_skip _ _ _ _ _ H1 H2).
      reflexivity. }
    rewrite Hnew. destruct (check_bookings (heap st) date_str s0 e0 (bookings st)) as [[|]| |];
      reflexivity. }
  split; [exact Hcancel|]. split; [exact Hsame|].
  split; [apply get_availability_ext; [reflexivity|exact Hsame]|].
  intros env'.
  destruct (book_appointment_confirms env' t d s p reason (cancelled (stored st b) n) cd ss
              name email phone Hn Hem Hph Hd Hs) as [_ Hbook].
  { rewrite Hsame. exact Ha. }
  eexists _, _. split; [exact Hbook|]. reflexivity.
Qed.

Lemma cancel_frees_the_slot_witness :
  exists st2,
    cancel_booking "APPT-20261103-3F2A9C" clinic_after_padded = (Ret true, st2) /\
    (forall check_date start_time duration,
       _is_slot_available st2 check_date start_time duration
       = _is_slot_available clinic check_date start_time duration) /\
    (forall fuel env' date_str t',
       get_availability fuel st2 env' date_str t'
       = get_availability fuel clinic env' date_str t') /\
    (forall env', exists res2 st3,
       book_appointment env' "consultation" "2026-11-09" "10:00" ann "checkup" st2
       = (Ret res2, st3) /\
       Result.status res2 = "confirmed").
Proof.
  apply (cancel_frees_the_slot clinic_env "consultation" "2026-11-09" "10:00" ann "checkup"
           clinic
           (Result.mk (Some "APPT-20261103-3F2A9C") "confirmed" (Some "7B1D44AA")
              (DetailsBooked "2026-11-09" "10:00" "10:30" "consultation" 30 ann "checkup"))
           clinic_after_padded "APPT-20261103-3F2A9C").
  - reflexivity.
  - reflexivity.
  - vm_compute. reflexivity.
  - reflexivity.
Defined.

(** ** Minutes and times of day *)

(** X11. Minutes and times of day.  [_minutes_to_time] returns for the
    minutes 0 to 1439; for any other number it raises [ValueError] when the
    hour [minutes // 60] fits a C [int] and [OverflowError] when it does
    not.  On the range 0 to 1439 [_time_to_minutes] inverts it and the
    [%H:%M] text of the time parses back to it.  Every time [_parse_time]
    returns lies in that range, is recovered from its minute count, and is
    recovered from its own formatted text (which need not be the text that
    was parsed). *)
Theorem time_conversions_round_trip :
  (forall c,
     _minutes_to_time c
     = if (0 <=? c) && (c <? 1440) then Ret (Py.mk_time (c / 60) (c mod 60))
       else if (-2147483648 * 60 <=? c) && (c <? 2147483648 * 60) then Raise ValueError
       else Raise OverflowError) /\
  (forall c, 0 <= c < 1440 ->
     _time_to_minutes (Py.mk_time (c / 60) (c mod 60)) = c /\
     _parse_time (Py.strftime_hm (Py.mk_time (c / 60) (c mod 60)))
     = Ret (Py.mk_time (c / 60) (c mod 60))) /\
  (forall s t, _parse_time s = Ret t ->
     0 <= _time_to_minutes t < 1440 /\
     _minutes_to_time (_time_to_minutes t) = Ret t /\
     _parse_time (Py.strftime_hm t) = Ret t).
Proof.
  split; [|split].
  - intros c. unfold _minutes_to_time, Py.mk_time_checked, Py.c_int. cbv zeta.
    pose proof (Z.div_mod c 60 ltac:(lia)) as Hc.
    pose proof (Z.mod_pos_bound c 60 ltac:(lia)) as Hr.
    set (q := c / 60) in *. set (r := c mod 60) in *.
    repeat match goal with
           | |- context [?a <=? ?b] => destruct (Z.leb_spec a b)
           | |- context [?a <? ?b] => destruct (Z.ltb_spec a b)
           end; cbn [andb negb]; try reflexivity; lia.
  - intros c Hc. destruct (minute_facts c Hc) as (H1 & _ & _ & H2).
    split; [exact H2|]. apply parse_time_Ret, H1.
  - intros s t H. apply parse_time_Ret in H.
    pose proof (parsed_minutes_bounds _ _ H) as Hb.
    pose proof (strptime_time_bounds _ _ H) as [Hh Hm].
    destruct (minute_facts _ Hb) as (H1 & _ & H3 & _).
    assert (Py.mk_time (_time_to_minutes t / 60) (_time_to_minutes t mod 60) = t) as Ht.
    { destruct t as [h m]. unfold _time_to_minutes in *. simpl in *. f_equal.
      - symmetry. apply (Z.div_unique _ 60 h m); lia.
      - symmetry. apply (Z.mod_unique _ 60 h m); lia. }
    rewrite Ht in *. split; [exact Hb|]. split; [exact H3|]. apply parse_time_Ret, H1.
Qed.

Lemma time_conversions_round_trip_witness :
  (_time_to_minutes (Py.mk_time (605 / 60) (605 mod 60)) = 605 /\
   _parse_time (Py.strftime_hm (Py.mk_time (605 / 60) (605 mod 60)))
   = Ret (Py.mk_time (605 / 60) (605 mod 60))) /\
  (0 <= _time_to_minutes (Py.mk_time 9 5) < 1440 /\
   _minutes_to_time (_time_to_minutes (Py.mk_time 9 5)) = Ret (Py.mk_time 9 5) /\
   _parse_time (Py.strftime_hm (Py.mk_time 9 5)) = Ret (Py.mk_time 9 5)).
Proof.
  split.
  - apply (proj1 (proj2 time_conversions_round_trip) 605). lia.
  - apply (proj2 (proj2 time_conversions_round_trip) "9:05" (Py.mk_time 9 5)). reflexivity.
Defined.

(** ** [suggest_slots] for a preferred date *)

Lemma preferred_loop_entries preferred_date d slots :
  Py.strptime_date preferred_date = Some d ->
  forall acc,
    preferred_loop preferred_date slots acc
    = Ret (acc ++ day_entries preferred_date (Py.strftime_A d) slots).
Proof.
  intros Hd. induction slots as [|slot slots IH]; intros acc.
  - simpl. rewrite app_nil_r. reflexivity.
  - cbn [preferred_loop]. rewrite Hd, IH, <- app_assoc. reflexivity.
Qed.

Lemma slice_to_length {A} (n : Z) (l : list A) :
  length (slice_to n l)
  = if 0 <=? n then Nat.min (Z.to_nat n) (length l)
    else Z.to_nat (Z.of_nat (length l) + n).
Proof.
  unfold slice_to. destruct (Z.leb_spec 0 n); rewrite length_take; lia.
Qed.

(** X12. Suggestions for a preferred date.  With a non-empty preferred
    date, whenever the slot query for that date returns, [suggest_slots]
    returns too (the [strptime] call inside its loop cannot raise): one
    entry for each slot of [slots[:num_suggestions]], in order, each with
    the date text as given and the weekday name of the parsed date.  A
    non-negative [num_suggestions] caps the count; a negative one drops that
    many slots from the end. *)
Theorem preferred_date_suggestions fuel st env preferred_date t tp n slots :
  preferred_date <> "" ->
  get_available_slots_only fuel st env preferred_date t tp = Ret slots ->
  suggest_slots fuel st env (Some preferred_date) t tp n
  = Ret (day_entries preferred_date (day_name_of preferred_date) (slice_to n slots)) /\
  length (day_entries preferred_date (day_name_of preferred_date) (slice_to n slots))
  = (if 0 <=? n then Nat.min (Z.to_nat n) (length slots)
     else Z.to_nat (Z.of_nat (length slots) + n)).
Proof.
  intros Hne Hrun. split.
  2:{ unfold day_entries. rewrite length_fmap. apply slice_to_length. }
  unfold suggest_slots.
  assert (truthy (Some preferred_date) = true) as ->.
  { simpl. apply negb_true_iff, String.eqb_neq, Hne. }
  change (default "" (Some preferred_date)) with preferred_date. cbv zeta.
  unfold check_availability. rewrite Hrun, !bind_Ret_l.
  cbn [Check.slots_count Check.available_slots].
  destruct slots as [|slot slots].
  { simpl. unfold slice_to. destruct (0 <=? n); rewrite take_nil; reflexivity. }
  destruct (Z.gtb_spec (Z.of_nat (length (slot :: slots))) 0); [|simpl in *; lia].
  apply get_available_slots_only_inv in Hrun as (av & Hav & Hs).
  assert (exists d, Py.strptime_date preferred_date = Some d) as [d Hd].
  { destruct (Py.strptime_date preferred_date) as [d|] eqn:Ed; [eauto|].
    rewrite (get_availability_unparseable _ _ _ _ _ Ed) in Hav. inversion Hav; subst av.
    cbv zeta in Hs. simpl in Hs. destruct (truthy tp); discriminate Hs. }
  rewrite (preferred_loop_entries _ d _ Hd). unfold day_name_of. rewrite Hd. reflexivity.
Qed.

Lemma preferred_date_suggestions_witness :
  suggest_slots day_fuel clinic clinic_env (Some "2026-11-09") "consultation"
    (Some "morning") (-8)
  = Ret (day_entries "2026-11-09" (day_name_of "2026-11-09")
           (slice_to (-8)
              (open_at 30 <$> [540; 555; 570; 585; 600; 615; 630; 645; 660; 675; 690]))) /\
  length (day_entries "2026-11-09" (day_name_of "2026-11-09")
            (slice_to (-8)
               (open_at 30 <$> [540; 555; 570; 585; 600; 615; 630; 645; 660; 675; 690])))
  = (if 0 <=? -8
     then Nat.min (Z.to_nat (-8))
            (length (open_at 30 <$> [540; 555; 570; 585; 600; 615; 630; 645; 660; 675; 690]))
     else Z.to_nat
            (Z.of_nat
               (length (open_at 30 <$> [540; 555; 570; 585; 600; 615; 630; 645; 660; 675; 690]))
             + -8)).
Proof.
  apply (preferred_date_suggestions day_fuel clinic clinic_env "2026-11-09" "consultation"
           (Some "morning") (-8)
           (open_at 30 <$> [540; 555; 570; 585; 600; 615; 630; 645; 660; 675; 690])).
  - discriminate.
  - vm_compute. reflexivity.
Defined.

(** ** [find_next_available_dates] in general *)

Lemma dates_loop_take_general fuel st env t max_dates tp range :
  forall acc days,
    qualifying_days fuel st env t tp range = Ret days ->
    dates_loop fuel st env t max_dates tp (today_naive env) range acc
    = Ret (acc ++ take (Nat.max 1 (Z.to_nat max_dates - length acc)) (to_info <$> days)).
Proof.
  induction range as [|i range IH]; intros acc days Hq.
  - inversion Hq. simpl. rewrite take_nil, app_nil_r. reflexivity.
  - rewrite qualifying_days_cons in Hq. bind_inv Hq. bind_inv Hq. bind_inv Hq.
    inversion Hq; subst days. clear Hq.
    rewrite dates_loop_cons, Ha, bind_Ret_l.
    unfold check_availability. rewrite Ha0, !bind_Ret_l. cbn [Check.slots_count Check.available_slots].
    destruct a0 as [|slot slots].
    + rewrite bool_decide_eq_true_2 by reflexivity. simpl length.
      destruct (Z.gtb_spec (Z.of_nat 0) 0); [lia|]. apply IH; assumption.
    + rewrite bool_decide_eq_false_2 by discriminate.
      destruct (Z.gtb_spec (Z.of_nat (length (slot :: slots))) 0); [|simpl in *; lia].
      cbv zeta. rewrite length_app. cbn [length].
      rewrite fmap_cons. cbn [to_info].
      destruct (Z.geb_spec (Z.of_nat (length acc + 1)) max_dates) as [Hge|Hlt].
      * replace (Nat.max 1 (Z.to_nat max_dates - length acc)) with 1%nat by lia.
        cbn [take]. rewrite take_0. reflexivity.
      * rewrite (IH _ _ Ha1).
        rewrite length_app. cbn [length]. rewrite <- app_assoc. cbn [app].
        replace (Nat.max 1 (Z.to_nat max_dates - length acc))
          with (S (Nat.max 1 (Z.to_nat max_dates - (length acc + 1)))) by lia.
        reflexivity.
Qed.

Lemma qualifying_days_sound fuel st env t tp range :
  clock_okb env = true -> Forall (fun k => 1 <= k <= 14) range ->
  forall days,
    qualifying_days fuel st env t tp range = Ret days ->
    Forall (fun day => exists k,
              k ∈ range /\ day.1.1 = Py.strftime_ymd (day_at env k) /\
              day.1.2 = Py.strftime_A (day_at env k) /\ day.2 <> [] /\
              get_available_slots_only fuel st env day.1.1 t tp = Ret day.2) days.
Proof.
  intros Hc Hrange. induction Hrange as [|k range Hk _ IH]; intros days Hq.
  - inversion Hq. constructor.
  - rewrite qualifying_days_cons, (date_add_ok env k Hc Hk), bind_Ret_l in Hq.
    bind_inv Hq. bind_inv Hq. inversion Hq; subst days. clear Hq.
    assert (Forall (fun day => exists k0,
              k0 ∈ k :: range /\ day.1.1 = Py.strftime_ymd (day_at env k0) /\
              day.1.2 = Py.strftime_A (day_at env k0) /\ day.2 <> [] /\
              get_available_slots_only fuel st env day.1.1 t tp = Ret day.2) a0) as Hrest.
    { eapply Forall_impl; [apply IH, Ha0|]. intros day (k0 & Hin & ?).
      exists k0. split; [right; exact Hin|assumption]. }
    destruct (bool_decide (a = [])) eqn:E; [exact Hrest|].
    apply bool_decide_eq_false in E. constructor; [|exact Hrest].
    exists k. simpl. split; [left|]. auto.
Qed.

(** X13. [find_next_available_dates] for any window of at most 14 days
    and any [max_dates].  On a well-formed object it returns; the result has
    at most [max(1, max_dates)] days (one day even for [max_dates <= 0]) and
    is empty for an empty window; each day of it lies 1 to [days_to_check]
    days after today, is one for which [get_available_slots_only] returns a
    non-empty list, and holds the first five of those slots together with
    the count of all of them. *)
Theorem find_next_available_dates_window fuel st env t days_to_check max_dates tp :
  schedule_okb (schedule_data st) = true -> store_okb st = true ->
  clock_okb env = true -> (day_fuel <= fuel)%nat -> days_to_check <= 14 ->
  exists dates,
    find_next_available_dates fuel st env t days_to_check max_dates tp = Ret dates /\
    (length dates <= Z.to_nat (Z.max 1 max_dates))%nat /\
    (days_to_check <= 0 -> dates = []) /\
    Forall (fun date_info => exists k slots,
              1 <= k <= days_to_check /\
              DateInfo.date date_info = Py.strftime_ymd (day_at env k) /\
              DateInfo.day_name date_info = Py.strftime_A (day_at env k) /\
              get_available_slots_only fuel st env (DateInfo.date date_info) t tp
              = Ret slots /\
              slots <> [] /\
              DateInfo.available_slots date_info = take 5 slots /\
              DateInfo.total_slots date_info = Z.of_nat (length slots)) dates.
Proof.
  intros Hs Hb Hc Hfuel Hdays.
  assert (Forall (fun k => 1 <= k <= 14) (seqZ 1 days_to_check)) as Hrange.
  { apply Forall_seqZ. intros k Hk. lia. }
  destruct (qualifying_days_shape fuel st env t tp _ Hs Hb Hc Hfuel Hrange)
    as (groups & Hq & _ & _).
  pose proof (qualifying_days_sound fuel st env t tp _ Hc Hrange _ Hq) as Hsound.
  unfold find_next_available_dates. cbv zeta.
  rewrite (dates_loop_take_general _ _ _ _ max_dates _ _ [] _ Hq). cbn [app length].
  eexists. split; [reflexivity|]. split; [rewrite length_take; lia|]. split.
  - intros H0. rewrite seqZ_nil in Hq by lia. simpl in Hq. injection Hq as Hg.
    destruct groups; [|discriminate Hg]. simpl. apply take_nil.
  - apply Forall_take, Forall_fmap. eapply Forall_impl; [exact Hsound|].
    intros [[date_str day_name] slots] (k & Hk & Hd & Hn & Hne & Hrun). simpl in *.
    apply elem_of_seqZ in Hk. exists k, slots. repeat split; try assumption; lia.
Qed.

Lemma find_next_available_dates_window_witness :
  exists dates,
    find_next_available_dates day_fuel clinic clinic_env "consultation" 14 0 None
    = Ret dates /\
    (length dates <= Z.to_nat (Z.max 1 0))%nat /\
    (14 <= 0 -> dates = []) /\
    Forall (fun date_info => exists k slots,
              1 <= k <= 14 /\
              DateInfo.date date_info = Py.strftime_ymd (day_at clinic_env k) /\
              DateInfo.day_name date_info = Py.strftime_A (day_at clinic_env k) /\
              get_available_slots_only day_fuel clinic clinic_env (DateInfo.date date_info)
                "consultation" None
              = Ret slots /\
              slots <> [] /\
              DateInfo.available_slots date_info = take 5 slots /\
              DateInfo.total_slots date_info = Z.of_nat (length slots)) dates.
Proof.
  apply (find_next_available_dates_window day_fuel clinic clinic_env "consultation" 14 0 None).
  - vm_compute. reflexivity.
  - reflexivity.
  - vm_compute. reflexivity.
  - unfold day_fuel. lia.
  - lia.
Defined.

(** ** The preference filter *)

(** X14. The preference filter.  What [get_available_slots_only] returns
    is a sublist of the slots [get_availability] lists, all flagged
    available.  A listed slot is returned exactly when it is available and
    the preference is absent or empty, or is "morning" and the start hour is
    6 to 11, or "afternoon" and 12 to 16, or "evening" and 17 to 21; under
    any other preference text no slot is returned. *)
Theorem time_preference_filter fuel st env date_str t tp slots :
  get_available_slots_only fuel st env date_str t tp = Ret slots ->
  exists av,
    get_availability fuel st env date_str t = Ret av /\
    slots `sublist_of` Availability.available_slots av /\
    Forall (fun slot => Slot.available slot = true) slots /\
    (forall slot, slot ∈ slots <->
       slot ∈ Availability.available_slots av /\ Slot.available slot = true /\
       match tp with
       | None => True
       | Some pref =>
           if String.eqb pref "" then True
           else if String.eqb pref "morning" then 6 <= slot_hour slot < 12
           else if String.eqb pref "afternoon" then 12 <= slot_hour slot < 17
           else if String.eqb pref "evening" then 17 <= slot_hour slot < 22
           else False
       end).
Proof.
  intros H. apply get_available_slots_only_inv in H as (av & Hav & Hs).
  exists av. split; [exact Hav|]. cbv zeta in Hs.
  set (open := filter (fun slot => Slot.available slot = true)
                 (Availability.available_slots av)) in *.
  assert (slots `sublist_of` open) as Hsub.
  { rewrite Hs. destruct (truthy tp); [apply sublist_filter|reflexivity]. }
  split; [etrans; [exact Hsub|apply sublist_filter]|].
  split.
  { eapply Forall_sublist_of; [exact Hsub|]. apply Forall_forall. intros slot Hin.
    apply list_elem_of_filter in Hin as [Hin _]. exact Hin. }
  intros slot. rewrite Hs. destruct tp as [pref|]; cbn [truthy].
  2:{ unfold open. rewrite list_elem_of_filter. tauto. }
  destruct (String.eqb_spec pref "") as [->|Hne]; cbn [negb].
  { unfold open. rewrite list_elem_of_filter. tauto. }
  rewrite list_elem_of_filter. unfold open. rewrite list_elem_of_filter.
  destruct (String.eqb_spec pref "morning") as [->|Hm].
  { rewrite in_band_morning. split; [intros (? & ? & ?)|intros (? & ? & ?)]; repeat split; auto; lia. }
  destruct (String.eqb_spec pref "afternoon") as [->|Ha].
  { rewrite in_band_afternoon. split; [intros (? & ? & ?)|intros (? & ? & ?)]; repeat split; auto; lia. }
  destruct (String.eqb_spec pref "evening") as [->|He].
  { rewrite in_band_evening. split; [intros (? & ? & ?)|intros (? & ? & ?)]; repeat split; auto; lia. }
  rewrite in_band_unrecognized by (unfold recognized; intros [X|[X|X]]; congruence).
  split; [intros [X _]; discriminate X|intros (_ & _ & [])].
Qed.

Lemma time_preference_filter_witness :
  exists av,
    get_availability day_fuel clinic clinic_env "2026-11-09" "consultation" = Ret av /\
    (open_at 30 <$> [540; 555; 570; 585; 600; 615; 630; 645; 660; 675; 690])
      `sublist_of` Availability.available_slots av /\
    Forall (fun slot => Slot.available slot = true)
      (open_at 30 <$> [540; 555; 570; 585; 600; 615; 630; 645; 660; 675; 690]) /\
    (forall slot,
       slot ∈ open_at 30 <$> [540; 555; 570; 585; 600; 615; 630; 645; 660; 675; 690] <->
       slot ∈ Availability.available_slots av /\ Slot.available slot = true /\
       match Some "morning" with
       | None => True
       | Some pref =>
           if String.eqb pref "" then True
           else if String.eqb pref "morning" then 6 <= slot_hour slot < 12
           else if String.eqb pref "afternoon" then 12 <= slot_hour slot < 17
           else if String.eqb pref "evening" then 17 <= slot_hour slot < 22
           else False
       end).
Proof.
  apply (time_preference_filter day_fuel clinic clinic_env "2026-11-09" "consultation"
           (Some "morning")
           (open_at 30 <$> [540; 555; 570; 585; 600; 615; 630; 645; 660; 675; 690])).
  vm_compute. reflexivity.
Defined.

(** ** When [book_appointment] confirms *)

(** X15. When a booking is confirmed.  For a patient dict that holds
    name, email and phone, [book_appointment] returns status "confirmed"
    exactly when the date and the start time parse and [_is_slot_available]
    answers [True] for the slot of the type's duration.  A confirmed slot
    therefore lies within the working hours of its weekday, misses the lunch
    break and overlaps no counted record. *)
Theorem booking_confirmed_iff env t d s (p : patient_info) reason st :
  is_Some (p !! "name") -> is_Some (p !! "email") -> is_Some (p !! "phone") ->
  ((exists res st', book_appointment env t d s p reason st = (Ret res, st') /\
                    Result.status res = "confirmed")
   <-> exists cd ss, Py.strptime_date d = Some cd /\ Py.strptime_time s = Some ss /\
         _is_slot_available st cd ss (duration_of t) = Ret true) /\
  ((exists res st', book_appointment env t d s p reason st = (Ret res, st') /\
                    Result.status res = "confirmed")
   -> exists cd ss, Py.strptime_date d = Some cd /\ Py.strptime_time s = Some ss /\
        bookable st cd (_time_to_minutes ss) (duration_of t)).
Proof.
  intros [name Hn] [email Hem] [phone Hph].
  assert ((exists res st', book_appointment env t d s p reason st = (Ret res, st') /\
                           Result.status res = "confirmed")
          -> exists cd ss, Py.strptime_date d = Some cd /\ Py.strptime_time s = Some ss /\
               _is_slot_available st cd ss (duration_of t) = Ret true) as Hfwd.
  { intros (res & st' & Hrun & Hst). apply book_appointment_inv in Hrun.
    destruct Hrun as [ | |cd ss se n em ph Hd Hs Ha _ _ _ _ bid code];
      simpl in Hst; try discriminate. eauto. }
  split; [split; [exact Hfwd|]|].
  - intros (cd & ss & Hd & Hs & Ha).
    destruct (book_appointment_confirms env t d s p reason st cd ss name email phone
                Hn Hem Hph Hd Hs Ha) as [_ Hbook].
    eexists _, _. split; [exact Hbook|reflexivity].
  - intros H. destruct (Hfwd H) as (cd & ss & Hd & Hs & Ha). exists cd, ss.
    split; [exact Hd|]. split; [exact Hs|].
    apply is_slot_available_true in Ha as (w0 & w1 & l0 & l1 & Hw & Hl & Hin & Hlu & Hc).
    exists w0, w1, l0, l1. repeat split; try assumption; try lia.
    intros r Hr Hcount b0 b1 Hb.
    destruct (check_bookings_true _ _ _ _ _ Hc r Hr Hcount) as (c0 & c1 & Hb' & Hno).
    rewrite Hb in Hb'. inversion Hb'; subst. exact Hno.
Qed.

Lemma booking_confirmed_iff_witness :
  ((exists res st',
      book_appointment clinic_env "consultation" "2026-11-09" "10:00" ann "checkup" clinic
      = (Ret res, st') /\
      Result.status res = "confirmed")
   <-> exists cd ss, Py.strptime_date "2026-11-09" = Some cd /\
         Py.strptime_time "10:00" = Some ss /\
         _is_slot_available clinic cd ss (duration_of "consultation") = Ret true) /\
  ((exists res st',
      book_appointment clinic_env "consultation" "2026-11-09" "10:00" ann "checkup" clinic
      = (Ret res, st') /\
      Result.status res = "confirmed")
   -> exists cd ss, Py.strptime_date "2026-11-09" = Some cd /\
        Py.strptime_time "10:00" = Some ss /\
        bookable clinic cd (_time_to_minutes ss) (duration_of "consultation")).
Proof.
  apply (booking_confirmed_iff clinic_env "consultation" "2026-11-09" "10:00" ann "checkup"
           clinic).
  - exists "Ann Lee". reflexivity.
  - exists "ann@example.com". reflexivity.
  - exists "+1-555-0100". reflexivity.
Defined.

(** X16. [book_appointment] does not consult the clock.  For a date
    before today [get_availability] lists no slot at all, yet a booking on
    that date is confirmed whenever the slot passes the availability
    check. *)
Theorem past_date_is_booked_not_listed fuel env env' t d s (p : patient_info) reason st cd ss :
  is_Some (p !! "name") -> is_Some (p !! "email") -> is_Some (p !! "phone") ->
  Py.strptime_date d = Some cd -> Py.strptime_time s = Some ss ->
  Py.date_ltb cd (today_tz env) = true ->
  _is_slot_available st cd ss (duration_of t) = Ret true ->
  get_availability fuel st env d t = Ret (Availability.mk d []) /\
  exists res st', book_appointment env' t d s p reason st = (Ret res, st') /\
                  Result.status res = "confirmed".
Proof.
  intros [name Hn] [email Hem] [phone Hph] Hd Hs Hpast Ha.
  split; [eapply get_availability_past; eauto|].
  destruct (book_appointment_confirms env' t d s p reason st cd ss name email phone
              Hn Hem Hph Hd Hs Ha) as [_ Hbook].
  eexists _, _. split; [exact Hbook|reflexivity].
Qed.

Lemma past_date_is_booked_not_listed_witness :
  get_availability day_fuel clinic clinic_env "2026-11-02" "consultation"
  = Ret (Availability.mk "2026-11-02" []) /\
  exists res st',
    book_appointment clinic_env_later "consultation" "2026-11-02" "10:00" ann "checkup" clinic
    = (Ret res, st') /\
    Result.status res = "confirmed".
Proof.
  apply (past_date_is_booked_not_listed day_fuel clinic_env clinic_env_later "consultation"
           "2026-11-02" "10:00" ann "checkup" clinic (Py.mk_date 2026 11 2) (Py.mk_time 10 0)).
  - exists "Ann Lee". reflexivity.
  - exists "ann@example.com". reflexivity.
  - exists "+1-555-0100". reflexivity.
  - reflexivity.
  - reflexivity.
  - reflexivity.
  - vm_compute. reflexivity.
Defined.

(** ** A booking closes its interval *)

Lemma check_bookings_answers h date_str s e s' e' bs :
  check_bookings h date_str s e bs = Ret true ->
  exists v, check_bookings h date_str s' e' bs = Ret v.
Proof.
  induction bs as [|r bs IH]; intros H; [eexists; reflexivity|].
  rewrite check_bookings_cons in *.
  destruct (getitem (deref h r) "date") as [d| |]; try discriminate.
  rewrite bind_Ret_l in *.
  destruct (String.eqb d date_str && _); [|exact (IH H)].
  destruct (getitem (deref h r) "start_time" ≫= _parse_time) as [t1| |]; try discriminate.
  destruct (getitem (deref h r) "end_time" ≫= _parse_time) as [t2| |]; try discriminate.
  rewrite !bind_Ret_l in *. destruct (negb ((e <=? _) || _)); [discriminate|].
  destruct (negb _); [eexists; reflexivity|exact (IH H)].
Qed.

Lemma new_booking_times id d s e t n em ph re c cr ts te :
  Py.strptime_time s = Some ts -> Py.strptime_time e = Some te ->
  getitem (new_booking id d s e t n em ph re c cr) "start_time" ≫= _parse_time = Ret ts /\
  getitem (new_booking id d s e t n em ph re c cr) "end_time" ≫= _parse_time = Ret te.
Proof.
  intros Hs He. unfold getitem.
  destruct (new_booking_fields id d s e t n em ph re c cr) as (_ & -> & -> & _).
  rewrite !bind_Ret_l. split; apply parse_time_Ret; assumption.
Qed.

Lemma booked_interval_closed env t d s (p : patient_info) reason st res st' cd :
  canonical d -> heap_closedb st = true ->
  book_appointment env t d s p reason st = (Ret res, st') ->
  Result.status res = "confirmed" ->
  Py.strptime_date d = Some cd ->
  exists ss,
    Py.strptime_time s = Some ss /\
    forall ts dur,
      overlaps (_time_to_minutes ts) (_time_to_minutes ts + dur)
        (_time_to_minutes ss) (_time_to_minutes ss + duration_of t) ->
      _is_slot_available st' cd ts dur = Ret false.
Proof.
  intros Hcan Hclosed Hrun Hst Hd0. apply book_appointment_inv in Hrun.
  destruct Hrun as [ | |cd' ss se name email phone Hd Hs Ha He Hn Hem Hph bid code];
    simpl in Hst; try discriminate.
  rewrite Hd0 in Hd. inversion Hd; subst cd'. clear Hd.
  exists ss. split; [exact Hs|]. intros ts dur Hov.
  apply minutes_to_time_Ret in He as [Hc ->].
  destruct (minute_facts _ Hc) as (Hpe & _ & _ & Hme).
  set (b := new_booking _ _ _ _ _ _ _ _ _ _ _).
  apply is_slot_available_true in Ha as (w0 & w1 & l0 & l1 & Hw & Hl & _ & _ & Hcheck).
  rewrite (is_slot_available_eval (stored st b) cd ts dur w0 w1 l0 l1 Hw Hl). cbv zeta.
  destruct (_ || _); [reflexivity|]. destruct (negb _); [reflexivity|].
  unfold stored. cbn [heap bookings].
  rewrite check_bookings_app_full, check_bookings_grow by exact Hclosed.
  destruct (check_bookings_answers _ _ _ _ (_time_to_minutes ts) (_time_to_minutes ts + dur) _
              Hcheck) as [[|] ->]; [|reflexivity].
  rewrite check_bookings_cons, deref_app_new.
  assert (getitem b "date" = Ret d) as -> by (apply getitem_Ret, new_booking_date).
  rewrite bind_Ret_l, (Hcan cd Hd0), String.eqb_refl.
  rewrite bool_decide_eq_true_2 by apply new_booking_status. cbn [andb].
  destruct (new_booking_times bid d s
              (Py.strftime_hm (Py.mk_time ((_time_to_minutes ss + duration_of t) / 60)
                                 ((_time_to_minutes ss + duration_of t) mod 60)))
              t name email phone reason code (now_iso env) _ _ Hs Hpe) as [E1 E2].
  fold b in E1, E2. rewrite E1, E2, !bind_Ret_l, Hme.
  replace (negb _) with true; [reflexivity|].
  symmetry. apply overlaps_test. exact Hov.
Qed.

(** X17. A booking closes its interval.  After a confirmed booking whose
    date text is canonical, every slot that [get_availability] lists, for
    any text of the same date and any appointment type, and that overlaps
    the booked interval is flagged unavailable. *)
Theorem booked_slot_is_no_longer_listed
    fuel env env' t t' d d' s (p : patient_info) reason st res st' av slot :
  canonical d -> heap_closedb st = true ->
  book_appointment env t d s p reason st = (Ret res, st') ->
  Result.status res = "confirmed" ->
  Py.strptime_date d' = Py.strptime_date d ->
  get_availability fuel st' env' d' t' = Ret av ->
  slot ∈ Availability.available_slots av ->
  exists ss ts,
    Py.strptime_time s = Some ss /\ Py.strptime_time (Slot.start_time slot) = Some ts /\
    (overlaps (_time_to_minutes ts) (_time_to_minutes ts + duration_of t')
       (_time_to_minutes ss) (_time_to_minutes ss + duration_of t) ->
     Slot.available slot = false).
Proof.
  intros Hcan Hclosed Hrun Hst Hsame Hav Hin.
  destruct (get_availability_emitted _ _ _ _ _ _ _ Hav Hin) as (cd & w0 & w1 & Hd' & _ & _ & He).
  rewrite Hsame in Hd'.
  destruct (booked_interval_closed env t d s p reason st res st' cd Hcan Hclosed Hrun Hst Hd')
    as (ss & Hs & Hclosed').
  destruct He as (c & Hc & _ & _ & Hstart & _ & Ha).
  destruct (minute_facts c Hc) as (Hp & _ & _ & Hm).
  exists ss, (Py.mk_time (c / 60) (c mod 60)). split; [exact Hs|].
  split; [rewrite Hstart; exact Hp|].
  intros Hov. rewrite (Hclosed' _ _ Hov) in Ha. inversion Ha. reflexivity.
Qed.

Lemma booked_slot_is_no_longer_listed_witness :
  exists ss ts,
    Py.strptime_time "10:00" = Some ss /\
    Py.strptime_time (Slot.start_time (Slot.mk "10:15" "10:30" false)) = Some ts /\
    (overlaps (_time_to_minutes ts) (_time_to_minutes ts + duration_of "followup")
       (_time_to_minutes ss) (_time_to_minutes ss + duration_of "consultation") ->
     Slot.available (Slot.mk "10:15" "10:30" false) = false).
Proof.
  apply (booked_slot_is_no_longer_listed day_fuel clinic_env clinic_env_later
           "consultation" "followup" "2026-11-09" "2026-11-9" "10:00" ann "checkup" clinic
           (Result.mk (Some "APPT-20261103-3F2A9C") "confirmed" (Some "7B1D44AA")
              (DetailsBooked "2026-11-09" "10:00" "10:30" "consultation" 30 ann "checkup"))
           clinic_after_padded
           (Availability.mk "2026-11-9"
              (grid clinic_after_padded (Py.mk_date 2026 11 9) 15 15 540 32))
           (Slot.mk "10:15" "10:30" false)).
  - exact canonical_padded.
  - reflexivity.
  - vm_compute. reflexivity.
  - reflexivity.
  - reflexivity.
  - vm_compute. reflexivity.
  - apply (list_elem_of_lookup_2 _ 5%nat). vm_compute. reflexivity.
Defined.

(** ** Defaults and collisions *)

(** X18. The default lunch break.  When the schedule document has no
    [lunch_break] entry, a slot that overlaps 12:00-13:00 is never
    available; on a well-formed object the check answers [False]. *)
Theorem default_lunch_break_is_blocked st check_date start_time duration :
  lunch_break (schedule_data st) = None ->
  overlaps (_time_to_minutes start_time) (_time_to_minutes start_time + duration) 720 780 ->
  _is_slot_available st check_date start_time duration <> Ret true /\
  (schedule_okb (schedule_data st) = true -> store_okb st = true ->
   _is_slot_available st check_date start_time duration = Ret false).
Proof.
  intros Hl Hov.
  assert (_is_slot_available st check_date start_time duration <> Ret true) as Hne.
  { intros H.
    apply is_slot_available_true in H as (w0 & w1 & l0 & l1 & _ & Hlunch & _ & Hno & _).
    unfold lunch_interval, _get_lunch_break in Hlunch. rewrite Hl in Hlunch.
    vm_compute in Hlunch. inversion Hlunch; subst l0 l1. exact (Hno Hov). }
  split; [exact Hne|]. intros Hs Hb.
  destruct (is_slot_available_returns st check_date start_time duration Hs Hb) as [[|] Hv];
    [contradiction|exact Hv].
Qed.

Lemma default_lunch_break_is_blocked_witness :
  _is_slot_available
    (mk_api (mk_schedule (working_hours clinic_schedule) None None None) [] [] [])
    (Py.mk_date 2026 11 9) (Py.mk_time 12 30) 30 <> Ret true /\
  (schedule_okb
     (schedule_data
        (mk_api (mk_schedule (working_hours clinic_schedule) None None None) [] [] []))
   = true ->
   store_okb (mk_api (mk_schedule (working_hours clinic_schedule) None None None) [] [] [])
   = true ->
   _is_slot_available
     (mk_api (mk_schedule (working_hours clinic_schedule) None None None) [] [] [])
     (Py.mk_date 2026 11 9) (Py.mk_time 12 30) 30 = Ret false).
Proof.
  apply (default_lunch_break_is_blocked
           (mk_api (mk_schedule (working_hours clinic_schedule) None None None) [] [] [])
           (Py.mk_date 2026 11 9) (Py.mk_time 12 30) 30).
  - reflexivity.
  - unfold overlaps. vm_compute. split; reflexivity.
Defined.

(** X19. A colliding id.  [book_appointment] does not check that the id
    it draws is new.  When a stored record already carries it, the new
    record is stored under the same id at the end of the list, and
    [get_booking] and [cancel_booking] with that id keep reaching the older
    record, not the new one. *)
Theorem colliding_id_keeps_first_record env t d s (p : patient_info) reason st res st' id r :
  heap_closedb st = true -> get_booking st id = Some r ->
  book_appointment env t d s p reason st = (Ret res, st') ->
  Result.booking_id res = Some id ->
  deref (heap st') (length (heap st)) !! "booking_id" = Some id /\
  bookings st' = bookings st ++ [length (heap st)] /\
  r <> length (heap st) /\
  get_booking st' id = Some r /\
  cancel_booking id st' = (Ret true, cancelled st' r).
Proof.
  intros Hclosed Hget Hrun Hid. apply book_appointment_inv in Hrun.
  destruct Hrun as [ | |cd ss se name email phone Hd Hs Ha He Hn Hem Hph bid code];
    simpl in Hid; try discriminate.
  inversion Hid; subst id. clear Hid.
  set (b := new_booking _ _ _ _ _ _ _ _ _ _ _).
  destruct (find_booking_Some _ _ _ _ Hget) as (_ & b0 & Hb0 & _).
  apply lookup_lt_Some in Hb0.
  assert (get_booking (stored st b) bid = Some r) as Hget'.
  { unfold get_booking, stored. cbn [heap bookings].
    rewrite find_booking_app, find_booking_grow by exact Hclosed.
    unfold get_booking in Hget. rewrite Hget. reflexivity. }
  split; [unfold stored; cbn [heap]; rewrite deref_app_new; apply new_booking_id|].
  split; [reflexivity|]. split; [lia|]. split; [exact Hget'|].
  unfold cancel_booking. rewrite cancel_loop_spec. fold (get_booking (stored st b) bid).
  rewrite Hget'. reflexivity.
Qed.

Lemma colliding_id_keeps_first_record_witness :
  deref (heap (book_appointment clinic_env "followup" "2026-11-09" "11:00" ann "review"
                 clinic_after_padded).2)
    (length (heap clinic_after_padded)) !! "booking_id" = Some "APPT-20261103-3F2A9C" /\
  bookings (book_appointment clinic_env "followup" "2026-11-09" "11:00" ann "review"
              clinic_after_padded).2
  = bookings clinic_after_padded ++ [length (heap clinic_after_padded)] /\
  0%nat <> length (heap clinic_after_padded) /\
  get_booking (book_appointment clinic_env "followup" "2026-11-09" "11:00" ann "review"
                 clinic_after_padded).2 "APPT-20261103-3F2A9C" = Some 0%nat /\
  cancel_booking "APPT-20261103-3F2A9C"
    (book_appointment clinic_env "followup" "2026-11-09" "11:00" ann "review"
       clinic_after_padded).2
  = (Ret true,
     cancelled (book_appointment clinic_env "followup" "2026-11-09" "11:00" ann "review"
                  clinic_after_padded).2 0%nat).
Proof.
  apply (colliding_id_keeps_first_record clinic_env "followup" "2026-11-09" "11:00" ann
           "review" clinic_after_padded
           (Result.mk (Some "APPT-20261103-3F2A9C") "confirmed" (Some "7B1D44AA")
              (DetailsBooked "2026-11-09" "11:00" "11:15" "followup" 15 ann "review"))
           (book_appointment clinic_env "followup" "2026-11-09" "11:00" ann "review"
              clinic_after_padded).2
           "APPT-20261103-3F2A9C" 0%nat).
  - reflexivity.
  - vm_compute. reflexivity.
  - vm_compute. reflexivity.
  - reflexivity.
Defined.

(** ** The buffer setting *)

Lemma is_slot_available_buffer st buffer check_date start_time duration :
  _is_slot_available (with_buffer st buffer) check_date start_time duration
  = _is_slot_available st check_date start_time duration.
Proof. reflexivity. Qed.

Lemma get_availability_buffer fuel st buffer env date_str t :
  get_availability fuel (with_buffer st buffer) env date_str t
  = get_availability fuel st env date_str t.
Proof.
  unfold get_availability.
  destruct (Py.strptime_date date_str) as [cd|]; [|reflexivity].
  destruct (Py.date_ltb _ _); [reflexivity|].
  change (_get_working_hours (schedule_data (with_buffer st buffer)) cd)
    with (_get_working_hours (schedule_data st) cd).
  destruct (_get_working_hours _ _) as [wh|]; [|reflexivity].
  destruct (_parse_time (h_start wh)); try reflexivity.
  destruct (_parse_time (h_end wh)); try reflexivity. rewrite !bind_Ret_l.
  change (slot_duration_minutes (schedule_data (with_buffer st buffer)))
    with (slot_duration_minutes (schedule_data st)).
  rewrite (slots_loop_ext st (with_buffer st buffer)) by (intros ts; reflexivity).
  reflexivity.
Qed.

Lemma book_appointment_buffer env t d s (p : patient_info) reason st buffer :
  book_appointment env t d s p reason (with_buffer st buffer)
  = ((book_appointment env t d s p reason st).1,
     with_buffer (book_appointment env t d s p reason st).2 buffer).
Proof.
  unfold book_appointment, read, alloc, _save_booking.
  repeat (rewrite M_bind_unfold; cbv beta).
  destruct (getitem p "name") as [name| |]; try reflexivity.
  destruct (Py.strptime_date d) as [cd|]; [|reflexivity].
  destruct (Py.strptime_time s) as [ss|]; [|reflexivity].
  repeat (rewrite M_bind_unfold; cbv beta).
  rewrite is_slot_available_buffer.
  destruct (_is_slot_available st cd ss (duration_of t)) as [[|]| |]; try reflexivity.
  cbn [negb]. repeat (rewrite M_bind_unfold; cbv beta).
  destruct (_minutes_to_time _) as [se| |]; try reflexivity.
  repeat (rewrite M_bind_unfold; cbv beta).
  repeat (rewrite M_bind_unfold; cbv beta).
  destruct (getitem p "email") as [email| |]; try reflexivity.
  repeat (rewrite M_bind_unfold; cbv beta).
  destruct (getitem p "phone") as [phone| |]; try reflexivity.
  repeat (rewrite M_bind_unfold; cbv beta).
  repeat (rewrite M_bind_unfold; cbv beta). cbn [heap bookings schedule_data with_buffer].
  rewrite deref_app_new, (proj2 (getitem_Ret _ _ _) (new_booking_id _ _ _ _ _ _ _ _ _ _ _)).
  rewrite bind_Ret_l. reflexivity.
Qed.

(** X20. The [buffer_time_minutes] entry has no effect: the availability
    check, [get_availability] and [book_appointment] give the same answers,
    and [book_appointment] stores the same record, whatever the schedule
    document holds under that key. *)
Theorem buffer_time_has_no_effect fuel env t d s (p : patient_info) reason st buffer :
  (forall check_date start_time duration,
     _is_slot_available (with_buffer st buffer) check_date start_time duration
     = _is_slot_available st check_date start_time duration) /\
  get_availability fuel (with_buffer st buffer) env d t = get_availability fuel st env d t /\
  book_appointment env t d s p reason (with_buffer st buffer)
  = ((book_appointment env t d s p reason st).1,
     with_buffer (book_appointment env t d s p reason st).2 buffer).
Proof.
  split; [intros; apply is_slot_available_buffer|].
  split; [apply get_availability_buffer|apply book_appointment_buffer].
Qed.

(** ** A patient dict that lacks a key *)

(** X21. A patient dict that lacks a key.  [book_appointment] raises
    [KeyError] and leaves the object unchanged when the dict has no name,
    and also when it has no email or no phone provided the date and the
    time parse and the slot is available: the email and phone are read only
    after the availability check. *)
Theorem missing_patient_key_raises env t d s (p : patient_info) reason st :
  p !! "name" = None \/
  ((p !! "email" = None \/ p !! "phone" = None) /\
   exists cd ss,
     Py.strptime_date d = Some cd /\ Py.strptime_time s = Some ss /\
     _is_slot_available st cd ss (duration_of t) = Ret true) ->
  book_appointment env t d s p reason st = (Raise KeyError, st).
Proof.
  intros H.
  assert (p !! "name" = None -> book_appointment env t d s p reason st = (Raise KeyError, st))
    as Hname.
  { intros Hn. unfold book_appointment. rewrite M_bind_unfold; unfold read at 1; cbv beta.
    unfold getitem. rewrite Hn. reflexivity. }
  destruct H as [Hn|[Hmiss (cd & ss & Hd & Hs & Ha)]]; [exact (Hname Hn)|].
  destruct (p !! "name") as [name|] eqn:Hn; [|apply Hname; reflexivity]. clear Hname.
  assert (0 <= _time_to_minutes ss + duration_of t < 1440) as He.
  { pose proof Ha as Ho. apply is_slot_available_true in Ho
      as (w0 & w1 & _ & _ & Hw & _ & Hin & _).
    apply work_interval_inv in Hw as (wh & ws & we & _ & _ & Hwe & _ & ->).
    apply parsed_minutes_bounds in Hwe, Hs. pose proof (duration_of_bounds t). lia. }
  destruct (minute_facts _ He) as (_ & _ & Hm & _).
  unfold book_appointment, read, alloc, _save_booking.
  repeat (rewrite M_bind_unfold; cbv beta).
  rewrite (proj2 (getitem_Ret _ _ _) Hn), Hd, Hs.
  repeat (rewrite M_bind_unfold; cbv beta). rewrite Ha. cbn [negb].
  repeat (rewrite M_bind_unfold; cbv beta). rewrite Hm.
  repeat (rewrite M_bind_unfold; cbv beta).
  unfold getitem. destruct Hmiss as [-> | Hph]; [reflexivity|].
  destruct (p !! "email"); [|reflexivity].
  repeat (rewrite M_bind_unfold; cbv beta). rewrite Hph. reflexivity.
Qed.

Lemma missing_patient_key_raises_witness :
  book_appointment clinic_env "consultation" "2026-11-09" "10:00"
    (<["name" := "Ann Lee"]> (<["email" := "ann@example.com"]> ∅)) "checkup" clinic
  = (Raise KeyError, clinic).
Proof.
  apply (missing_patient_key_raises clinic_env "consultation" "2026-11-09" "10:00"
           (<["name" := "Ann Lee"]> (<["email" := "ann@example.com"]> ∅)) "checkup" clinic).
  right. split; [right; reflexivity|].
  exists (Py.mk_date 2026 11 9), (Py.mk_time 10 0).
  split; [reflexivity|]. split; [reflexivity|]. vm_compute. reflexivity.
Defined.

(** ** Booking never frees a slot *)

(** X22. Booking never frees a slot.  Whatever a [book_appointment] call
    returned or raised, a slot that the availability check accepts after the
    call was accepted before it. *)
Theorem booking_never_frees_a_slot env t d s (p : patient_info) reason st o st'
    check_date start_time duration :
  heap_closedb st = true ->
  book_appointment env t d s p reason st = (o, st') ->
  _is_slot_available st' check_date start_time duration = Ret true ->
  _is_slot_available st check_date start_time duration = Ret true.
Proof.
  intros Hclosed Hrun Ha.
  destruct (book_appointment_outcome _ _ _ _ _ _ _ _ _ Hrun) as [(res & -> & Hr)|(e & -> & ->)];
    [|exact Ha].
  destruct Hr as [ | |cd ss se name email phone Hd Hs Ha0 He Hn Hem Hph bid code];
    try exact Ha.
  apply is_slot_available_true in Ha as (w0 & w1 & l0 & l1 & Hw & Hl & Hin & Hlu & Hc).
  unfold stored in Hw, Hl, Hc. cbn [schedule_data heap bookings] in Hw, Hl, Hc.
  rewrite (is_slot_available_eval st check_date start_time duration w0 w1 l0 l1 Hw Hl).
  cbv zeta.
  destruct (Z.ltb_spec (_time_to_minutes start_time) w0); [lia|].
  destruct (Z.gtb_spec (_time_to_minutes start_time + duration) w1); [lia|]. cbn [orb].
  apply overlaps_test_false in Hlu. rewrite Hlu.
  rewrite check_bookings_app_full, check_bookings_grow in Hc by exact Hclosed.
  destruct (check_bookings (heap st) _ _ _ (bookings st)) as [[|]| |];
    try discriminate; reflexivity.
Qed.

Lemma booking_never_frees_a_slot_witness :
  _is_slot_available clinic (Py.mk_date 2026 11 9) (Py.mk_time 10 30) 30 = Ret true.
Proof.
  apply (booking_never_frees_a_slot clinic_env "consultation" "2026-11-09" "10:00" ann
           "checkup" clinic
           (Ret (Result.mk (Some "APPT-20261103-3F2A9C") "confirmed" (Some "7B1D44AA")
                   (DetailsBooked "2026-11-09" "10:00" "10:30" "consultation" 30 ann
                      "checkup")))
           clinic_after_padded (Py.mk_date 2026 11 9) (Py.mk_time 10 30) 30).
  - reflexivity.
  - vm_compute. reflexivity.
  - vm_compute. reflexivity.
Defined.

(** ** A stored record without a date *)

(** X23. A stored record without a date.  The scan of
    [_is_slot_available] reads the [date] field of each record before it
    compares anything, so a record without that key makes the check raise
    [KeyError], for any day and any slot that lies within the working hours
    and misses the lunch break, unless an earlier record ends the scan with
    an overlap. *)
Theorem record_without_date_breaks_the_check
    st check_date start_time duration w0 w1 l0 l1 before r rest :
  let s := _time_to_minutes start_time in
  work_interval (schedule_data st) check_date = Some (w0, w1) ->
  lunch_interval (schedule_data st) = Some (l0, l1) ->
  w0 <= s /\ s + duration <= w1 ->
  ~ overlaps s (s + duration) l0 l1 ->
  bookings st = before ++ r :: rest ->
  forallb (fun r' => booking_okb (deref (heap st) r')) before = true ->
  (forall r', r' ∈ before -> counts_on (Py.strftime_ymd check_date) (deref (heap st) r') ->
     forall b0 b1, booking_interval (deref (heap st) r') = Some (b0, b1) ->
       ~ overlaps s (s + duration) b0 b1) ->
  deref (heap st) r !! "date" = None ->
  _is_slot_available st check_date start_time duration = Raise KeyError.
Proof.
  intros s Hw Hl Hin Hlu Hbs Hok Hfree Hdate.
  rewrite (is_slot_available_eval st check_date start_time duration w0 w1 l0 l1 Hw Hl).
  cbv zeta. fold s.
  destruct (Z.ltb_spec s w0); [lia|].
  destruct (Z.gtb_spec (s + duration) w1); [lia|]. cbn [orb].
  apply overlaps_test_false in Hlu. rewrite Hlu.
  rewrite Hbs, check_bookings_app_full.
  assert (check_bookings (heap st) (Py.strftime_ymd check_date) s (s + duration) before
          = Ret true) as ->.
  { apply (check_bookings_free (mk_api (schedule_data st) (heap st) before [])); assumption. }
  rewrite check_bookings_cons.
  assert (getitem (deref (heap st) r) "date" = Raise KeyError) as ->
    by (unfold getitem; rewrite Hdate; reflexivity).
  reflexivity.
Qed.

Lemma record_without_date_breaks_the_check_witness :
  _is_slot_available
    (mk_api clinic_schedule
       [new_booking "APPT-20261102-AAAAAA" "2026-11-10" "09:00" "09:30" "consultation"
          "Bo Ray" "bo@example.com" "+1-555-0101" "checkup" "11112222"
          "2026-11-02T09:00:00-06:00";
        <["booking_id" := "APPT-20261102-BBBBBB"]> (<["status" := "confirmed"]> ∅)]
       [0%nat; 1%nat] [])
    (Py.mk_date 2026 11 9) (Py.mk_time 10 0) 30
  = Raise KeyError.
Proof.
  apply (record_without_date_breaks_the_check
           (mk_api clinic_schedule
              [new_booking "APPT-20261102-AAAAAA" "2026-11-10" "09:00" "09:30" "consultation"
                 "Bo Ray" "bo@example.com" "+1-555-0101" "checkup" "11112222"
                 "2026-11-02T09:00:00-06:00";
               <["booking_id" := "APPT-20261102-BBBBBB"]> (<["status" := "confirmed"]> ∅)]
              [0%nat; 1%nat] [])
           (Py.mk_date 2026 11 9) (Py.mk_time 10 0) 30 540 1020 720 780 [0%nat] 1%nat []).
  - vm_compute. reflexivity.
  - vm_compute. reflexivity.
  - unfold _time_to_minutes. simpl. lia.
  - unfold overlaps, _time_to_minutes. simpl. lia.
  - reflexivity.
  - vm_compute. reflexivity.
  - intros r' Hr' [Hd _]. apply list_elem_of_singleton in Hr'. subst r'.
    vm_compute in Hd. discriminate Hd.
  - vm_compute. reflexivity.
Defined.
